(** * Weather aggregation and advisory engine (backend/weather_service.py)

    A shallow embedding of [WeatherService]: the normalizer
    ([_format_current_weather], [_format_forecast_data]), the forecast
    aggregator ([_get_forecast_summary]), the advisory rule engine
    ([_generate_agricultural_suggestions]) and the orchestrator
    ([get_agricultural_suggestions]).

    Modelling conventions.
    - The code is embedded over exact rationals ([Q], compared with
      [==]): this carries whatever does not depend on how a result is
      rounded (grouping, order, counting, comparisons of inputs with
      constants, error paths).  The aggregator and the rule engine are
      embedded a second time over an arbitrary arithmetic ([Generic]),
      of which IEEE 754 double precision ([binary64], the arithmetic of
      CPython's [float]) and the rationals ([rational]) are instances;
      what is said of values that the code first computes and then
      compares is said there.
    - A Python [dict] that the code iterates over is an association list
      in insertion order ([PyDict]).
    - A provider payload is a record whose fields are [option]s: [None]
      is an absent key.  A field that is present has the type of the
      provider's documented shape.
    - Code that can raise returns [result]; the exception raised is the
      first one in the source's evaluation order.
    - Network requests, logging and the clock go through the [IO] monad:
      a read-only [world] and a trace of emitted events. *)

From Stdlib Require Import List Sorted String Ascii DecimalString ZArith QArith
  Qminmax Lia Lqa Bool.
From Stdlib Require Floats.
Import ListNotations.
Open Scope string_scope.
Open Scope Z_scope.
Open Scope Q_scope.

(** ** Exceptions and results *)

Inductive exn : Type :=
| KeyError (key : string)
| IndexError (msg : string)
| TypeError (msg : string)
| ValueError (msg : string)
| ZeroDivisionError (msg : string).

Inductive result (A : Type) : Type :=
| Ok (a : A)
| Raise (e : exn).
Arguments Ok {A} a.
Arguments Raise {A} e.

Definition rbind {A B} (r : result A) (k : A -> result B) : result B :=
  match r with
  | Ok a => k a
  | Raise e => Raise e
  end.

Declare Scope py_scope.
Delimit Scope py_scope with py.
Notation "x <- r ;; k" := (rbind r (fun x => k))
  (at level 61, r at next level, right associativity) : py_scope.
Open Scope py_scope.

Fixpoint mapM {A B} (f : A -> result B) (l : list A) : result (list B) :=
  match l with
  | [] => Ok []
  | x :: l' => y <- f x ;; ys <- mapM f l' ;; Ok (y :: ys)
  end.

(** [str(e)] of an exception, as it is interpolated into error texts. *)
Definition exn_str (e : exn) : string :=
  match e with
  | KeyError k => "'" ++ k ++ "'"
  | IndexError m | TypeError m | ValueError m | ZeroDivisionError m => m
  end.

(** ** Numbers *)

Definition Qltb (x y : Q) : bool := negb (Qle_bool y x).
Definition Qgtb (x y : Q) : bool := Qltb y x.

(** [min(a, b)] and [max(a, b)]: the first argument is kept unless the
    second is strictly smaller (resp. larger). *)
Definition py_min (a b : Q) : Q := if Qltb b a then b else a.
Definition py_max (a b : Q) : Q := if Qgtb b a then b else a.

(** True division [x / y]. *)
Definition py_div (x y : Q) : result Q :=
  if Qeq_bool y 0 then Raise (ZeroDivisionError "division by zero")
  else Ok (x / y).

(** [sum(xs)]: left to right, starting from 0. *)
Definition py_sum (xs : list Q) : Q := fold_left Qplus xs 0.

(** ** Strings *)

Definition is_upper (c : ascii) : bool :=
  let n := nat_of_ascii c in (65 <=? n)%nat && (n <=? 90)%nat.
Definition is_lower (c : ascii) : bool :=
  let n := nat_of_ascii c in (97 <=? n)%nat && (n <=? 122)%nat.
Definition to_lower (c : ascii) : ascii :=
  if is_upper c then ascii_of_nat (nat_of_ascii c + 32) else c.
Definition to_upper (c : ascii) : ascii :=
  if is_lower c then ascii_of_nat (nat_of_ascii c - 32) else c.

(** [s.lower()] on ASCII letters; other bytes are kept. *)
Fixpoint lower (s : string) : string :=
  match s with
  | EmptyString => EmptyString
  | String c s' => String (to_lower c) (lower s')
  end.

(** [s.title()]: a letter that follows a letter is lower-cased, any other
    letter is upper-cased. *)
Fixpoint title_from (prev_cased : bool) (s : string) : string :=
  match s with
  | EmptyString => EmptyString
  | String c s' =>
      let cased := is_upper c || is_lower c in
      String (if prev_cased then to_lower c else to_upper c)
             (title_from cased s')
  end.
Definition title (s : string) : string := title_from false s.

(** [sub in s]. *)
Fixpoint str_in (sub s : string) : bool :=
  if prefix sub s then true
  else match s with
       | EmptyString => false
       | String _ s' => str_in sub s'
       end.

(** [s[:n]]. *)
Definition slice_to (n : nat) (s : string) : string := substring 0 n s.

(** Python's order on strings (by code point; bytes here). *)
Definition str_lt (s t : string) : Prop := String.compare s t = Lt.
Definition str_le (s t : string) : Prop := String.compare s t <> Gt.

(** ** Insertion-ordered dictionaries *)

Module PyDict.
Section Dict.
Context {V : Type}.

Definition t := list (string * V).

Fixpoint get (k : string) (d : t) : option V :=
  match d with
  | [] => None
  | (k', v) :: d' => if String.eqb k k' then Some v else get k d'
  end.

Definition mem (k : string) (d : t) : bool :=
  match get k d with Some _ => true | None => false end.

(** [d[k] = v]: an existing key keeps its position, a new key goes last. *)
Fixpoint set (k : string) (v : V) (d : t) : t :=
  match d with
  | [] => [(k, v)]
  | (k', v') :: d' =>
      if String.eqb k k' then (k, v) :: d' else (k', v') :: set k v d'
  end.

Definition keys (d : t) : list string := map fst d.
Definition values (d : t) : list V := map snd d.

(** [d[k]]. *)
Definition subscript (k : string) (d : t) : result V :=
  match get k d with
  | Some v => Ok v
  | None => Raise (KeyError k)
  end.
End Dict.
Arguments t V : clear implicits.
End PyDict.

(** [max(d, key=d.get)] over the keys of a counting dictionary: the keys
    are scanned in insertion order and the running best is replaced only
    by a strictly larger count. *)
Fixpoint max_scan (best : string * Z) (rest : PyDict.t Z) : string :=
  match rest with
  | [] => fst best
  | (k, n) :: rest' =>
      if (snd best <? n)%Z then max_scan (k, n) rest' else max_scan best rest'
  end.

Definition max_by_count (d : PyDict.t Z) : result string :=
  match d with
  | [] => Raise (ValueError "max() arg is an empty sequence")
  | kv :: rest => Ok (max_scan kv rest)
  end.

(** ** Normalized samples *)

(** One entry of the list built by [_format_forecast_data]. *)
Record forecast_item : Type := {
  fi_datetime : string;
  fi_temperature : Q;
  fi_feels_like : Q;
  fi_humidity : Q;
  fi_pressure : Q;
  fi_description : string;
  fi_main : string;
  fi_icon : string;
  fi_wind_speed : Q;
  fi_wind_direction : Q;
  fi_precipitation_probability : Q;
  fi_rain : Q;
  fi_snow : Q
}.

(** ** Forecast aggregator *)

(** The per-date dictionary while the first loop runs. *)
Record day_acc : Type := {
  acc_date : string;
  acc_min_temp : Q;
  acc_max_temp : Q;
  acc_total_rain : Q;
  acc_avg_humidity : Q;
  acc_conditions : list string;
  acc_count : Z
}.

(** The per-date dictionary once finalized ([conditions] and [count]
    deleted, [main_condition] added). *)
Record day_summary : Type := {
  date : string;
  min_temp : Q;
  max_temp : Q;
  total_rain : Q;
  avg_humidity : Q;
  main_condition : string
}.

(** What [_get_forecast_summary] returns: the literal [{}] on its early
    return, a list otherwise. *)
Inductive summary_value : Type :=
| EmptyDict
| SummaryList (days : list day_summary).

(** Truth value of the returned object ([if forecast_summary:]). *)
Definition truthy (v : summary_value) : bool :=
  match v with
  | EmptyDict => false
  | SummaryList [] => false
  | SummaryList (_ :: _) => true
  end.

Definition item_date (item : forecast_item) : string :=
  slice_to 10 (fi_datetime item).

Definition new_acc (d : string) (item : forecast_item) : day_acc :=
  {| acc_date := d;
     acc_min_temp := fi_temperature item;
     acc_max_temp := fi_temperature item;
     acc_total_rain := 0;
     acc_avg_humidity := 0;
     acc_conditions := [];
     acc_count := 0 |}.

Definition update_acc (summary : day_acc) (item : forecast_item) : day_acc :=
  {| acc_date := acc_date summary;
     acc_min_temp := py_min (acc_min_temp summary) (fi_temperature item);
     acc_max_temp := py_max (acc_max_temp summary) (fi_temperature item);
     acc_total_rain := acc_total_rain summary + fi_rain item;
     acc_avg_humidity := acc_avg_humidity summary + fi_humidity item;
     acc_conditions := acc_conditions summary ++ [fi_main item];
     acc_count := (acc_count summary + 1)%Z |}.

(** Body of [for item in forecast]. *)
Definition accumulate (daily_summaries : PyDict.t day_acc) (item : forecast_item)
  : result (PyDict.t day_acc) :=
  let d := item_date item in
  let daily_summaries :=
    if PyDict.mem d daily_summaries then daily_summaries
    else PyDict.set d (new_acc d item) daily_summaries in
  summary <- PyDict.subscript d daily_summaries ;;
  Ok (PyDict.set d (update_acc summary item) daily_summaries).

Fixpoint accumulate_all (daily_summaries : PyDict.t day_acc)
  (forecast : list forecast_item) : result (PyDict.t day_acc) :=
  match forecast with
  | [] => Ok daily_summaries
  | item :: rest =>
      ds <- accumulate daily_summaries item ;; accumulate_all ds rest
  end.

(** [condition_counts[c] = condition_counts.get(c, 0) + 1] for each [c]. *)
Definition count_condition (condition_counts : PyDict.t Z) (condition : string)
  : PyDict.t Z :=
  let n := match PyDict.get condition condition_counts with
           | Some n => n
           | None => 0%Z
           end in
  PyDict.set condition (n + 1)%Z condition_counts.

Definition condition_counts_of (conditions : list string) : PyDict.t Z :=
  fold_left count_condition conditions [].

(** Body of [for date, summary in daily_summaries.items()]. *)
Definition finalize (summary : day_acc) : result day_summary :=
  avg <- py_div (acc_avg_humidity summary) (inject_Z (acc_count summary)) ;;
  mc <- max_by_count (condition_counts_of (acc_conditions summary)) ;;
  Ok {| date := acc_date summary;
        min_temp := acc_min_temp summary;
        max_temp := acc_max_temp summary;
        total_rain := acc_total_rain summary;
        avg_humidity := avg;
        main_condition := mc |}.

Definition _get_forecast_summary (forecast : list forecast_item)
  : result summary_value :=
  match forecast with
  | [] => Ok EmptyDict
  | _ :: _ =>
      daily_summaries <- accumulate_all [] forecast ;;
      days <- mapM finalize (PyDict.values daily_summaries) ;;
      Ok (SummaryList days)
  end.

(** ** Timestamps *)

(** Proleptic Gregorian date of a day number counted from 1970-01-01. *)
Definition civil_from_days (days : Z) : Z * Z * Z :=
  let z := (days + 719468)%Z in
  let era := (z / 146097)%Z in
  let doe := (z - era * 146097)%Z in
  let yoe := ((doe - doe / 1460 + doe / 36524 - doe / 146096) / 365)%Z in
  let doy := (doe - (365 * yoe + yoe / 4 - yoe / 100))%Z in
  let mp := ((5 * doy + 2) / 153)%Z in
  let d := (doy - (153 * mp + 2) / 5 + 1)%Z in
  let m := (if mp <? 10 then mp + 3 else mp - 9)%Z in
  let y := (yoe + era * 400 + (if m <=? 2 then 1 else 0))%Z in
  (y, m, d).

(** A naive [datetime] value. *)
Record datetime : Type := {
  year : Z; month : Z; day : Z; hour : Z; minute : Z; second : Z
}.

Definition MINYEAR : Z := 1.
Definition MAXYEAR : Z := 9999.

Definition local_datetime (utcoffset t : Z) : datetime :=
  let local := (t + utcoffset)%Z in
  let '(y, m, d) := civil_from_days (local / 86400) in
  let secs := (local mod 86400)%Z in
  {| year := y; month := m; day := d;
     hour := secs / 3600; minute := (secs mod 3600) / 60; second := secs mod 60 |}.

Definition year_in_range (dt : datetime) : bool :=
  ((MINYEAR <=? year dt) && (year dt <=? MAXYEAR))%Z.

Definition digit (n : Z) : ascii := ascii_of_nat (48 + Z.to_nat n).
Definition pad2 (n : Z) : string :=
  String (digit (n / 10 mod 10)) (String (digit (n mod 10)) EmptyString).
Definition pad4 (n : Z) : string := pad2 (n / 100) ++ pad2 n.

(** Decimal text of an integer, as [%i] prints it. *)
Definition decimal (n : Z) : string := NilZero.string_of_int (Z.to_int n).

(** The year check that [datetime] makes on a broken-down local time. *)
Definition check_year (dt : datetime) : result datetime :=
  if year_in_range dt then Ok dt
  else Raise (ValueError ("year " ++ decimal (year dt) ++ " is out of range")).

(** The longest fold of local time that [fromtimestamp] looks for. *)
Definition max_fold_seconds : Z := 24 * 3600.

(** [datetime.fromtimestamp(t)]: the host's local time, here a fixed
    offset from UTC in seconds.  CPython checks the year of the local
    time of [t] and then, to detect a fold, that of the local time
    [max_fold_seconds] earlier; either check raises when the year is
    outside MINYEAR..MAXYEAR, so the first day of year 1 is refused
    ("year 0 is out of range").  With a fixed offset the two local times
    are exactly one day apart, no fold is found and the first is
    returned.  Timestamps are unbounded integers here: where the
    platform's [time_t] or [tm_year] overflows (beyond some 6.7e16
    seconds from the epoch) CPython raises [OverflowError] or [OSError]
    instead of this [ValueError]; the conversion fails in both. *)
Definition fromtimestamp (utcoffset t : Z) : result datetime :=
  result <- check_year (local_datetime utcoffset t) ;;
  _ <- check_year (local_datetime utcoffset (t - max_fold_seconds)) ;;
  Ok result.

(** [dt.isoformat()] of a value without microseconds. *)
Definition isoformat (dt : datetime) : string :=
  pad4 (year dt) ++ "-" ++ pad2 (month dt) ++ "-" ++ pad2 (day dt) ++ "T" ++
  pad2 (hour dt) ++ ":" ++ pad2 (minute dt) ++ ":" ++ pad2 (second dt).

(** Calendar date (UTC) of an epoch timestamp, as YYYY-MM-DD. *)
Definition utc_date (t : Z) : string :=
  slice_to 10 (isoformat (local_datetime 0 t)).

(** ** Provider payloads *)

Record main_obj : Type := {
  m_temp : option Q;
  m_feels_like : option Q;
  m_humidity : option Q;
  m_pressure : option Q
}.

Record weather_obj : Type := {
  w_main : option string;
  w_description : option string;
  w_icon : option string
}.

Record wind_obj : Type := { wd_speed : option Q; wd_deg : option Q }.

Record sys_obj : Type := {
  s_country : option string;
  s_sunrise : option Z;
  s_sunset : option Z
}.

(** The [rain] and [snow] objects, with their ['3h'] key. *)
Record precip_obj : Type := { p_3h : option Q }.

Record current_payload : Type := {
  c_main : option main_obj;
  c_weather : option (list weather_obj);
  c_wind : option wind_obj;
  c_visibility : option Q;
  c_uvi : option Q;
  c_name : option string;
  c_sys : option sys_obj;
  c_dt : option Z
}.

Record forecast_entry : Type := {
  e_dt : option Z;
  e_main : option main_obj;
  e_weather : option (list weather_obj);
  e_wind : option wind_obj;
  e_pop : option Q;
  e_rain : option precip_obj;
  e_snow : option precip_obj
}.

Record forecast_payload : Type := { f_list : option (list forecast_entry) }.

(** [obj[key]] on a payload object. *)
Definition field {A} (key : string) (v : option A) : result A :=
  match v with
  | Some a => Ok a
  | None => Raise (KeyError key)
  end.

(** [obj.get(key, default)]. *)
Definition get_default {A} (v : option A) (default : A) : A :=
  match v with
  | Some a => a
  | None => default
  end.

(** [xs[0]]. *)
Definition first_entry {A} (xs : list A) : result A :=
  match xs with
  | x :: _ => Ok x
  | [] => Raise (IndexError "list index out of range")
  end.

(** ** Normalizer *)

(** The dictionary built by [_format_current_weather]. *)
Record current_weather : Type := {
  cw_temperature : Q;
  cw_feels_like : Q;
  cw_humidity : Q;
  cw_pressure : Q;
  cw_description : string;
  cw_main : string;
  cw_icon : string;
  cw_wind_speed : Q;
  cw_wind_direction : Q;
  cw_visibility : Q;
  cw_uv_index : Q;
  cw_city_name : string;
  cw_country : string;
  cw_sunrise : string;
  cw_sunset : string;
  cw_timestamp : string
}.

Definition empty_precip : precip_obj := {| p_3h := None |}.

Section Normalizer.
(** Offset of the host's local time zone, in seconds. *)
Variable utcoffset : Z.

Definition iso_of_timestamp (t : Z) : result string :=
  dt <- fromtimestamp utcoffset t ;; Ok (isoformat dt).

Definition _format_current_weather (data : current_payload)
  : result current_weather :=
  temperature <- (m <- field "main" (c_main data) ;; field "temp" (m_temp m)) ;;
  feels_like <-
    (m <- field "main" (c_main data) ;; field "feels_like" (m_feels_like m)) ;;
  humidity <-
    (m <- field "main" (c_main data) ;; field "humidity" (m_humidity m)) ;;
  pressure <-
    (m <- field "main" (c_main data) ;; field "pressure" (m_pressure m)) ;;
  description <-
    (ws <- field "weather" (c_weather data) ;; w <- first_entry ws ;;
     d <- field "description" (w_description w) ;; Ok (title d)) ;;
  main <-
    (ws <- field "weather" (c_weather data) ;; w <- first_entry ws ;;
     field "main" (w_main w)) ;;
  icon <-
    (ws <- field "weather" (c_weather data) ;; w <- first_entry ws ;;
     field "icon" (w_icon w)) ;;
  wind_speed <-
    (w <- field "wind" (c_wind data) ;; field "speed" (wd_speed w)) ;;
  wind_direction <-
    (w <- field "wind" (c_wind data) ;; Ok (get_default (wd_deg w) 0)) ;;
  visibility <- py_div (get_default (c_visibility data) 0) 1000 ;;
  let uv_index := get_default (c_uvi data) 0 in
  city_name <- field "name" (c_name data) ;;
  country <- (s <- field "sys" (c_sys data) ;; field "country" (s_country s)) ;;
  sunrise <-
    (s <- field "sys" (c_sys data) ;; t <- field "sunrise" (s_sunrise s) ;;
     iso_of_timestamp t) ;;
  sunset <-
    (s <- field "sys" (c_sys data) ;; t <- field "sunset" (s_sunset s) ;;
     iso_of_timestamp t) ;;
  timestamp <- (t <- field "dt" (c_dt data) ;; iso_of_timestamp t) ;;
  Ok {| cw_temperature := temperature;
        cw_feels_like := feels_like;
        cw_humidity := humidity;
        cw_pressure := pressure;
        cw_description := description;
        cw_main := main;
        cw_icon := icon;
        cw_wind_speed := wind_speed;
        cw_wind_direction := wind_direction;
        cw_visibility := visibility;
        cw_uv_index := uv_index;
        cw_city_name := city_name;
        cw_country := country;
        cw_sunrise := sunrise;
        cw_sunset := sunset;
        cw_timestamp := timestamp |}.

(** One iteration of [for item in data['list']]. *)
Definition format_forecast_item (item : forecast_entry) : result forecast_item :=
  dt <- (t <- field "dt" (e_dt item) ;; iso_of_timestamp t) ;;
  temperature <- (m <- field "main" (e_main item) ;; field "temp" (m_temp m)) ;;
  feels_like <-
    (m <- field "main" (e_main item) ;; field "feels_like" (m_feels_like m)) ;;
  humidity <-
    (m <- field "main" (e_main item) ;; field "humidity" (m_humidity m)) ;;
  pressure <-
    (m <- field "main" (e_main item) ;; field "pressure" (m_pressure m)) ;;
  description <-
    (ws <- field "weather" (e_weather item) ;; w <- first_entry ws ;;
     d <- field "description" (w_description w) ;; Ok (title d)) ;;
  main <-
    (ws <- field "weather" (e_weather item) ;; w <- first_entry ws ;;
     field "main" (w_main w)) ;;
  icon <-
    (ws <- field "weather" (e_weather item) ;; w <- first_entry ws ;;
     field "icon" (w_icon w)) ;;
  wind_speed <-
    (w <- field "wind" (e_wind item) ;; field "speed" (wd_speed w)) ;;
  wind_direction <-
    (w <- field "wind" (e_wind item) ;; Ok (get_default (wd_deg w) 0)) ;;
  let precipitation_probability := get_default (e_pop item) 0 * 100 in
  let rain := get_default (p_3h (get_default (e_rain item) empty_precip)) 0 in
  let snow := get_default (p_3h (get_default (e_snow item) empty_precip)) 0 in
  Ok {| fi_datetime := dt;
        fi_temperature := temperature;
        fi_feels_like := feels_like;
        fi_humidity := humidity;
        fi_pressure := pressure;
        fi_description := description;
        fi_main := main;
        fi_icon := icon;
        fi_wind_speed := wind_speed;
        fi_wind_direction := wind_direction;
        fi_precipitation_probability := precipitation_probability;
        fi_rain := rain;
        fi_snow := snow |}.

Definition _format_forecast_data (data : forecast_payload)
  : result (list forecast_item) :=
  items <- field "list" (f_list data) ;;
  mapM format_forecast_item items.
End Normalizer.

(** ** The outside world: provider, log and clock *)

(** Query parameters of a provider request. *)
Record params : Type := {
  p_lat : Q;
  p_lon : Q;
  p_appid : option string;
  p_units : string;
  p_cnt : option Z
}.

(** Outcome of [requests.get(...)], [raise_for_status()] and [json()]:
    a [RequestException] with its text, or the decoded body. *)
Inductive response (A : Type) : Type :=
| RequestException (cause : string)
| Body (data : A).
Arguments RequestException {A} cause.
Arguments Body {A} data.

Record world : Type := {
  utcoffset : Z;
  clock : Z;
  weather_endpoint : params -> response current_payload;
  forecast_endpoint : params -> response forecast_payload
}.

Inductive event : Type :=
| Request (url : string) (query : params)
| LogError (msg : string).

Definition IO (A : Type) : Type := world -> list event -> A * list event.

Definition io_ret {A} (a : A) : IO A := fun _ tr => (a, tr).
Definition io_bind {A B} (c : IO A) (k : A -> IO B) : IO B :=
  fun w tr => let '(a, tr') := c w tr in k a w tr'.

Declare Scope io_scope.
Delimit Scope io_scope with io.
Notation "x <~ c ;; k" := (io_bind c (fun x => k))
  (at level 61, c at next level, right associativity) : io_scope.
Open Scope io_scope.

Definition emit (e : event) : IO unit := fun _ tr => (tt, (tr ++ [e])%list).
Definition ask : IO world := fun w tr => (w, tr).

(** [datetime.now()]: host-local time of the clock. *)
Definition datetime_now : IO datetime :=
  w <~ ask ;; io_ret (local_datetime (utcoffset w) (clock w)).

(** [current_app.logger.error(msg)]. *)
Definition logger_error (msg : string) : IO unit := emit (LogError msg).

(** ** Advisory rule engine *)

Record suggestions : Type := {
  immediate_actions : list string;
  weekly_planning : list string;
  crop_care : list string;
  irrigation : list string;
  pest_disease_alerts : list string
}.

Definition no_suggestions : suggestions :=
  {| immediate_actions := []; weekly_planning := []; crop_care := [];
     irrigation := []; pest_disease_alerts := [] |}.

(** [suggestions[category].append(text)]. *)
Definition add_immediate (text : string) (s : suggestions) : suggestions :=
  {| immediate_actions := immediate_actions s ++ [text];
     weekly_planning := weekly_planning s;
     crop_care := crop_care s;
     irrigation := irrigation s;
     pest_disease_alerts := pest_disease_alerts s |}.
Definition add_weekly (text : string) (s : suggestions) : suggestions :=
  {| immediate_actions := immediate_actions s;
     weekly_planning := weekly_planning s ++ [text];
     crop_care := crop_care s;
     irrigation := irrigation s;
     pest_disease_alerts := pest_disease_alerts s |}.
Definition add_crop_care (text : string) (s : suggestions) : suggestions :=
  {| immediate_actions := immediate_actions s;
     weekly_planning := weekly_planning s;
     crop_care := crop_care s ++ [text];
     irrigation := irrigation s;
     pest_disease_alerts := pest_disease_alerts s |}.
Definition add_irrigation (text : string) (s : suggestions) : suggestions :=
  {| immediate_actions := immediate_actions s;
     weekly_planning := weekly_planning s;
     crop_care := crop_care s;
     irrigation := irrigation s ++ [text];
     pest_disease_alerts := pest_disease_alerts s |}.
Definition add_pest (text : string) (s : suggestions) : suggestions :=
  {| immediate_actions := immediate_actions s;
     weekly_planning := weekly_planning s;
     crop_care := crop_care s;
     irrigation := irrigation s;
     pest_disease_alerts := pest_disease_alerts s ++ [text] |}.

(** The texts the engine emits. *)
Definition frost_action := "Protect sensitive crops from frost damage".
Definition frost_care :=
  "Consider covering young plants or moving potted plants indoors".
Definition heat_action := "Provide shade for sensitive crops during peak heat".
Definition heat_irrigation :=
  "Increase watering frequency due to high temperatures".
Definition fungal_alert :=
  "High humidity increases fungal disease risk - monitor crops closely".
Definition airflow_care := "Ensure good air circulation around plants".
Definition dry_air_irrigation := "Low humidity may increase water needs".
Definition rain_action := "Postpone irrigation - natural rainfall occurring".
Definition waterlogging_care := "Check for waterlogging in low-lying areas".
Definition clear_irrigation :=
  "Good conditions for watering early morning or evening".
Definition clear_planning := "Ideal weather for field work and harvesting".
Definition wind_action := "Secure tall plants and check for wind damage".
Definition wind_care :=
  "Avoid spraying pesticides or fertilizers in windy conditions".
Definition heavy_rain_planning :=
  "Heavy rain expected - prepare drainage and postpone outdoor activities".
Definition reduce_irrigation :=
  "Reduce watering schedule due to expected rainfall".
Definition no_rain_irrigation :=
  "No rain expected - maintain regular watering schedule".
Definition rising_planning :=
  "Temperature rising - prepare for increased water needs".
Definition dropping_planning :=
  "Temperature dropping - protect sensitive crops".
Definition winter_care :=
  "Winter season - focus on cold-hardy crops and protection".
Definition spring_planning :=
  "Spring season - ideal time for planting and soil preparation".
Definition summer_irrigation :=
  "Summer season - maintain consistent watering and mulching".
Definition fall_planning :=
  "Fall season - harvest time and winter preparation".

(** # Temperature-based suggestions *)
Definition temperature_rules (temp : Q) (s : suggestions) : suggestions :=
  if Qltb temp 5 then add_crop_care frost_care (add_immediate frost_action s)
  else if Qgtb temp 35 then
    add_irrigation heat_irrigation (add_immediate heat_action s)
  else s.

(** # Humidity-based suggestions *)
Definition humidity_rules (humidity : Q) (s : suggestions) : suggestions :=
  if Qgtb humidity 80 then add_crop_care airflow_care (add_pest fungal_alert s)
  else if Qltb humidity 30 then add_irrigation dry_air_irrigation s
  else s.

(** # Weather condition-based suggestions *)
Definition condition_rules (description : string) (s : suggestions)
  : suggestions :=
  if str_in "rain" description then
    add_crop_care waterlogging_care (add_immediate rain_action s)
  else if str_in "clear" description || str_in "sunny" description then
    add_weekly clear_planning (add_irrigation clear_irrigation s)
  else s.

(** # Wind-based suggestions *)
Definition wind_rules (wind_speed : Q) (s : suggestions) : suggestions :=
  if Qgtb wind_speed 10 then add_crop_care wind_care (add_immediate wind_action s)
  else s.

(** [forecast_summary[:3]]: a slice of the list; the empty dict cannot be
    sliced. *)
Definition first_three (v : summary_value) : result (list day_summary) :=
  match v with
  | SummaryList days => Ok (firstn 3 days)
  | EmptyDict => Raise (TypeError "unhashable type: 'slice'")
  end.

(** # Check for upcoming rain *)
Definition rain_rules (upcoming_rain : Q) (s : suggestions) : suggestions :=
  if Qgtb upcoming_rain 10 then
    add_irrigation reduce_irrigation (add_weekly heavy_rain_planning s)
  else if Qltb upcoming_rain 1 then add_irrigation no_rain_irrigation s
  else s.

(** # Temperature trends *)
Definition trend_rules (avg_temp temp : Q) (s : suggestions) : suggestions :=
  if Qgtb avg_temp (temp + 5) then add_weekly rising_planning s
  else if Qltb avg_temp (temp - 5) then add_weekly dropping_planning s
  else s.

(** # Forecast-based planning *)
Definition forecast_rules (temp : Q) (forecast : list forecast_item)
  (s : suggestions) : result suggestions :=
  forecast_summary <- _get_forecast_summary forecast ;;
  if truthy forecast_summary then
    days <- first_three forecast_summary ;;
    let upcoming_rain := py_sum (map total_rain days) in
    let s := rain_rules upcoming_rain s in
    days <- first_three forecast_summary ;;
    days' <- first_three forecast_summary ;;
    avg_temp <- py_div (py_sum (map max_temp days))
                       (inject_Z (Z.of_nat (List.length days'))) ;;
    Ok (trend_rules avg_temp temp s)
  else Ok s.

Definition in_months (m : Z) (months : list Z) : bool :=
  existsb (Z.eqb m) months.

(** # Seasonal suggestions based on current month *)
Definition seasonal_rules (current_month : Z) (s : suggestions) : suggestions :=
  if in_months current_month [12; 1; 2]%Z then add_crop_care winter_care s
  else if in_months current_month [3; 4; 5]%Z then add_weekly spring_planning s
  else if in_months current_month [6; 7; 8]%Z then
    add_irrigation summer_irrigation s
  else if in_months current_month [9; 10; 11]%Z then add_weekly fall_planning s
  else s.

(** Exceptions crossing [IO] code. *)
Definition io_lift {A} (r : result A) : IO (result A) := io_ret r.

Definition _generate_agricultural_suggestions (current : current_weather)
  (forecast : list forecast_item) : IO (result suggestions) :=
  let suggestions := no_suggestions in
  let temp := cw_temperature current in
  let humidity := cw_humidity current in
  let description := lower (cw_description current) in
  let suggestions := temperature_rules temp suggestions in
  let suggestions := humidity_rules humidity suggestions in
  let suggestions := condition_rules description suggestions in
  let wind_speed := cw_wind_speed current in
  let suggestions := wind_rules wind_speed suggestions in
  planned <~ io_lift (forecast_rules temp forecast suggestions) ;;
  match planned with
  | Raise e => io_ret (Raise e)
  | Ok suggestions =>
      now <~ datetime_now ;;
      let current_month := month now in
      io_ret (Ok (seasonal_rules current_month suggestions))
  end.

(** ** Orchestrator *)

Record WeatherService : Type := {
  api_key : option string;
  base_url : option string
}.

(** [WeatherService()] and [initialize]. *)
Definition new_service : WeatherService :=
  {| api_key := None; base_url := None |}.
Definition initialize (self : WeatherService) (key url : string)
  : WeatherService :=
  {| api_key := Some key; base_url := Some url |}.

(** An optional string inside an f-string. *)
Definition fstr (o : option string) : string :=
  match o with
  | Some s => s
  | None => "None"
  end.

(** The [{'success': ..., ...}] dictionaries the service returns. *)
Inductive outcome (A : Type) : Type :=
| Success (payload : A)
| Failure (error : string).
Arguments Success {A} payload.
Arguments Failure {A} error.

Definition success {A} (r : outcome A) : bool :=
  match r with
  | Success _ => true
  | Failure _ => false
  end.

Definition requests_get {A} (endpoint : world -> params -> response A)
  (url : string) (query : params) : IO (response A) :=
  _ <~ emit (Request url query) ;;
  w <~ ask ;;
  io_ret (endpoint w query).

(** The [url] and [params] of the two requests. *)
Definition weather_url (self : WeatherService) : string :=
  fstr (base_url self) ++ "/weather".
Definition weather_query (self : WeatherService) (latitude longitude : Q)
  : params :=
  {| p_lat := latitude; p_lon := longitude; p_appid := api_key self;
     p_units := "metric"; p_cnt := None |}.
Definition forecast_url (self : WeatherService) : string :=
  fstr (base_url self) ++ "/forecast".
Definition forecast_query (self : WeatherService) (latitude longitude : Q)
  (days : Z) : params :=
  {| p_lat := latitude; p_lon := longitude; p_appid := api_key self;
     p_units := "metric"; p_cnt := Some (days * 8)%Z |}.

Definition get_current_weather (self : WeatherService) (latitude longitude : Q)
  : IO (outcome current_weather) :=
  let url := weather_url self in
  let query := weather_query self latitude longitude in
  resp <~ requests_get weather_endpoint url query ;;
  match resp with
  | RequestException cause =>
      _ <~ logger_error ("Weather API request error: " ++ cause) ;;
      io_ret (Failure ("Failed to fetch weather data: " ++ cause))
  | Body data =>
      w <~ ask ;;
      match _format_current_weather (utcoffset w) data with
      | Ok cw => io_ret (Success cw)
      | Raise e =>
          _ <~ logger_error ("Weather processing error: " ++ exn_str e) ;;
          io_ret (Failure ("Weather data processing error: " ++ exn_str e))
      end
  end.

Definition get_weather_forecast (self : WeatherService) (latitude longitude : Q)
  (days : Z) : IO (outcome (list forecast_item)) :=
  let url := forecast_url self in
  let query := forecast_query self latitude longitude days in
  resp <~ requests_get forecast_endpoint url query ;;
  match resp with
  | RequestException cause =>
      _ <~ logger_error ("Forecast API request error: " ++ cause) ;;
      io_ret (Failure ("Failed to fetch forecast data: " ++ cause))
  | Body data =>
      w <~ ask ;;
      match _format_forecast_data (utcoffset w) data with
      | Ok forecast => io_ret (Success forecast)
      | Raise e =>
          _ <~ logger_error ("Forecast processing error: " ++ exn_str e) ;;
          io_ret (Failure ("Forecast data processing error: " ++ exn_str e))
      end
  end.

Record location : Type := {
  latitude : Q;
  longitude : Q;
  city : string
}.

(** The success dictionary of [get_agricultural_suggestions]. *)
Record advisory_payload : Type := {
  ap_current_weather : current_weather;
  ap_forecast_summary : summary_value;
  ap_agricultural_suggestions : suggestions;
  ap_location : location
}.

Definition generic_fetch_error : string :=
  "Failed to fetch weather data for suggestions".

Definition get_agricultural_suggestions (self : WeatherService)
  (latitude longitude : Q) : IO (outcome advisory_payload) :=
  current_result <~ get_current_weather self latitude longitude ;;
  forecast_result <~ get_weather_forecast self latitude longitude 5 ;;
  match current_result, forecast_result with
  | Success current, Success forecast =>
      generated <~ _generate_agricultural_suggestions current forecast ;;
      let built :=
        (suggestions <- generated ;;
         forecast_summary <- _get_forecast_summary forecast ;;
         Ok {| ap_current_weather := current;
               ap_forecast_summary := forecast_summary;
               ap_agricultural_suggestions := suggestions;
               ap_location := {| latitude := latitude;
                                 longitude := longitude;
                                 city := cw_city_name current |} |})%py in
      match built with
      | Ok payload => io_ret (Success payload)
      | Raise e =>
          _ <~ logger_error ("Agricultural suggestions error: " ++ exn_str e) ;;
          io_ret (Failure ("Failed to generate agricultural suggestions: "
                           ++ exn_str e))
      end
  | _, _ => io_ret (Failure generic_fetch_error)
  end.

(** Running an [IO] computation from an empty trace. *)
Definition run {A} (c : IO A) (w : world) : A * list event := c w [].

(** ** Vocabulary of the statements *)



(** The samples of a forecast that fall on date [d], in input order. *)
Definition samples_on (d : string) (forecast : list forecast_item)
  : list forecast_item :=
  filter (fun item => String.eqb (item_date item) d) forecast.

Definition same_date (samples : list forecast_item) : Prop :=
  forall x y, In x samples -> In y samples -> item_date x = item_date y.

(** Number of occurrences of a condition. *)
Definition occurrences (c : string) (conds : list string) : nat :=
  count_occ string_dec conds c.

(** The largest number of occurrences of any condition. *)
Definition max_occurrences (conds : list string) : nat :=
  fold_right Nat.max 0%nat (map (fun c => occurrences c conds) conds).

(** The condition whose running count is the first to reach [target]
    while the list is read in order. *)
Fixpoint first_to_reach (target : nat) (seen rest : list string)
  : option string :=
  match rest with
  | [] => None
  | c :: rest' =>
      if (occurrences c (seen ++ [c]) =? target)%nat then Some c
      else first_to_reach target (seen ++ [c]) rest'
  end.
Definition first_to_reach_max (conds : list string) : option string :=
  first_to_reach (max_occurrences conds) [] conds.

(** [c] is a mode of [conds], and every condition met before its first
    occurrence occurs strictly less often. *)
Definition first_seen_mode (c : string) (conds : list string) : Prop :=
  (forall c', (occurrences c' conds <= occurrences c conds)%nat) /\
  exists before after,
    conds = (before ++ c :: after)%list /\
    ~ In c before /\
    forall c', In c' before -> (occurrences c' conds < occurrences c conds)%nat.

(** Presence of a key. *)
Definition present {A} (v : option A) : bool :=
  match v with
  | Some _ => true
  | None => false
  end.

(** The paths [wind.deg], [rain.3h] and [snow.3h]. *)
Definition wind_deg (w : option wind_obj) : option Q :=
  match w with
  | Some w => wd_deg w
  | None => None
  end.
Definition precip_3h (p : option precip_obj) : option Q :=
  match p with
  | Some p => p_3h p
  | None => None
  end.

(** The three fields the specification names as required. *)
Definition named_required_current (data : current_payload) : bool :=
  match c_main data, c_weather data with
  | Some m, Some (w :: _) =>
      present (m_temp m) && present (w_main w) && present (c_dt data)
  | _, _ => false
  end.
Definition named_required_entry (item : forecast_entry) : bool :=
  match e_main item, e_weather item with
  | Some m, Some (w :: _) =>
      present (m_temp m) && present (w_main w) && present (e_dt item)
  | _, _ => false
  end.

(** The fields the normalizer reads by subscript. *)
Definition main_complete (m : option main_obj) : bool :=
  match m with
  | Some m => present (m_temp m) && present (m_feels_like m) &&
              present (m_humidity m) && present (m_pressure m)
  | None => false
  end.
Definition weather_complete (ws : option (list weather_obj)) : bool :=
  match ws with
  | Some (w :: _) => present (w_description w) && present (w_main w) &&
                     present (w_icon w)
  | _ => false
  end.
Definition wind_complete (w : option wind_obj) : bool :=
  match w with
  | Some w => present (wd_speed w)
  | None => false
  end.

(** The timestamps that [fromtimestamp] converts: those whose local time
    is from 0001-01-02T00:00:00 through 9999-12-31T23:59:59, counted in
    seconds from 1970-01-01T00:00:00 local time. *)
Definition first_local_second : Z := -62135510400.
Definition last_local_second : Z := 253402300799.
Definition convertible (utcoffset t : Z) : bool :=
  ((first_local_second <=? t + utcoffset) &&
   (t + utcoffset <=? last_local_second))%Z.

(** A timestamp that is present and that [fromtimestamp] converts. *)
Definition timestamp_ok (utcoffset : Z) (t : option Z) : bool :=
  match t with
  | Some t => convertible utcoffset t
  | None => false
  end.
Definition sys_complete (utcoffset : Z) (s : option sys_obj) : bool :=
  match s with
  | Some s => present (s_country s) && timestamp_ok utcoffset (s_sunrise s) &&
              timestamp_ok utcoffset (s_sunset s)
  | None => false
  end.

Definition current_complete (utcoffset : Z) (data : current_payload) : bool :=
  main_complete (c_main data) && weather_complete (c_weather data) &&
  wind_complete (c_wind data) && present (c_name data) &&
  sys_complete utcoffset (c_sys data) && timestamp_ok utcoffset (c_dt data).

Definition entry_complete (utcoffset : Z) (item : forecast_entry) : bool :=
  timestamp_ok utcoffset (e_dt item) && main_complete (e_main item) &&
  weather_complete (e_weather item) && wind_complete (e_wind item).

Definition forecast_complete (utcoffset : Z) (data : forecast_payload) : bool :=
  match f_list data with
  | Some items => forallb (entry_complete utcoffset) items
  | None => false
  end.

(** A text appears in some category of an advisory set. *)
Definition mentions (s : suggestions) (text : string) : Prop :=
  In text (immediate_actions s) \/ In text (weekly_planning s) \/
  In text (crop_care s) \/ In text (irrigation s) \/
  In text (pest_disease_alerts s).

(** The calendar date of the host's clock. *)
Definition today (w : world) : Z * Z * Z :=
  let now := local_datetime (utcoffset w) (clock w) in
  (year now, month now, day now).

(** The texts of each rule group, and all of them. *)
Definition temperature_texts : list string :=
  [frost_action; frost_care; heat_action; heat_irrigation].
Definition humidity_texts : list string :=
  [fungal_alert; airflow_care; dry_air_irrigation].
Definition condition_texts : list string :=
  [rain_action; waterlogging_care; clear_irrigation; clear_planning].
Definition wind_texts : list string := [wind_action; wind_care].
Definition rain_texts : list string :=
  [heavy_rain_planning; reduce_irrigation; no_rain_irrigation].
Definition trend_texts : list string := [rising_planning; dropping_planning].
Definition seasonal_texts : list string :=
  [winter_care; spring_planning; summer_irrigation; fall_planning].
Definition all_texts : list string :=
  (temperature_texts ++ humidity_texts ++ condition_texts ++ wind_texts ++
   rain_texts ++ trend_texts ++ seasonal_texts)%list.

Definition text_in (text : string) (texts : list string) : bool :=
  existsb (String.eqb text) texts.

(** All texts but the given ones. *)
Definition excluding (texts : list string) : list string :=
  filter (fun t => negb (text_in t texts)) all_texts.

(** The rules on the current sample, in the order of the source. *)
Definition current_rules (current : current_weather) : suggestions :=
  wind_rules (cw_wind_speed current)
    (condition_rules (lower (cw_description current))
       (humidity_rules (cw_humidity current)
          (temperature_rules (cw_temperature current) no_suggestions))).

(** The requests of a trace, in the order they were issued. *)
Definition is_request (e : event) : bool :=
  match e with
  | Request _ _ => true
  | LogError _ => false
  end.
Definition requests_of (tr : list event) : list event := filter is_request tr.

(** A fetch fails when the request raises or its body does not
    normalize. *)
Definition fetch_fails {A B} (normalize : A -> result B) (r : response A)
  : Prop :=
  match r with
  | RequestException _ => True
  | Body data => exists e, normalize data = Raise e
  end.
Definition current_fetch_fails (self : WeatherService) (lat lon : Q) (w : world)
  : Prop :=
  fetch_fails (_format_current_weather (utcoffset w))
    (weather_endpoint w (weather_query self lat lon)).
Definition forecast_fetch_fails (self : WeatherService) (lat lon : Q) (w : world)
  : Prop :=
  fetch_fails (_format_forecast_data (utcoffset w))
    (forecast_endpoint w (forecast_query self lat lon 5)).

(** ** Concrete inputs *)

(** A normalized sample with the fields the aggregator reads. *)
Definition sample (dt : string) (temp humidity rain : Q) (cond : string)
  : forecast_item :=
  {| fi_datetime := dt;
     fi_temperature := temp;
     fi_feels_like := temp;
     fi_humidity := humidity;
     fi_pressure := 1013;
     fi_description := cond;
     fi_main := cond;
     fi_icon := "01d";
     fi_wind_speed := 2;
     fi_wind_direction := 0;
     fi_precipitation_probability := 0;
     fi_rain := rain;
     fi_snow := 0 |}.

(** Samples of one date with the given conditions, in that order. *)
Definition one_day (conds : list string) : list forecast_item :=
  map (fun c => sample "2024-06-01T09:00:00" 20 60 0 c) conds.

(** Two days of samples in ascending order. *)
Definition two_days : list forecast_item :=
  [ sample "2024-06-01T18:00:00" 24 70 0 "Clouds";
    sample "2024-06-01T21:00:00" 21 80 2 "Rain";
    sample "2024-06-02T00:00:00" 19 90 4 "Rain" ].

(** A complete forecast entry of the provider at epoch second [t]. *)
Definition entry (t : Z) (temp humidity : Q) (cond : string) : forecast_entry :=
  {| e_dt := Some t;
     e_main := Some {| m_temp := Some temp; m_feels_like := Some temp;
                       m_humidity := Some humidity;
                       m_pressure := Some 1013 |};
     e_weather := Some [ {| w_main := Some cond;
                            w_description := Some cond;
                            w_icon := Some "01d" |} ];
     e_wind := Some {| wd_speed := Some 2; wd_deg := None |};
     e_pop := None;
     e_rain := None;
     e_snow := None |}.

(** Two entries of 2024-06-01 (UTC), at 12:00 and 21:00. *)
Definition same_utc_day : forecast_payload :=
  {| f_list := Some [ entry 1717243200 30 40 "Clear";
                      entry 1717275600 26 60 "Clouds" ] |}.

(** UTC+05:30. *)
Definition ist : Z := 19800.

(** A current observation with only the three named fields, and a
    forecast entry of the same kind. *)
Definition bare_current : current_payload :=
  {| c_main := Some {| m_temp := Some 21; m_feels_like := None;
                       m_humidity := None; m_pressure := None |};
     c_weather := Some [ {| w_main := Some "Clear"; w_description := None;
                            w_icon := None |} ];
     c_wind := None;
     c_visibility := None;
     c_uvi := None;
     c_name := None;
     c_sys := None;
     c_dt := Some 1717243200%Z |}.
Definition bare_entry : forecast_entry :=
  {| e_dt := Some 1717243200%Z;
     e_main := Some {| m_temp := Some 21; m_feels_like := None;
                       m_humidity := None; m_pressure := None |};
     e_weather := Some [ {| w_main := Some "Clear"; w_description := None;
                            w_icon := None |} ];
     e_wind := None;
     e_pop := None;
     e_rain := None;
     e_snow := None |}.

(** A service with credentials, and a host on UTC whose requests all
    time out. *)
Definition service : WeatherService :=
  initialize new_service "key" "https://api.openweathermap.org/data/2.5".
Definition timed_out : string := "Connection timed out".
Definition offline : world :=
  {| utcoffset := 0;
     clock := 1717243200;
     weather_endpoint := fun _ => RequestException timed_out;
     forecast_endpoint := fun _ => RequestException timed_out |}.

(** A cold, wet current sample, two wet days of forecast, and a host on
    UTC whose provider answers. *)
Definition cold_wet : current_weather :=
  {| cw_temperature := 2;
     cw_feels_like := 0;
     cw_humidity := 85;
     cw_pressure := 1009;
     cw_description := "Light Rain";
     cw_main := "Rain";
     cw_icon := "10d";
     cw_wind_speed := 3;
     cw_wind_direction := 0;
     cw_visibility := 10;
     cw_uv_index := 0;
     cw_city_name := "Mumbai";
     cw_country := "IN";
     cw_sunrise := "2024-06-01T00:32:00";
     cw_sunset := "2024-06-01T13:41:00";
     cw_timestamp := "2024-06-01T12:00:00" |}.
Definition wet_days : list forecast_item :=
  [ sample "2024-06-01T18:00:00" 4 70 5 "Rain";
    sample "2024-06-02T00:00:00" 3 80 7 "Rain" ].
Definition current_body : current_payload :=
  {| c_main := Some {| m_temp := Some 2; m_feels_like := Some 0;
                       m_humidity := Some 85; m_pressure := Some 1009 |};
     c_weather := Some [ {| w_main := Some "Rain";
                            w_description := Some "light rain";
                            w_icon := Some "10d" |} ];
     c_wind := Some {| wd_speed := Some 3; wd_deg := None |};
     c_visibility := Some 10000;
     c_uvi := None;
     c_name := Some "Mumbai";
     c_sys := Some {| s_country := Some "IN";
                      s_sunrise := Some 1717201920%Z;
                      s_sunset := Some 1717249260%Z |};
     c_dt := Some 1717243200%Z |}.
Definition online : world :=
  {| utcoffset := 0;
     clock := 1717243200;
     weather_endpoint := fun _ => Body current_body;
     forecast_endpoint := fun _ => Body same_utc_day |}.

(** ** Invariants of the loops *)

(** What the accumulator of date [d] holds once the samples [g] of that
    date have been read. *)
Definition acc_inv (d : string) (g : list forecast_item) (a : day_acc) : Prop :=
  g <> [] /\
  acc_date a = d /\
  acc_total_rain a = py_sum (map fi_rain g) /\
  acc_avg_humidity a = py_sum (map fi_humidity g) /\
  acc_conditions a = map fi_main g /\
  acc_count a = Z.of_nat (List.length g) /\
  acc_min_temp a <= acc_max_temp a.

(** What [daily_summaries] holds once the prefix [l] has been read. *)
Definition dict_inv (l : list forecast_item) (ds : PyDict.t day_acc) : Prop :=
  NoDup (PyDict.keys ds) /\
  (forall d, In d (PyDict.keys ds) <-> In d (map item_date l)) /\
  (forall d a, PyDict.get d ds = Some a -> acc_inv d (samples_on d l) a) /\
  (StronglySorted str_le (map item_date l) ->
   StronglySorted str_lt (PyDict.keys ds)).

(** What [condition_counts] holds once the conditions [l] have been
    counted: one key per condition, in order of first occurrence, with
    its number of occurrences. *)
Definition counts_inv (l : list string) (d : PyDict.t Z) : Prop :=
  NoDup (PyDict.keys d) /\
  (forall c, In c (PyDict.keys d) <-> In c l) /\
  (forall c n, PyDict.get c d = Some n -> n = Z.of_nat (occurrences c l)) /\
  (forall earlier c later,
      PyDict.keys d = (earlier ++ c :: later)%list ->
      exists before after,
        l = (before ++ c :: after)%list /\ ~ In c before /\
        forall c', In c' before -> In c' earlier).

(** What a finalized summary says about the samples of the forecast. *)
Definition day_spec (forecast : list forecast_item) (s : day_summary) : Prop :=
  let g := samples_on (date s) forecast in
  g <> [] /\
  min_temp s <= max_temp s /\
  total_rain s = py_sum (map fi_rain g) /\
  avg_humidity s =
    py_sum (map fi_humidity g) / inject_Z (Z.of_nat (List.length g)) /\
  max_by_count (condition_counts_of (map fi_main g)) = Ok (main_condition s).

(** [l'] is [l] followed by texts of [texts]. *)
Definition ext (texts l l' : list string) : Prop :=
  exists added, l' = (l ++ added)%list /\ incl added texts.

(** Every category of [s'] extends that of [s] by texts of [texts]. *)
Definition grows (texts : list string) (s s' : suggestions) : Prop :=
  ext texts (immediate_actions s) (immediate_actions s') /\
  ext texts (weekly_planning s) (weekly_planning s') /\
  ext texts (crop_care s) (crop_care s') /\
  ext texts (irrigation s) (irrigation s') /\
  ext texts (pest_disease_alerts s) (pest_disease_alerts s').

(** ** Further vocabulary: the aggregator *)

(** The accumulator of date [d] after the samples [g] of that date, from
    the accumulator [o] it had before ([None]: the date is new). *)
Definition group_fold (d : string) (g : list forecast_item)
  (o : option day_acc) : option day_acc :=
  fold_left
    (fun o x => Some (update_acc (match o with
                                  | Some a => a
                                  | None => new_acc d x
                                  end) x))
    g o.

(** The elements of a list in order of first occurrence, [seen] being
    those met already. *)
Fixpoint first_occurrences (seen l : list string) : list string :=
  match l with
  | [] => []
  | x :: l' =>
      if text_in x seen then first_occurrences seen l'
      else x :: first_occurrences (x :: seen) l'
  end.

(** ** Further vocabulary: the rule engine *)

(** The five categories of an advisory set. *)
Inductive category : Type :=
| Immediate
| Weekly
| CropCare
| Irrigation
| PestDisease.

Definition entries (c : category) (s : suggestions) : list string :=
  match c with
  | Immediate => immediate_actions s
  | Weekly => weekly_planning s
  | CropCare => crop_care s
  | Irrigation => irrigation s
  | PestDisease => pest_disease_alerts s
  end.

(** Category-wise concatenation of two advisory sets. *)
Definition join (s t : suggestions) : suggestions :=
  {| immediate_actions := immediate_actions s ++ immediate_actions t;
     weekly_planning := weekly_planning s ++ weekly_planning t;
     crop_care := crop_care s ++ crop_care t;
     irrigation := irrigation s ++ irrigation t;
     pest_disease_alerts := pest_disease_alerts s ++ pest_disease_alerts t |}.

Definition join_all (parts : list suggestions) : suggestions :=
  fold_left join parts no_suggestions.

(** The first three daily summaries of a forecast (none when the
    forecast is empty). *)
Definition planning_days (forecast : list forecast_item) : list day_summary :=
  match _get_forecast_summary forecast with
  | Ok (SummaryList days) => firstn 3 days
  | _ => []
  end.

(** What the rain rule and the trend rule yield on their own. *)
Definition rain_part (forecast : list forecast_item) : suggestions :=
  match planning_days forecast with
  | [] => no_suggestions
  | days => rain_rules (py_sum (map total_rain days)) no_suggestions
  end.
Definition trend_part (temp : Q) (forecast : list forecast_item) : suggestions :=
  match planning_days forecast with
  | [] => no_suggestions
  | days =>
      trend_rules (py_sum (map max_temp days)
                   / inject_Z (Z.of_nat (List.length days)))
        temp no_suggestions
  end.

(** What each rule group yields on its own, in the order of the source. *)
Definition rule_parts (current : current_weather)
  (forecast : list forecast_item) (current_month : Z) : list suggestions :=
  [ temperature_rules (cw_temperature current) no_suggestions;
    humidity_rules (cw_humidity current) no_suggestions;
    condition_rules (lower (cw_description current)) no_suggestions;
    wind_rules (cw_wind_speed current) no_suggestions;
    rain_part forecast;
    trend_part (cw_temperature current) forecast;
    seasonal_rules current_month no_suggestions ].

(** [text] is put in category [c] when [trigger] holds, and is nowhere in
    the advisory set when it does not. *)
Definition appears_exactly_when (s : suggestions) (trigger : Prop)
  (c : category) (text : string) : Prop :=
  (trigger -> In text (entries c s)) /\ (mentions s text -> trigger).

(** [l] is [m] with some elements left out. *)
Inductive selection : list string -> list string -> Prop :=
| selection_nil : selection [] []
| selection_skip x l m : selection l m -> selection l (x :: m)
| selection_take x l m : selection l m -> selection (x :: l) (x :: m).

Fixpoint is_selection (l m : list string) : bool :=
  match l, m with
  | [], _ => true
  | _ :: _, [] => false
  | x :: l', y :: m' =>
      if String.eqb x y then is_selection l' m' else is_selection l m'
  end.

(** The texts of each category, in the order the rules can add them. *)
Definition category_order (c : category) : list string :=
  match c with
  | Immediate => [frost_action; heat_action; rain_action; wind_action]
  | Weekly => [clear_planning; heavy_rain_planning; rising_planning;
               dropping_planning; spring_planning; fall_planning]
  | CropCare => [frost_care; airflow_care; waterlogging_care; wind_care;
                 winter_care]
  | Irrigation => [heat_irrigation; dry_air_irrigation; clear_irrigation;
                   reduce_irrigation; no_rain_irrigation; summer_irrigation]
  | PestDisease => [fungal_alert]
  end.

(** The month of the host's clock. *)
Definition month_now (w : world) : Z :=
  month (local_datetime (utcoffset w) (clock w)).

(** All entries of an advisory set. *)
Definition all_entries (s : suggestions) : list string :=
  (immediate_actions s ++ weekly_planning s ++ crop_care s ++ irrigation s ++
   pest_disease_alerts s)%list.

(** Every text a rule group can add, each in its category and in the
    order of the source. *)
Definition group_orders : list suggestions :=
  [ {| immediate_actions := [frost_action; heat_action];
       weekly_planning := [];
       crop_care := [frost_care];
       irrigation := [heat_irrigation];
       pest_disease_alerts := [] |};
    {| immediate_actions := [];
       weekly_planning := [];
       crop_care := [airflow_care];
       irrigation := [dry_air_irrigation];
       pest_disease_alerts := [fungal_alert] |};
    {| immediate_actions := [rain_action];
       weekly_planning := [clear_planning];
       crop_care := [waterlogging_care];
       irrigation := [clear_irrigation];
       pest_disease_alerts := [] |};
    {| immediate_actions := [wind_action];
       weekly_planning := [];
       crop_care := [wind_care];
       irrigation := [];
       pest_disease_alerts := [] |};
    {| immediate_actions := [];
       weekly_planning := [heavy_rain_planning];
       crop_care := [];
       irrigation := [reduce_irrigation; no_rain_irrigation];
       pest_disease_alerts := [] |};
    {| immediate_actions := [];
       weekly_planning := [rising_planning; dropping_planning];
       crop_care := [];
       irrigation := [];
       pest_disease_alerts := [] |};
    {| immediate_actions := [];
       weekly_planning := [spring_planning; fall_planning];
       crop_care := [winter_care];
       irrigation := [summer_irrigation];
       pest_disease_alerts := [] |} ].

(** Every category of [s] is a selection from that of [order]. *)
Definition within (order s : suggestions) : Prop :=
  forall c, selection (entries c s) (entries c order).

(** Month and day of the day [doe] of a 400-year era, as
    [civil_from_days] computes them. *)
Definition month_day_of_doe (doe : Z) : Z * Z :=
  let yoe := ((doe - doe / 1460 + doe / 36524 - doe / 146096) / 365)%Z in
  let doy := (doe - (365 * yoe + yoe / 4 - yoe / 100))%Z in
  let mp := ((5 * doy + 2) / 153)%Z in
  let d := (doy - (153 * mp + 2) / 5 + 1)%Z in
  let m := (if mp <? 10 then mp + 3 else mp - 9)%Z in
  (m, d).

(** ** Further vocabulary: the normalizer *)

(** A string of ASCII characters. *)
Fixpoint is_ascii (s : string) : bool :=
  match s with
  | EmptyString => true
  | String c s' => (nat_of_ascii c <? 128)%nat && is_ascii s'
  end.

(** The [description] of the first [weather] entry of a payload. *)
Definition raw_description (ws : option (list weather_obj)) : option string :=
  match ws with
  | Some (w :: _) => w_description w
  | _ => None
  end.

(** The calendar date, in the host's local time, of an epoch second. *)
Definition local_date (utcoffset t : Z) : string :=
  slice_to 10 (isoformat (local_datetime utcoffset t)).

(** The sample [fi] carries the values of the entry [item]. *)
Definition sample_of_entry (utcoffset : Z) (item : forecast_entry)
  (fi : forecast_item) : Prop :=
  (exists t, e_dt item = Some t /\
             fi_datetime fi = isoformat (local_datetime utcoffset t)) /\
  (exists m, e_main item = Some m /\
             m_temp m = Some (fi_temperature fi) /\
             m_feels_like m = Some (fi_feels_like fi) /\
             m_humidity m = Some (fi_humidity fi) /\
             m_pressure m = Some (fi_pressure fi)) /\
  (exists w ws d, e_weather item = Some (w :: ws) /\
                  w_description w = Some d /\ fi_description fi = title d /\
                  w_main w = Some (fi_main fi) /\
                  w_icon w = Some (fi_icon fi)) /\
  (exists wd, e_wind item = Some wd /\ wd_speed wd = Some (fi_wind_speed fi)).

(** The timestamps of the entries of a forecast payload. *)
Definition entry_times (data : forecast_payload) : list Z :=
  flat_map (fun item => match e_dt item with Some t => [t] | None => [] end)
    (get_default (f_list data) []).

(** ** Further vocabulary: the weather route (app.py) *)

(** The columns of [User] the route reads; both are nullable floats. *)
Record user : Type := {
  u_latitude : option Q;
  u_longitude : option Q
}.

(** JSON body of a response of the route. *)
Inductive body : Type :=
| ErrorBody (error : string)
| DataBody (data : advisory_payload).

Definition location_not_set : string :=
  "Location not set. Please update your location first.".

(** The body of the route [/api/v1/weather-suggestion], for the user the
    [require_auth] decorator has put in [g.current_user].  [not
    user.latitude] holds of [None] and of 0.  The service returns an
    outcome and does not raise, so the route's own exception handler is
    not entered. *)
Definition get_weather_suggestions (weather_service : WeatherService)
  (user : user) : IO (body * Z) :=
  match u_latitude user, u_longitude user with
  | Some latitude, Some longitude =>
      if Qeq_bool latitude 0 || Qeq_bool longitude 0 then
        io_ret (ErrorBody location_not_set, 400%Z)
      else
        result <~ get_agricultural_suggestions weather_service
                    latitude longitude ;;
        match result with
        | Failure error => io_ret (ErrorBody error, 500%Z)
        | Success payload => io_ret (DataBody payload, 200%Z)
        end
  | _, _ => io_ret (ErrorBody location_not_set, 400%Z)
  end.

(** A user on the equator, and one in Mumbai. *)
Definition equator_user : user :=
  {| u_latitude := Some 0; u_longitude := Some 72 |}.
Definition mumbai_user : user :=
  {| u_latitude := Some 19; u_longitude := Some 72 |}.

(** A host on UTC whose provider has no forecast entries. *)
Definition no_forecast : world :=
  {| utcoffset := 0;
     clock := 1717243200;
     weather_endpoint := fun _ => Body current_body;
     forecast_endpoint := fun _ => Body {| f_list := Some [] |} |}.

(** ** The aggregator and the rule engine over an arbitrary arithmetic *)

(** The numbers of the code are Python [float]s and [int]s, and what the
    aggregator and the planning rules compute from them is rounded after
    every operation.  The two functions are therefore embedded once
    more, over any type of numbers that has the operations the code
    uses.  [rational] instantiates the arithmetic with the rationals and
    [binary64] with IEEE 754 double precision, the arithmetic of
    CPython's [float]. *)
Record arithmetic : Type := {
  num : Type;
  (* an [int] where a number is expected: the literals and the counts *)
  of_int : Z -> num;
  (* [x + y] and [x += y] *)
  add : num -> num -> num;
  (* [x - y] *)
  sub : num -> num -> num;
  (* [x / n] for an [int] n other than 0 *)
  div_int : num -> Z -> num;
  (* [x < y]; [x > y] is [y < x] *)
  lt : num -> num -> bool;
  (* the builtin [sum(xs)] *)
  sum : list num -> num;
  (* a number below 1 is not above 10 *)
  below_1_not_above_10 :
    forall x, lt x (of_int 1) = true -> lt (of_int 10) x = false
}.

Module Generic.
Section Arithmetic.
Variable A : arithmetic.

Definition gt (x y : num A) : bool := lt A y x.

(** [min(a, b)] and [max(a, b)]: the first argument is kept unless the
    second is strictly smaller (resp. larger). *)
Definition py_min (a b : num A) : num A := if lt A b a then b else a.
Definition py_max (a b : num A) : num A := if gt b a then b else a.

(** True division by an [int]. *)
Definition py_div (x : num A) (n : Z) : result (num A) :=
  if (n =? 0)%Z then Raise (ZeroDivisionError "division by zero")
  else Ok (div_int A x n).

(** The keys of a normalized sample that the aggregator reads. *)
Record forecast_item : Type := {
  fi_datetime : string;
  fi_temperature : num A;
  fi_humidity : num A;
  fi_rain : num A;
  fi_main : string
}.

(** The per-date dictionary while the first loop runs. *)
Record day_acc : Type := {
  acc_date : string;
  acc_min_temp : num A;
  acc_max_temp : num A;
  acc_total_rain : num A;
  acc_avg_humidity : num A;
  acc_conditions : list string;
  acc_count : Z
}.

(** The per-date dictionary once finalized. *)
Record day_summary : Type := {
  date : string;
  min_temp : num A;
  max_temp : num A;
  total_rain : num A;
  avg_humidity : num A;
  main_condition : string
}.

(** What [_get_forecast_summary] returns: the literal [{}] on its early
    return, a list otherwise. *)
Inductive summary_value : Type :=
| EmptyDict
| SummaryList (days : list day_summary).

(** Truth value of the returned object ([if forecast_summary:]). *)
Definition truthy (v : summary_value) : bool :=
  match v with
  | EmptyDict => false
  | SummaryList [] => false
  | SummaryList (_ :: _) => true
  end.

Definition item_date (item : forecast_item) : string :=
  slice_to 10 (fi_datetime item).

Definition new_acc (d : string) (item : forecast_item) : day_acc :=
  {| acc_date := d;
     acc_min_temp := fi_temperature item;
     acc_max_temp := fi_temperature item;
     acc_total_rain := of_int A 0;
     acc_avg_humidity := of_int A 0;
     acc_conditions := [];
     acc_count := 0 |}.

Definition update_acc (summary : day_acc) (item : forecast_item) : day_acc :=
  {| acc_date := acc_date summary;
     acc_min_temp := py_min (acc_min_temp summary) (fi_temperature item);
     acc_max_temp := py_max (acc_max_temp summary) (fi_temperature item);
     acc_total_rain := add A (acc_total_rain summary) (fi_rain item);
     acc_avg_humidity := add A (acc_avg_humidity summary) (fi_humidity item);
     acc_conditions := acc_conditions summary ++ [fi_main item];
     acc_count := (acc_count summary + 1)%Z |}.

(** Body of [for item in forecast]. *)
Definition accumulate (daily_summaries : PyDict.t day_acc) (item : forecast_item)
  : result (PyDict.t day_acc) :=
  let d := item_date item in
  let daily_summaries :=
    if PyDict.mem d daily_summaries then daily_summaries
    else PyDict.set d (new_acc d item) daily_summaries in
  summary <- PyDict.subscript d daily_summaries ;;
  Ok (PyDict.set d (update_acc summary item) daily_summaries).

Fixpoint accumulate_all (daily_summaries : PyDict.t day_acc)
  (forecast : list forecast_item) : result (PyDict.t day_acc) :=
  match forecast with
  | [] => Ok daily_summaries
  | item :: rest =>
      ds <- accumulate daily_summaries item ;; accumulate_all ds rest
  end.

(** Body of [for date, summary in daily_summaries.items()]. *)
Definition finalize (summary : day_acc) : result day_summary :=
  avg <- py_div (acc_avg_humidity summary) (acc_count summary) ;;
  mc <- max_by_count (condition_counts_of (acc_conditions summary)) ;;
  Ok {| date := acc_date summary;
        min_temp := acc_min_temp summary;
        max_temp := acc_max_temp summary;
        total_rain := acc_total_rain summary;
        avg_humidity := avg;
        main_condition := mc |}.

Definition _get_forecast_summary (forecast : list forecast_item)
  : result summary_value :=
  match forecast with
  | [] => Ok EmptyDict
  | _ :: _ =>
      daily_summaries <- accumulate_all [] forecast ;;
      days <- mapM finalize (PyDict.values daily_summaries) ;;
      Ok (SummaryList days)
  end.

(** The keys of the current sample that the engine reads. *)
Record current_weather : Type := {
  cw_temperature : num A;
  cw_humidity : num A;
  cw_description : string;
  cw_wind_speed : num A
}.

(** # Temperature-based suggestions *)
Definition temperature_rules (temp : num A) (s : suggestions) : suggestions :=
  if lt A temp (of_int A 5) then
    add_crop_care frost_care (add_immediate frost_action s)
  else if gt temp (of_int A 35) then
    add_irrigation heat_irrigation (add_immediate heat_action s)
  else s.

(** # Humidity-based suggestions *)
Definition humidity_rules (humidity : num A) (s : suggestions) : suggestions :=
  if gt humidity (of_int A 80) then
    add_crop_care airflow_care (add_pest fungal_alert s)
  else if lt A humidity (of_int A 30) then add_irrigation dry_air_irrigation s
  else s.

(** # Wind-based suggestions *)
Definition wind_rules (wind_speed : num A) (s : suggestions) : suggestions :=
  if gt wind_speed (of_int A 10) then
    add_crop_care wind_care (add_immediate wind_action s)
  else s.

(** [forecast_summary[:3]]: a slice of the list; the empty dict cannot be
    sliced. *)
Definition first_three (v : summary_value) : result (list day_summary) :=
  match v with
  | SummaryList days => Ok (firstn 3 days)
  | EmptyDict => Raise (TypeError "unhashable type: 'slice'")
  end.

(** # Check for upcoming rain *)
Definition rain_rules (upcoming_rain : num A) (s : suggestions) : suggestions :=
  if gt upcoming_rain (of_int A 10) then
    add_irrigation reduce_irrigation (add_weekly heavy_rain_planning s)
  else if lt A upcoming_rain (of_int A 1) then
    add_irrigation no_rain_irrigation s
  else s.

(** # Temperature trends *)
Definition trend_rules (avg_temp temp : num A) (s : suggestions) : suggestions :=
  if gt avg_temp (add A temp (of_int A 5)) then add_weekly rising_planning s
  else if lt A avg_temp (sub A temp (of_int A 5)) then
    add_weekly dropping_planning s
  else s.

(** # Forecast-based planning *)
Definition forecast_rules (temp : num A) (forecast : list forecast_item)
  (s : suggestions) : result suggestions :=
  forecast_summary <- _get_forecast_summary forecast ;;
  if truthy forecast_summary then
    days <- first_three forecast_summary ;;
    let upcoming_rain := sum A (map total_rain days) in
    let s := rain_rules upcoming_rain s in
    days <- first_three forecast_summary ;;
    days' <- first_three forecast_summary ;;
    avg_temp <- py_div (sum A (map max_temp days))
                       (Z.of_nat (List.length days')) ;;
    Ok (trend_rules avg_temp temp s)
  else Ok s.

Definition _generate_agricultural_suggestions (current : current_weather)
  (forecast : list forecast_item) : IO (result suggestions) :=
  let suggestions := no_suggestions in
  let temp := cw_temperature current in
  let humidity := cw_humidity current in
  let description := lower (cw_description current) in
  let suggestions := temperature_rules temp suggestions in
  let suggestions := humidity_rules humidity suggestions in
  let suggestions := condition_rules description suggestions in
  let wind_speed := cw_wind_speed current in
  let suggestions := wind_rules wind_speed suggestions in
  planned <~ io_lift (forecast_rules temp forecast suggestions) ;;
  match planned with
  | Raise e => io_ret (Raise e)
  | Ok suggestions =>
      now <~ datetime_now ;;
      let current_month := month now in
      io_ret (Ok (seasonal_rules current_month suggestions))
  end.

End Arithmetic.

Arguments fi_datetime {A} _.
Arguments fi_temperature {A} _.
Arguments fi_humidity {A} _.
Arguments fi_rain {A} _.
Arguments fi_main {A} _.
Arguments acc_date {A} _.
Arguments acc_min_temp {A} _.
Arguments acc_max_temp {A} _.
Arguments acc_total_rain {A} _.
Arguments acc_avg_humidity {A} _.
Arguments acc_conditions {A} _.
Arguments acc_count {A} _.
Arguments date {A} _.
Arguments min_temp {A} _.
Arguments max_temp {A} _.
Arguments total_rain {A} _.
Arguments avg_humidity {A} _.
Arguments main_condition {A} _.
Arguments EmptyDict {A}.
Arguments SummaryList {A} days.
Arguments cw_temperature {A} _.
Arguments cw_humidity {A} _.
Arguments cw_description {A} _.
Arguments cw_wind_speed {A} _.
Arguments item_date {A} item.

End Generic.

(** The rationals: nothing is rounded. *)
Definition rational : arithmetic.
Proof.
  refine {| num := Q;
            of_int := inject_Z;
            add := Qplus;
            sub := Qminus;
            div_int := fun x n => x / inject_Z n;
            lt := Qltb;
            sum := py_sum |}.
  abstract
    (intros x H; unfold Qltb in *; apply negb_true_iff in H;
     apply negb_false_iff, Qle_bool_iff;
     destruct (Qlt_le_dec x 10) as [Hlt|Hle]; [now apply Qlt_le_weak|];
     exfalso; apply not_true_iff_false in H; apply H, Qle_bool_iff;
     apply Qle_trans with (y := 10); [discriminate | assumption]).
Defined.

(** IEEE 754 double precision with round-to-nearest-even, the arithmetic
    of CPython's [float].  An [int] is the float of the same value, which
    is exact below 2^53 (the literals, the counts and a provider's
    integer readings are).  [sum] adds from the left starting from 0, as
    the builtin does up to CPython 3.11. *)
Module Binary64.
Import PrimFloat.

Definition of_int (n : Z) : float :=
  match n with
  | Z0 => 0%float
  | Zpos _ => of_uint63 (Uint63.of_Z n)
  | Zneg p => (- of_uint63 (Uint63.of_Z (Zpos p)))%float
  end.

Definition sum (xs : list float) : float := fold_left add xs (of_int 0).

End Binary64.

Definition binary64 : arithmetic.
Proof.
  refine {| num := PrimFloat.float;
            of_int := Binary64.of_int;
            add := PrimFloat.add;
            sub := PrimFloat.sub;
            div_int := fun x n => PrimFloat.div x (Binary64.of_int n);
            lt := PrimFloat.ltb;
            sum := Binary64.sum |}.
  abstract
    (intros x; rewrite !FloatAxioms.ltb_spec;
     change (FloatOps.Prim2SF (Binary64.of_int 1))
       with (SpecFloat.S754_finite false 4503599627370496 (-52));
     change (FloatOps.Prim2SF (Binary64.of_int 10))
       with (SpecFloat.S754_finite false 5629499534213120 (-49));
     unfold SpecFloat.SFltb, SpecFloat.SFcompare;
     destruct (FloatOps.Prim2SF x) as [s|s| |s m e]; try destruct s;
     try discriminate; try reflexivity;
     destruct (Z.compare_spec e (-52)) as [->| |]; try discriminate;
     intros _; [reflexivity|];
     destruct (Z.compare_spec (-49) e); try reflexivity; lia).
Defined.

(** ** Vocabulary over an arbitrary arithmetic *)

Section GenericVocabulary.
Variable A : arithmetic.

(** A per-date dictionary that has taken at least one sample. *)
Definition counted (a : Generic.day_acc A) : Prop :=
  (1 <= Generic.acc_count a)%Z /\ Generic.acc_conditions a <> [].

(** The advisory set after the rules on the current sample. *)
Definition generic_current_rules (current : Generic.current_weather A)
  : suggestions :=
  Generic.wind_rules A (Generic.cw_wind_speed current)
    (condition_rules (lower (Generic.cw_description current))
       (Generic.humidity_rules A (Generic.cw_humidity current)
          (Generic.temperature_rules A (Generic.cw_temperature current)
             no_suggestions))).

(** The summaries the planning rules read: the first three, none when the
    aggregator gives no list. *)
Definition generic_planning_days (forecast : list (Generic.forecast_item A))
  : list (Generic.day_summary A) :=
  match Generic._get_forecast_summary A forecast with
  | Ok (Generic.SummaryList days) => firstn 3 days
  | _ => []
  end.

End GenericVocabulary.

Arguments counted {A} a.
Arguments generic_current_rules {A} current.
Arguments generic_planning_days {A} forecast.

(** The rational model as an instance of the generic one. *)
Definition generic_item (x : forecast_item) : Generic.forecast_item rational :=
  Generic.Build_forecast_item rational
    (fi_datetime x) (fi_temperature x) (fi_humidity x) (fi_rain x) (fi_main x).

Definition generic_acc (a : day_acc) : Generic.day_acc rational :=
  Generic.Build_day_acc rational
    (acc_date a) (acc_min_temp a) (acc_max_temp a) (acc_total_rain a)
    (acc_avg_humidity a) (acc_conditions a) (acc_count a).

Definition generic_summary (s : day_summary) : Generic.day_summary rational :=
  Generic.Build_day_summary rational
    (date s) (min_temp s) (max_temp s) (total_rain s) (avg_humidity s)
    (main_condition s).

Definition generic_value (v : summary_value) : Generic.summary_value rational :=
  match v with
  | EmptyDict => Generic.EmptyDict
  | SummaryList days => Generic.SummaryList (map generic_summary days)
  end.

Definition generic_current (c : current_weather)
  : Generic.current_weather rational :=
  Generic.Build_current_weather rational
    (cw_temperature c) (cw_humidity c) (cw_description c) (cw_wind_speed c).

(** ** Concrete inputs in double precision *)

Module Doubles.
Import PrimFloat.
#[local] Set Warnings "-inexact-float".
#[local] Open Scope float_scope.

(** A decimal literal stands for the nearest double, as when Python reads
    it from the provider's JSON. *)
Definition sample (dt : string) (temp humidity rain : float) (cond : string)
  : Generic.forecast_item binary64 :=
  Generic.Build_forecast_item binary64 dt temp humidity rain cond.

(** Three samples of one date, each with humidity 0.1. *)
Definition three_tenths : list (Generic.forecast_item binary64) :=
  [ sample "2024-06-01T06:00:00" 20 0.1 0 "Clear";
    sample "2024-06-01T09:00:00" 20 0.1 0 "Clear";
    sample "2024-06-01T12:00:00" 20 0.1 0 "Clear" ].

(** Three days of drizzle: 0.1 mm on the first, eight times 0.1 mm on the
    second, 0.1 mm on the third. *)
Definition drizzle : list (Generic.forecast_item binary64) :=
  (sample "2024-06-01T21:00:00" 20 60 0.1 "Rain"
   :: map (fun dt => sample dt 20 60 0.1 "Rain")
        [ "2024-06-02T00:00:00"; "2024-06-02T03:00:00"; "2024-06-02T06:00:00";
          "2024-06-02T09:00:00"; "2024-06-02T12:00:00"; "2024-06-02T15:00:00";
          "2024-06-02T18:00:00"; "2024-06-02T21:00:00" ]
   ++ [ sample "2024-06-03T00:00:00" 20 60 0.1 "Rain" ])%list.

(** Three days with a maximum of 2.7, and a current sample at -2.3. *)
Definition mild_days : list (Generic.forecast_item binary64) :=
  [ sample "2024-06-01T12:00:00" 2.7 60 2 "Clouds";
    sample "2024-06-02T12:00:00" 2.7 60 2 "Clouds";
    sample "2024-06-03T12:00:00" 2.7 60 2 "Clouds" ].
Definition chilly : Generic.current_weather binary64 :=
  Generic.Build_current_weather binary64 (-2.3) 60 "Overcast Clouds" 2.

Definition mean_of_three_tenths : float := 0.10000000000000002.
Definition three_tenths_day : Generic.day_summary binary64 :=
  Generic.Build_day_summary binary64
    "2024-06-01" 20 20 0 mean_of_three_tenths "Clear".
Definition drizzle_totals : list float := [0.1; 0.7999999999999999; 0.1].
Definition sum_of_drizzle : float := 0.9999999999999999.
Definition mean_of_mild_days : float := 2.7000000000000006.
Definition chilly_plus_5 : float := 2.7.

End Doubles.

(** * Proofs *)

(** ** Concrete runs *)

Example fromtimestamp_utc :
  iso_of_timestamp 0 1717243200 = Ok "2024-06-01T12:00:00".
Proof. reflexivity. Qed.

Example fromtimestamp_ist :
  iso_of_timestamp ist 1717275600 = Ok "2024-06-02T02:30:00".
Proof. reflexivity. Qed.

Example fromtimestamp_year_10000 :
  iso_of_timestamp 0 253402300800
  = Raise (ValueError "year 10000 is out of range").
Proof. reflexivity. Qed.

Example fromtimestamp_first_day_of_year_1 :
  isoformat (local_datetime 0 (-62135596800)) = "0001-01-01T00:00:00" /\
  iso_of_timestamp 0 (-62135596800)
  = Raise (ValueError "year 0 is out of range") /\
  iso_of_timestamp 0 (-62135510401)
  = Raise (ValueError "year 0 is out of range") /\
  iso_of_timestamp 0 (-62135510400) = Ok "0001-01-02T00:00:00" /\
  iso_of_timestamp 0 253402300799 = Ok "9999-12-31T23:59:59".
Proof. repeat split. Qed.

Example fromtimestamp_before_year_1 :
  iso_of_timestamp 0 (-1000000000000)
  = Raise (ValueError "year -29719 is out of range").
Proof. reflexivity. Qed.

Example title_light_rain : title "light rain" = "Light Rain".
Proof. reflexivity. Qed.

Example rain_in_description : str_in "rain" (lower "Light Rain") = true.
Proof. reflexivity. Qed.

Example two_days_summary :
  _get_forecast_summary two_days
  = Ok (SummaryList
          [ {| date := "2024-06-01"; min_temp := 21; max_temp := 24;
               total_rain := 2; avg_humidity := 150 # 2;
               main_condition := "Clouds" |};
            {| date := "2024-06-02"; min_temp := 19; max_temp := 19;
               total_rain := 4; avg_humidity := 90;
               main_condition := "Rain" |} ]).
Proof. vm_compute. reflexivity. Qed.

Example cold_wet_advice :
  run (_generate_agricultural_suggestions cold_wet wet_days) online
  = (Ok {| immediate_actions := [frost_action; rain_action];
           weekly_planning := [heavy_rain_planning];
           crop_care := [frost_care; airflow_care; waterlogging_care];
           irrigation := [reduce_irrigation; summer_irrigation];
           pest_disease_alerts := [fungal_alert] |},
     []).
Proof. vm_compute. reflexivity. Qed.

Example online_request_succeeds :
  let '(result, tr) := run (get_agricultural_suggestions service 19 72) online in
  success result = true /\
  tr = [ Request (weather_url service) (weather_query service 19 72);
         Request (forecast_url service) (forecast_query service 19 72 5) ].
Proof. vm_compute. split; reflexivity. Qed.

Example normalized_entry_defaults :
  option_map (fun fi => (fi_wind_direction fi, fi_rain fi, fi_snow fi))
    (match format_forecast_item 0 (entry 1717243200 30 40 "clear sky") with
     | Ok fi => Some fi
     | Raise _ => None
     end)
  = Some (0, 0, 0).
Proof. reflexivity. Qed.

(** ** Results *)

Lemma mapM_total {A B} (f : A -> result B) (l : list A) :
  (forall x, In x l -> exists y, f x = Ok y) ->
  exists ys, mapM f l = Ok ys /\ Forall2 (fun x y => f x = Ok y) l ys.
Proof.
  induction l as [|x l IH]; intros Hf; simpl.
  - exists []. split; [reflexivity | constructor].
  - destruct (Hf x (or_introl eq_refl)) as [y Hy].
    destruct IH as [ys [Hys Hall]].
    { intros z Hz. apply Hf. now right. }
    exists (y :: ys). rewrite Hy, Hys. simpl. split; [reflexivity|].
    now constructor.
Qed.

Lemma mapM_Ok_inv {A B} (f : A -> result B) (l : list A) (ys : list B) :
  mapM f l = Ok ys -> Forall2 (fun x y => f x = Ok y) l ys.
Proof.
  revert ys. induction l as [|x l IH]; intros ys; simpl.
  - intros H. inversion H. constructor.
  - destruct (f x) as [y|e] eqn:Hy; simpl; [|discriminate].
    destruct (mapM f l) as [ys'|e]; simpl; [|discriminate].
    intros H. inversion H. subst. constructor; auto.
Qed.

(** ** Insertion-ordered dictionaries *)

Module PyDictFacts.
Import PyDict.
Section Facts.
Context {V : Type}.
Implicit Types (d : PyDict.t V) (k : string) (v : V).

Lemma get_set_same k v d : get k (set k v d) = Some v.
Proof.
  induction d as [|[k' v'] d IH]; simpl.
  - now rewrite String.eqb_refl.
  - destruct (String.eqb k k') eqn:E; simpl.
    + now rewrite String.eqb_refl.
    + now rewrite E.
Qed.

Lemma get_set_other k k' v d : k <> k' -> get k' (set k v d) = get k' d.
Proof.
  intros Hne. induction d as [|[k0 v0] d IH]; simpl.
  - apply not_eq_sym, String.eqb_neq in Hne. now rewrite Hne.
  - destruct (String.eqb k k0) eqn:E; simpl.
    + apply String.eqb_eq in E. subst k0.
      apply not_eq_sym, String.eqb_neq in Hne. now rewrite Hne.
    + now rewrite IH.
Qed.

Lemma mem_keys k d : mem k d = true <-> In k (keys d).
Proof.
  unfold mem. induction d as [|[k' v'] d IH]; simpl.
  - split; [discriminate | tauto].
  - destruct (String.eqb k k') eqn:E.
    + apply String.eqb_eq in E. subst. tauto.
    + apply String.eqb_neq in E. split.
      * intros H. right. now apply IH.
      * intros [H|H]; [congruence | now apply IH].
Qed.

Lemma mem_false_keys k d : mem k d = false <-> ~ In k (keys d).
Proof.
  rewrite <- mem_keys. destruct (mem k d); split; congruence.
Qed.

Lemma keys_set k v d :
  keys (set k v d) = if mem k d then keys d else (keys d ++ [k])%list.
Proof.
  unfold mem. induction d as [|[k' v'] d IH]; simpl; [reflexivity|].
  destruct (String.eqb k k') eqn:E; simpl.
  - apply String.eqb_eq in E. now subst.
  - rewrite IH. now destruct (get k d).
Qed.

Lemma get_In k v d : get k d = Some v -> In (k, v) d.
Proof.
  induction d as [|[k' v'] d IH]; simpl; [discriminate|].
  destruct (String.eqb k k') eqn:E.
  - apply String.eqb_eq in E. intros H. inversion H. subst. now left.
  - intros H. right. auto.
Qed.

Lemma In_get k v d : NoDup (keys d) -> In (k, v) d -> get k d = Some v.
Proof.
  induction d as [|[k' v'] d IH]; simpl; [tauto|].
  intros Hnd [H|H].
  - inversion H. subst. now rewrite String.eqb_refl.
  - inversion Hnd as [|? ? Hnotin Hnd']. subst.
    destruct (String.eqb k k') eqn:E.
    + apply String.eqb_eq in E. subst k'. exfalso. apply Hnotin.
      change (In (fst (k, v)) (map fst d)). now apply in_map.
    + auto.
Qed.

Lemma get_None_keys k d : get k d = None <-> ~ In k (keys d).
Proof.
  rewrite <- mem_false_keys. unfold mem.
  destruct (get k d); split; congruence.
Qed.

Lemma NoDup_keys_set k v d : NoDup (keys d) -> NoDup (keys (set k v d)).
Proof.
  intros Hnd. rewrite keys_set. destruct (mem k d) eqn:E; [assumption|].
  apply mem_false_keys in E.
  apply NoDup_rev in Hnd. rewrite <- (rev_involutive (keys d ++ [k])).
  apply NoDup_rev. rewrite rev_app_distr. simpl. constructor; [|assumption].
  now rewrite <- in_rev.
Qed.

Lemma In_keys_set k k' v d :
  In k' (keys (set k v d)) <-> k' = k \/ In k' (keys d).
Proof.
  rewrite keys_set. destruct (mem k d) eqn:E.
  - apply mem_keys in E. split; [tauto|]. intros [->|H]; assumption.
  - rewrite in_app_iff. simpl. split; intros H; intuition auto.
Qed.
End Facts.
End PyDictFacts.

(** ** Numbers *)

Lemma Qltb_lt x y : Qltb x y = true <-> x < y.
Proof.
  unfold Qltb. rewrite negb_true_iff.
  split; intros H.
  - apply Qnot_le_lt. intros Hle. apply Qle_bool_iff in Hle. congruence.
  - destruct (Qle_bool y x) eqn:E; [|reflexivity].
    apply Qle_bool_iff in E. exfalso. exact (Qlt_not_le _ _ H E).
Qed.

Lemma Qltb_ge x y : Qltb x y = false <-> y <= x.
Proof.
  unfold Qltb. rewrite negb_false_iff. apply Qle_bool_iff.
Qed.

Lemma Qgtb_gt x y : Qgtb x y = true <-> y < x.
Proof. apply Qltb_lt. Qed.

Lemma Qgtb_le x y : Qgtb x y = false <-> x <= y.
Proof. apply Qltb_ge. Qed.

Lemma py_min_le_max a b t : a <= b -> py_min a t <= py_max b t.
Proof.
  intros Hab. unfold py_min, py_max.
  destruct (Qltb t a) eqn:E1, (Qgtb t b) eqn:E2;
    rewrite ?Qltb_lt, ?Qltb_ge, ?Qgtb_gt, ?Qgtb_le in *; lra.
Qed.

Lemma py_sum_snoc xs x : py_sum (xs ++ [x]) = py_sum xs + x.
Proof. unfold py_sum. now rewrite fold_left_app. Qed.



Lemma py_div_Ok x y : ~ y == 0 -> py_div x y = Ok (x / y).
Proof.
  intros Hy. unfold py_div. destruct (Qeq_bool y 0) eqn:E; [|reflexivity].
  apply Qeq_bool_iff in E. contradiction.
Qed.

Lemma inject_length_nonzero {A} (l : list A) :
  l <> [] -> ~ inject_Z (Z.of_nat (List.length l)) == 0.
Proof.
  intros Hl. destruct l as [|x l]; [congruence|].
  unfold Qeq. simpl. lia.
Qed.

(** ** Forecast aggregator: the accumulation loop *)

Lemma samples_on_snoc d l x :
  samples_on d (l ++ [x]) =
  (samples_on d l ++ if String.eqb (item_date x) d then [x] else [])%list.
Proof. unfold samples_on. now rewrite filter_app. Qed.

Lemma samples_on_absent d l : ~ In d (map item_date l) -> samples_on d l = [].
Proof.
  induction l as [|x l IH]; simpl; [reflexivity|].
  intros H. destruct (String.eqb (item_date x) d) eqn:E.
  - apply String.eqb_eq in E. tauto.
  - apply IH. tauto.
Qed.

Lemma samples_on_date d l x : In x (samples_on d l) -> item_date x = d.
Proof.
  unfold samples_on. rewrite filter_In. intros [_ H].
  now apply String.eqb_eq.
Qed.

Lemma acc_inv_new d x : acc_inv d [x] (update_acc (new_acc d x) x).
Proof.
  unfold acc_inv; simpl. repeat split; try reflexivity; try discriminate.
  apply py_min_le_max. lra.
Qed.

Lemma acc_inv_update d g a x :
  acc_inv d g a -> acc_inv d (g ++ [x]) (update_acc a x).
Proof.
  intros (Hg & Hd & Hr & Hh & Hc & Hn & Hm). unfold acc_inv; simpl.
  rewrite !map_app, length_app. cbn [map List.length].
  rewrite !py_sum_snoc, Hr, Hh, Hc, Hn.
  repeat split; try reflexivity; try assumption.
  - intros H. now apply app_eq_nil in H as [_ H].
  - lia.
  - now apply py_min_le_max.
Qed.

Lemma StronglySorted_snoc {A} (R : A -> A -> Prop) l x :
  StronglySorted R l -> Forall (fun y => R y x) l ->
  StronglySorted R (l ++ [x]).
Proof.
  induction 1 as [|y l Hs IH Hy]; intros Hall; simpl.
  - repeat constructor.
  - inversion Hall; subst. constructor; [auto|].
    apply Forall_app. split; [assumption | now constructor].
Qed.

Lemma StronglySorted_snoc_inv {A} (R : A -> A -> Prop) l x :
  StronglySorted R (l ++ [x]) ->
  StronglySorted R l /\ Forall (fun y => R y x) l.
Proof.
  induction l as [|y l IH]; simpl; intros H.
  - split; constructor.
  - inversion H as [|? ? Hs Hy]; subst.
    destruct (IH Hs) as [Hs' Hall].
    apply Forall_app in Hy as [Hy1 Hy2]. inversion Hy2; subst.
    split; constructor; assumption.
Qed.

Lemma str_le_neq_lt s t : str_le s t -> s <> t -> str_lt s t.
Proof.
  unfold str_le, str_lt. intros Hle Hne.
  destruct (String.compare s t) eqn:E; [|reflexivity|congruence].
  apply String.compare_eq_iff in E. contradiction.
Qed.

Lemma accumulate_step l ds x :
  dict_inv l ds ->
  exists ds', accumulate ds x = Ok ds' /\ dict_inv (l ++ [x]) ds'.
Proof.
  intros (Hnd & Hkeys & Hacc & Hsorted).
  unfold accumulate. set (d := item_date x).
  set (mid := if PyDict.mem d ds then ds
              else PyDict.set d (new_acc d x) ds).
  assert (Hmid : exists a, PyDict.get d mid = Some a /\
                           acc_inv d (samples_on d l ++ [x]) (update_acc a x)).
  { subst mid. destruct (PyDict.mem d ds) eqn:E.
    - unfold PyDict.mem in E. destruct (PyDict.get d ds) as [a|] eqn:G;
        [|discriminate].
      exists a. split; [reflexivity|]. apply acc_inv_update. now apply Hacc.
    - exists (new_acc d x). rewrite PyDictFacts.get_set_same.
      split; [reflexivity|].
      apply PyDictFacts.mem_false_keys in E. rewrite Hkeys in E.
      rewrite (samples_on_absent _ _ E). apply acc_inv_new. }
  assert (Hmid_nd : NoDup (PyDict.keys mid)).
  { subst mid. destruct (PyDict.mem d ds); [assumption|].
    now apply PyDictFacts.NoDup_keys_set. }
  assert (Hmid_keys : forall k, In k (PyDict.keys mid) <-> k = d \/ In k (PyDict.keys ds)).
  { intros k. subst mid. destruct (PyDict.mem d ds) eqn:E.
    - apply PyDictFacts.mem_keys in E. split; [tauto|]. intros [->|H]; assumption.
    - apply PyDictFacts.In_keys_set. }
  assert (Hmid_get : forall k, k <> d -> PyDict.get k mid = PyDict.get k ds).
  { intros k Hk. subst mid. destruct (PyDict.mem d ds); [reflexivity|].
    apply PyDictFacts.get_set_other. congruence. }
  destruct Hmid as (a & Ha & Hinv).
  unfold PyDict.subscript. rewrite Ha. simpl.
  eexists. split; [reflexivity|]. split; [|split; [|split]].
  - now apply PyDictFacts.NoDup_keys_set.
  - intros k.
    rewrite PyDictFacts.In_keys_set, Hmid_keys, Hkeys, map_app, in_app_iff.
    simpl. fold d. intuition auto.
  - intros k b Hk. destruct (string_dec k d) as [->|Hne].
    + rewrite PyDictFacts.get_set_same in Hk. inversion Hk; subst b.
      rewrite samples_on_snoc. fold d. now rewrite String.eqb_refl.
    + rewrite PyDictFacts.get_set_other in Hk by congruence.
      rewrite Hmid_get in Hk by assumption.
      rewrite samples_on_snoc. fold d.
      apply not_eq_sym, String.eqb_neq in Hne. rewrite Hne, app_nil_r.
      now apply Hacc.
  - rewrite map_app. simpl. fold d. intros Hs.
    apply StronglySorted_snoc_inv in Hs as [Hs Hall].
    specialize (Hsorted Hs).
    rewrite PyDictFacts.keys_set.
    assert (Hm : PyDict.mem d mid = true).
    { unfold PyDict.mem. now rewrite Ha. }
    rewrite Hm. subst mid. destruct (PyDict.mem d ds) eqn:E; [assumption|].
    rewrite PyDictFacts.keys_set, E.
    apply StronglySorted_snoc; [assumption|].
    apply PyDictFacts.mem_false_keys in E.
    apply Forall_forall. intros k Hk.
    apply str_le_neq_lt.
    + rewrite Forall_forall in Hall. apply Hall. now apply Hkeys.
    + intros ->. contradiction.
Qed.

Lemma accumulate_all_spec rest : forall l ds,
  dict_inv l ds ->
  exists ds', accumulate_all ds rest = Ok ds' /\ dict_inv (l ++ rest) ds'.
Proof.
  induction rest as [|x rest IH]; intros l ds Hinv; simpl.
  - exists ds. now rewrite app_nil_r.
  - destruct (accumulate_step l ds x Hinv) as (ds1 & H1 & Hinv1).
    rewrite H1. simpl.
    destruct (IH _ _ Hinv1) as (ds' & H' & Hinv').
    exists ds'. split; [assumption|].
    now rewrite <- app_assoc in Hinv'.
Qed.

Lemma dict_inv_empty : dict_inv [] [].
Proof.
  repeat split; simpl; try tauto; try constructor; discriminate.
Qed.

(** ** Forecast aggregator: the dominant condition *)

Lemma occurrences_snoc c l x :
  occurrences c (l ++ [x]) =
  (occurrences c l + if string_dec x c then 1 else 0)%nat.
Proof.
  unfold occurrences. rewrite count_occ_app. simpl.
  now destruct (string_dec x c).
Qed.

Lemma occurrences_pos c l : In c l <-> (0 < occurrences c l)%nat.
Proof. unfold occurrences. apply count_occ_In. Qed.

Lemma condition_counts_snoc l x :
  condition_counts_of (l ++ [x]) = count_condition (condition_counts_of l) x.
Proof. unfold condition_counts_of. now rewrite fold_left_app. Qed.

Lemma condition_counts_inv l : counts_inv l (condition_counts_of l).
Proof.
  induction l as [|x l IH] using rev_ind.
  - repeat split; simpl; try tauto; try constructor; try discriminate.
    intros earlier c later H. now destruct earlier.
  - destruct IH as (Hnd & Hkeys & Hget & Horder).
    rewrite condition_counts_snoc. unfold count_condition.
    set (d := condition_counts_of l) in *.
    split; [|split; [|split]].
    + now apply PyDictFacts.NoDup_keys_set.
    + intros c. rewrite PyDictFacts.In_keys_set, Hkeys, in_app_iff. simpl.
      intuition auto.
    + intros c n Hc. rewrite occurrences_snoc.
      destruct (string_dec x c) as [->|Hne].
      * rewrite PyDictFacts.get_set_same in Hc. inversion Hc; subst n.
        destruct (PyDict.get c d) as [m|] eqn:G.
        -- rewrite (Hget _ _ G). lia.
        -- apply PyDictFacts.get_None_keys in G. rewrite Hkeys in G.
           assert (occurrences c l = 0%nat).
           { destruct (occurrences c l) eqn:E; [reflexivity|].
             exfalso. apply G. apply occurrences_pos. lia. }
           lia.
      * rewrite PyDictFacts.get_set_other in Hc by assumption.
        rewrite (Hget _ _ Hc). lia.
    + intros earlier c later Hsplit. rewrite PyDictFacts.keys_set in Hsplit.
      destruct (PyDict.mem x d) eqn:E.
      * destruct (Horder _ _ _ Hsplit) as (before & after & -> & Hb & Hin).
        exists before, (after ++ [x])%list.
        rewrite <- app_assoc. simpl. auto.
      * apply PyDictFacts.mem_false_keys in E.
        destruct later as [|k later] using rev_ind.
        -- apply app_inj_tail in Hsplit as [Hk ->].
           exists l, []. split; [reflexivity|]. split.
           ++ now rewrite <- Hkeys.
           ++ intros c' Hc'. rewrite <- Hk. now apply Hkeys.
        -- clear IHlater.
           change (earlier ++ c :: later ++ [k])%list
             with (earlier ++ (c :: later) ++ [k])%list in Hsplit.
           rewrite app_assoc in Hsplit.
           apply app_inj_tail in Hsplit as [Hk ->].
           destruct (Horder _ _ _ Hk) as (before & after & -> & Hb & Hin).
           exists before, (after ++ [k])%list.
           rewrite <- app_assoc. simpl. auto.
Qed.

Lemma max_scan_split rest : forall earlier later best,
  (forall p, In p earlier -> (snd p < snd best)%Z) ->
  (forall p, In p later -> (snd p <= snd best)%Z) ->
  exists earlier' n later',
    (earlier ++ best :: later ++ rest)%list =
    (earlier' ++ (max_scan best rest, n) :: later')%list /\
    (forall p, In p earlier' -> (snd p < n)%Z) /\
    (forall p, In p later' -> (snd p <= n)%Z).
Proof.
  induction rest as [|[k n] rest IH]; intros earlier later best He Hl; simpl.
  - exists earlier, (snd best), later. rewrite app_nil_r.
    destruct best; simpl. auto.
  - destruct (snd best <? n)%Z eqn:E.
    + apply Z.ltb_lt in E.
      destruct (IH (earlier ++ best :: later)%list [] (k, n))
        as (e' & n' & l' & Heq & He' & Hl').
      * intros p Hp. simpl. apply in_app_iff in Hp as [Hp|[<-|Hp]].
        -- specialize (He _ Hp). lia.
        -- lia.
        -- specialize (Hl _ Hp). lia.
      * intros p [].
      * exists e', n', l'. split; [|auto].
        rewrite <- Heq. now rewrite <- app_assoc.
    + apply Z.ltb_ge in E.
      destruct (IH earlier (later ++ [(k, n)])%list best)
        as (e' & n' & l' & Heq & He' & Hl').
      * assumption.
      * intros p Hp. apply in_app_iff in Hp as [Hp|[<-|[]]]; auto.
      * exists e', n', l'. split; [|auto].
        rewrite <- Heq. now rewrite <- app_assoc.
Qed.

Lemma max_by_count_mode conds :
  conds <> [] ->
  exists c, max_by_count (condition_counts_of conds) = Ok c /\
            first_seen_mode c conds.
Proof.
  intros Hne.
  destruct (condition_counts_inv conds) as (Hnd & Hkeys & Hget & Horder).
  destruct (condition_counts_of conds) as [|best rest] eqn:Hd.
  - destruct conds as [|c conds]; [congruence|].
    exfalso. apply (proj2 (Hkeys c)). now left.
  - simpl. eexists. split; [reflexivity|].
    destruct (max_scan_split rest [] [] best)
      as (earlier & n & later & Heq & He & Hl); try (intros p []).
    simpl in Heq. set (c := max_scan best rest) in *.
    assert (Hcount : forall k m, In (k, m) (best :: rest) ->
                                 m = Z.of_nat (occurrences k conds)).
    { intros k m Hin. apply Hget. now apply PyDictFacts.In_get. }
    assert (Hn : n = Z.of_nat (occurrences c conds)).
    { apply Hcount. rewrite Heq. apply in_elt. }
    split.
    + intros c'. destruct (in_dec string_dec c' conds) as [Hin|Hout].
      * apply Hkeys in Hin. unfold PyDict.keys in Hin.
        apply in_map_iff in Hin as ([k m] & Hk & Hin). simpl in Hk. subst k.
        pose proof (Hcount _ _ Hin) as Hm.
        rewrite Heq in Hin. apply in_app_iff in Hin as [Hin|[Hin|Hin]].
        -- specialize (He _ Hin). simpl in He. lia.
        -- inversion Hin. subst. lia.
        -- specialize (Hl _ Hin). simpl in Hl. lia.
      * assert (occurrences c' conds = 0%nat).
        { destruct (occurrences c' conds) eqn:E; [reflexivity|].
          exfalso. apply Hout. apply occurrences_pos. lia. }
        lia.
    + destruct (Horder (map fst earlier) c (map fst later))
        as (before & after & Hsplit & Hb & Hin).
      { unfold PyDict.keys. rewrite Heq, map_app. reflexivity. }
      exists before, after. split; [assumption|]. split; [assumption|].
      intros c' Hc'. apply Hin in Hc'.
      apply in_map_iff in Hc' as ([k m] & Hk & Hc'). simpl in Hk. subst k.
      assert (Hm : m = Z.of_nat (occurrences c' conds)).
      { apply Hcount. rewrite Heq. apply in_app_iff. now left. }
      specialize (He _ Hc'). simpl in He. lia.
Qed.

(** ** Forecast aggregator: finalization *)

Lemma finalize_spec forecast d a :
  acc_inv d (samples_on d forecast) a ->
  exists s, finalize a = Ok s /\ date s = d /\ day_spec forecast s.
Proof.
  intros (Hg & Hd & Hr & Hh & Hc & Hn & Hm).
  unfold finalize. rewrite Hn, Hh, Hc.
  rewrite py_div_Ok by now apply inject_length_nonzero.
  destruct (max_by_count_mode (map fi_main (samples_on d forecast)))
    as (c & Hmax & _).
  { intros H. apply map_eq_nil in H. contradiction. }
  rewrite Hmax. simpl. eexists. split; [reflexivity|].
  split; [assumption|].
  unfold day_spec. simpl. rewrite Hd. repeat split; assumption.
Qed.

(** The aggregator returns a list for every non-empty forecast; its dates
    are the dates of the samples, each once, and every entry describes
    the samples of its date. *)
Lemma forecast_summary_spec forecast :
  forecast <> [] ->
  exists days,
    _get_forecast_summary forecast = Ok (SummaryList days) /\
    days <> [] /\
    NoDup (map date days) /\
    (forall d, In d (map date days) <-> In d (map item_date forecast)) /\
    (StronglySorted str_le (map item_date forecast) ->
     StronglySorted str_lt (map date days)) /\
    (forall s, In s days -> day_spec forecast s).
Proof.
  intros Hne.
  destruct (accumulate_all_spec forecast [] [] dict_inv_empty)
    as (ds & Hacc & Hnd & Hkeys & Hinv & Hsorted).
  simpl in *.
  destruct (mapM_total finalize (PyDict.values ds)) as (days & Hdays & Hall).
  { intros a Ha. unfold PyDict.values in Ha.
    apply in_map_iff in Ha as ([d a'] & Heq & Hin). simpl in Heq. subst a'.
    apply PyDictFacts.In_get in Hin; [|assumption].
    destruct (finalize_spec forecast d a (Hinv _ _ Hin)) as (s & Hs & _).
    now exists s. }
  assert (Hdates : map date days = PyDict.keys ds /\
                   forall s, In s days -> day_spec forecast s).
  { clear Hdays Hkeys Hsorted Hacc.
    unfold PyDict.values in Hall.
    assert (Hget : forall d a, In (d, a) ds ->
                               acc_inv d (samples_on d forecast) a).
    { intros d a Hin. apply Hinv. now apply PyDictFacts.In_get. }
    clear Hinv Hnd. revert days Hall.
    induction ds as [|[d a] ds IH]; intros days Hall; simpl in *.
    - inversion Hall. split; [reflexivity | intros ? []].
    - inversion Hall as [|? s ? days' Hs Hall']; subst.
      destruct (IH (fun d' a' H => Hget d' a' (or_intror H)) _ Hall')
        as [Hk Hspec].
      destruct (finalize_spec forecast d a (Hget _ _ (or_introl eq_refl)))
        as (s' & Hs' & Hd & Hds).
      rewrite Hs in Hs'. inversion Hs'; subst s'.
      simpl. split; [now rewrite Hd, Hk|].
      intros s0 [<-|H0]; auto. }
  destruct Hdates as [Hdates Hspec].
  exists days. destruct forecast as [|x forecast]; [congruence|].
  unfold _get_forecast_summary. rewrite Hacc. simpl. rewrite Hdays. simpl.
  split; [reflexivity|]. rewrite Hdates.
  split; [|split; [|split; [|split]]]; try assumption.
  intros ->. simpl in Hdates.
  assert (H : In (item_date x) (PyDict.keys ds)) by (apply Hkeys; now left).
  rewrite <- Hdates in H. contradiction.
Qed.

(** ** Forecast aggregator: the claims *)

Lemma same_date_samples_on samples s :
  same_date samples -> In (date s) (map item_date samples) ->
  samples_on (date s) samples = samples.
Proof.
  intros Hsame Hin. apply in_map_iff in Hin as (x & Hx & Hin).
  unfold samples_on. apply forallb_filter_id.
  apply forallb_forall. intros y Hy. apply String.eqb_eq.
  rewrite <- Hx. now apply Hsame.
Qed.

Lemma same_date_single_day samples (days : list day_summary) :
  same_date samples -> days <> [] -> NoDup (map date days) ->
  (forall d, In d (map date days) -> In d (map item_date samples)) ->
  exists s, days = [s].
Proof.
  intros Hsame Hne Hnd Hin.
  destruct days as [|s [|s' days]]; [congruence | now exists s |].
  exfalso. simpl in Hnd. inversion Hnd as [|? ? Hnotin _]; subst.
  apply Hnotin. left.
  assert (H1 : In (date s) (map item_date samples)) by (apply Hin; simpl; auto).
  assert (H2 : In (date s') (map item_date samples)) by (apply Hin; simpl; auto).
  apply in_map_iff in H1 as (x & <- & Hx).
  apply in_map_iff in H2 as (y & <- & Hy).
  now apply Hsame.
Qed.

(** C1 (as amended).  For a non-empty list of samples of one date the
    aggregator returns a single summary whose [main_condition] is a mode
    of the samples' conditions; among the conditions that tie for the
    largest count it is the one seen first (every condition met before
    its first occurrence occurs strictly less often).  In particular
    Cloudy, Rain, Cloudy gives Cloudy and Rain, Cloudy, Rain gives Rain. *)
Theorem dominant_condition_first_seen_mode (samples : list forecast_item) :
  samples <> [] -> same_date samples ->
  exists s,
    _get_forecast_summary samples = Ok (SummaryList [s]) /\
    first_seen_mode (main_condition s) (map fi_main samples) /\
    (map fi_main samples = ["Cloudy"; "Rain"; "Cloudy"] ->
     main_condition s = "Cloudy") /\
    (map fi_main samples = ["Rain"; "Cloudy"; "Rain"] ->
     main_condition s = "Rain").
Proof.
  intros Hne Hsame.
  destruct (forecast_summary_spec samples Hne)
    as (days & Hrun & Hdays & Hnd & Hdates & _ & Hspec).
  destruct (same_date_single_day samples days Hsame Hdays Hnd) as [s ->].
  { intros d. apply Hdates. }
  exists s. split; [assumption|].
  destruct (Hspec s (or_introl eq_refl)) as (_ & _ & _ & _ & Hmax).
  rewrite same_date_samples_on in Hmax; [|assumption|].
  2:{ apply Hdates. simpl. auto. }
  destruct (max_by_count_mode (map fi_main samples)) as (c & Hc & Hmode).
  { intros H. apply map_eq_nil in H. contradiction. }
  rewrite Hc in Hmax. inversion Hmax; subst c.
  split; [assumption|].
  split; intros Heq; rewrite Heq in Hc.
  - change (Ok "Cloudy" = Ok (main_condition s)) in Hc. congruence.
  - change (Ok "Rain" = Ok (main_condition s)) in Hc. congruence.
Qed.

Lemma dominant_condition_first_seen_mode_witness :
  exists s,
    _get_forecast_summary (one_day ["Cloudy"; "Rain"; "Cloudy"])
      = Ok (SummaryList [s]) /\
    first_seen_mode (main_condition s)
      (map fi_main (one_day ["Cloudy"; "Rain"; "Cloudy"])) /\
    (map fi_main (one_day ["Cloudy"; "Rain"; "Cloudy"])
       = ["Cloudy"; "Rain"; "Cloudy"] -> main_condition s = "Cloudy") /\
    (map fi_main (one_day ["Cloudy"; "Rain"; "Cloudy"])
       = ["Rain"; "Cloudy"; "Rain"] -> main_condition s = "Rain").
Proof.
  apply (dominant_condition_first_seen_mode
           (one_day ["Cloudy"; "Rain"; "Cloudy"])).
  - discriminate.
  - intros x y Hx Hy. simpl in Hx, Hy.
    repeat (destruct Hx as [<-|Hx]); repeat (destruct Hy as [<-|Hy]);
      try reflexivity; contradiction.
Defined.

(** C1 (as stated) fails.  With the same-date conditions Cloudy, Rain,
    Rain, Cloudy both conditions occur twice; Rain is the first whose
    running count reaches two, yet the aggregator selects Cloudy. *)
Lemma dominant_condition_not_first_to_reach_max :
  let conds := ["Cloudy"; "Rain"; "Rain"; "Cloudy"] in
  (exists s, _get_forecast_summary (one_day conds) = Ok (SummaryList [s]) /\
             main_condition s = "Cloudy") /\
  first_to_reach_max (map fi_main (one_day conds)) = Some "Rain" /\
  occurrences "Cloudy" conds = max_occurrences conds /\
  occurrences "Rain" conds = max_occurrences conds.
Proof.
  cbv zeta. split; [|repeat split].
  eexists. split; [vm_compute; reflexivity | reflexivity].
Qed.

(** C2.  On the empty forecast the aggregator takes its early return and
    yields the empty dictionary, which is not the empty list. *)
Theorem empty_forecast_returns_empty_dict :
  _get_forecast_summary [] = Ok EmptyDict /\
  _get_forecast_summary [] <> Ok (SummaryList []).
Proof. split; [reflexivity | discriminate]. Qed.
















(** C10.  For a non-empty forecast every summary's [main_condition] is
    the condition of at least one sample of that summary's date. *)
Theorem main_condition_from_samples (forecast : list forecast_item) :
  forecast <> [] ->
  exists days,
    _get_forecast_summary forecast = Ok (SummaryList days) /\
    days <> [] /\
    forall s, In s days ->
      exists x, In x forecast /\ item_date x = date s /\
                fi_main x = main_condition s.
Proof.
  intros Hne.
  destruct (forecast_summary_spec forecast Hne)
    as (days & Hrun & Hdays & _ & _ & _ & Hspec).
  exists days. split; [assumption|]. split; [assumption|].
  intros s Hs. destruct (Hspec s Hs) as (Hg & _ & _ & _ & Hmax).
  destruct (max_by_count_mode (map fi_main (samples_on (date s) forecast)))
    as (c & Hc & _ & before & after & Hsplit & _).
  { intros H. apply map_eq_nil in H. contradiction. }
  rewrite Hc in Hmax. inversion Hmax; subst c.
  assert (Hin : In (main_condition s)
                   (map fi_main (samples_on (date s) forecast))).
  { rewrite Hsplit. apply in_elt. }
  apply in_map_iff in Hin as (x & Hx & Hin).
  exists x. split; [|split; [|assumption]].
  - unfold samples_on in Hin. now apply filter_In in Hin.
  - now apply samples_on_date in Hin.
Qed.

Lemma main_condition_from_samples_witness :
  exists days,
    _get_forecast_summary two_days = Ok (SummaryList days) /\
    days <> [] /\
    forall s, In s days ->
      exists x, In x two_days /\ item_date x = date s /\
                fi_main x = main_condition s.
Proof.
  apply (main_condition_from_samples two_days). discriminate.
Defined.

(** ** Normalizer *)

Arguments local_datetime : simpl never.
Arguments year_in_range : simpl never.
Arguments isoformat : simpl never.
Arguments title : simpl never.
Arguments Qdiv : simpl never.
Arguments Qmult : simpl never.

Lemma py_div_1000 x : py_div x 1000 = Ok (x / 1000).
Proof. reflexivity. Qed.

(** Reads the next payload access of the goal and splits on whether the
    key is there. *)
(** The year of a day number, and the day numbers of years 1 to 9999. *)
Lemma year_of_days_low d :
  (1 <= fst (fst (civil_from_days d)) <-> -719162 <= d)%Z.
Proof.
  unfold civil_from_days. cbv zeta. cbn [fst].
  destruct (_ <? 10)%Z eqn:E1; destruct (_ <=? 2)%Z eqn:E2;
    try apply Z.ltb_lt in E1; try apply Z.ltb_ge in E1;
    try apply Z.leb_le in E2; try apply Z.leb_gt in E2;
    Z.to_euclidean_division_equations; lia.
Qed.

Lemma year_of_days_high d :
  (fst (fst (civil_from_days d)) <= 9999 <-> d <= 2932896)%Z.
Proof.
  unfold civil_from_days. cbv zeta. cbn [fst].
  destruct (_ <? 10)%Z eqn:E1; destruct (_ <=? 2)%Z eqn:E2;
    try apply Z.ltb_lt in E1; try apply Z.ltb_ge in E1;
    try apply Z.leb_le in E2; try apply Z.leb_gt in E2;
    Z.to_euclidean_division_equations; lia.
Qed.

Lemma year_local_datetime utcoffset t :
  year (local_datetime utcoffset t)
  = fst (fst (civil_from_days ((t + utcoffset) / 86400))).
Proof.
  unfold local_datetime.
  destruct (civil_from_days ((t + utcoffset) / 86400)) as [[y m] d].
  reflexivity.
Qed.

Lemma year_in_range_seconds utcoffset t :
  year_in_range (local_datetime utcoffset t) = true <->
  (-62135596800 <= t + utcoffset <= 253402300799)%Z.
Proof.
  unfold year_in_range, MINYEAR, MAXYEAR.
  rewrite andb_true_iff, Z.leb_le, Z.leb_le, year_local_datetime.
  rewrite year_of_days_low, year_of_days_high.
  Z.to_euclidean_division_equations; lia.
Qed.

(** [fromtimestamp] returns the local time of the timestamps that are
    [convertible], and raises on the others. *)
Lemma fromtimestamp_cases utcoffset t :
  (convertible utcoffset t = true /\
   fromtimestamp utcoffset t = Ok (local_datetime utcoffset t)) \/
  (convertible utcoffset t = false /\
   exists e, fromtimestamp utcoffset t = Raise e).
Proof.
  pose proof (year_in_range_seconds utcoffset t) as H1.
  pose proof (year_in_range_seconds utcoffset (t - max_fold_seconds)) as H2.
  unfold fromtimestamp, check_year, convertible, first_local_second,
    last_local_second.
  change max_fold_seconds with 86400%Z in *.
  rewrite andb_true_iff, andb_false_iff, !Z.leb_le, !Z.leb_gt.
  destruct (year_in_range (local_datetime utcoffset t));
    [destruct (year_in_range (local_datetime utcoffset (t - 86400)))|];
    cbn [rbind].
  - left. split; [|reflexivity].
    destruct (proj1 H1 eq_refl), (proj1 H2 eq_refl). lia.
  - right. split; [|eexists; reflexivity].
    destruct (proj1 H1 eq_refl).
    destruct (Z_lt_le_dec (t + utcoffset) (-62135510400)); [now left|].
    assert (false = true) by (apply H2; lia). discriminate.
  - right. split; [|eexists; reflexivity].
    destruct (Z_lt_le_dec (t + utcoffset) (-62135510400)); [now left|].
    destruct (Z_lt_le_dec 253402300799 (t + utcoffset)); [now right|].
    assert (false = true) by (apply H1; lia). discriminate.
Qed.

Ltac next_access :=
  match goal with
  | |- context [field _ ?v] => destruct v eqn:?; simpl
  | |- context [first_entry ?l] => destruct l eqn:?; simpl
  | |- context [fromtimestamp ?o ?t] =>
      let Hc := fresh "Hc" in
      destruct (fromtimestamp_cases o t) as [[Hc ->]|[Hc [? ->]]];
      rewrite ?Hc; simpl
  end.

Ltac raised := split; [reflexivity | intros _; eexists; reflexivity].
Ltac returned :=
  split; [intros [? ?]; discriminate | intros ?; discriminate].

Lemma format_current_raises utcoffset data :
  (exists e, _format_current_weather utcoffset data = Raise e) <->
  current_complete utcoffset data = false.
Proof.
  unfold _format_current_weather, current_complete, main_complete,
    weather_complete, wind_complete, sys_complete, timestamp_ok,
    iso_of_timestamp.
  rewrite py_div_1000. simpl.
  repeat (next_access; rewrite ?andb_false_r; try solve [raised]).
  returned.
Qed.

Lemma format_item_raises utcoffset item :
  (exists e, format_forecast_item utcoffset item = Raise e) <->
  entry_complete utcoffset item = false.
Proof.
  unfold format_forecast_item, entry_complete, main_complete,
    weather_complete, wind_complete, timestamp_ok,
    iso_of_timestamp.
  simpl.
  repeat (next_access; rewrite ?andb_false_r; try solve [raised]).
  returned.
Qed.

Lemma result_Ok_or_Raise {A} (r : result A) :
  (exists a, r = Ok a) <-> ~ exists e, r = Raise e.
Proof.
  destruct r as [a|e]; split.
  - intros _ [e H]. discriminate.
  - intros _. now exists a.
  - intros [a H]. discriminate.
  - intros H. exfalso. apply H. now exists e.
Qed.

Lemma mapM_raises {A B} (f : A -> result B) (ok : A -> bool) (l : list A) :
  (forall x, (exists e, f x = Raise e) <-> ok x = false) ->
  (exists e, mapM f l = Raise e) <-> forallb ok l = false.
Proof.
  intros Hf. induction l as [|x l IH]; simpl.
  - split; [intros [e H]; discriminate | discriminate].
  - destruct (f x) as [y|e] eqn:Hx; simpl.
    + assert (Hok : ok x = true).
      { destruct (ok x) eqn:E; [reflexivity|].
        apply Hf in E as [e He]. congruence. }
      rewrite Hok. simpl. rewrite <- IH.
      destruct (mapM f l) as [ys|e]; simpl.
      * split; intros [e H]; discriminate.
      * split; intros _; now exists e.
    + assert (Hok : ok x = false) by (apply Hf; now exists e).
      rewrite Hok. simpl. split; [reflexivity | intros _; now exists e].
Qed.

Lemma format_forecast_raises utcoffset data :
  (exists e, _format_forecast_data utcoffset data = Raise e) <->
  forecast_complete utcoffset data = false.
Proof.
  unfold _format_forecast_data, forecast_complete.
  destruct (f_list data) as [items|]; simpl.
  - apply mapM_raises. intros item. apply format_item_raises.
  - raised.
Qed.

Lemma format_current_defaults utcoffset data cw :
  _format_current_weather utcoffset data = Ok cw ->
  cw_wind_direction cw = get_default (wind_deg (c_wind data)) 0 /\
  cw_visibility cw = get_default (c_visibility data) 0 / 1000 /\
  cw_uv_index cw = get_default (c_uvi data) 0.
Proof.
  unfold _format_current_weather, iso_of_timestamp, wind_deg.
  rewrite py_div_1000. simpl.
  repeat (next_access; try discriminate).
  intros H. inversion H. simpl. auto.
Qed.

Lemma format_item_defaults utcoffset item fi :
  format_forecast_item utcoffset item = Ok fi ->
  fi_wind_direction fi = get_default (wind_deg (e_wind item)) 0 /\
  fi_precipitation_probability fi = get_default (e_pop item) 0 * 100 /\
  fi_rain fi = get_default (precip_3h (e_rain item)) 0 /\
  fi_snow fi = get_default (precip_3h (e_snow item)) 0.
Proof.
  unfold format_forecast_item, iso_of_timestamp, wind_deg,
    precip_3h.
  simpl.
  repeat (next_access; try discriminate).
  intros H. inversion H. simpl.
  destruct (e_rain item), (e_snow item); auto.
Qed.

Lemma mapM_In {A B} (f : A -> result B) (l : list A) (ys : list B) y :
  mapM f l = Ok ys -> In y ys -> exists x, In x l /\ f x = Ok y.
Proof.
  intros H Hy. apply mapM_Ok_inv in H.
  induction H as [|x y' l ys Hxy _ IH]; [destruct Hy|].
  destruct Hy as [->|Hy].
  - exists x. split; [now left | assumption].
  - destruct (IH Hy) as (x' & Hin & Hx'). exists x'. split; [now right | assumption].
Qed.

(** C3 (as amended).  Normalization raises exactly when a field the code
    reads by subscript is absent or a timestamp is one that
    [datetime.fromtimestamp] does not convert, its local time being
    before 0001-01-02T00:00:00 or after 9999-12-31T23:59:59
    ([convertible]).  The fields are [main] with [temp], [feels_like],
    [humidity] and [pressure], [weather[0]] with [description], [main]
    and [icon], [wind] with [speed], and [dt]; for the current
    observation also [name] and [sys] with [country], [sunrise] and
    [sunset]; for a forecast the [list] itself.  The timestamps are [dt]
    and, for the current observation, [sunrise] and [sunset].  Otherwise
    normalization returns, whichever of
    [wind.deg], [pop], [rain], [rain.3h], [snow], [snow.3h],
    [visibility] and [uvi] are absent: a missing [wind.deg], [rain.3h]
    or [snow.3h] gives 0, a missing [pop] gives 0 and a present one is
    multiplied by 100, a missing [visibility] gives 0 and a present one
    is divided by 1000. *)
Theorem normalization_raises_iff_subscripted_field_missing (utcoffset : Z) :
  (forall data,
     ((exists e, _format_current_weather utcoffset data = Raise e) <->
      current_complete utcoffset data = false) /\
     ((exists cw, _format_current_weather utcoffset data = Ok cw) <->
      current_complete utcoffset data = true)) /\
  (forall data,
     ((exists e, _format_forecast_data utcoffset data = Raise e) <->
      forecast_complete utcoffset data = false) /\
     ((exists samples, _format_forecast_data utcoffset data = Ok samples) <->
      forecast_complete utcoffset data = true)) /\
  (forall data cw,
     _format_current_weather utcoffset data = Ok cw ->
     (wind_deg (c_wind data) = None -> cw_wind_direction cw = 0) /\
     (c_visibility data = None -> cw_visibility cw == 0) /\
     (forall v, c_visibility data = Some v -> cw_visibility cw == v / 1000)) /\
  (forall data samples fi,
     _format_forecast_data utcoffset data = Ok samples -> In fi samples ->
     exists item,
       In item (get_default (f_list data) []) /\
       (wind_deg (e_wind item) = None -> fi_wind_direction fi = 0) /\
       (precip_3h (e_rain item) = None -> fi_rain fi = 0) /\
       (precip_3h (e_snow item) = None -> fi_snow fi = 0) /\
       (e_pop item = None -> fi_precipitation_probability fi == 0) /\
       (forall p, e_pop item = Some p ->
                  fi_precipitation_probability fi == p * 100)).
Proof.
  split; [|split; [|split]].
  - intros data. split; [apply format_current_raises|].
    rewrite result_Ok_or_Raise, format_current_raises.
    destruct (current_complete utcoffset data); split; congruence.
  - intros data. split; [apply format_forecast_raises|].
    rewrite result_Ok_or_Raise, format_forecast_raises.
    destruct (forecast_complete utcoffset data); split; congruence.
  - intros data cw H.
    destruct (format_current_defaults _ _ _ H) as (Hw & Hv & _).
    rewrite Hw, Hv. split; [|split].
    + now intros ->.
    + intros ->. simpl. reflexivity.
    + intros v ->. simpl. reflexivity.
  - intros data samples fi H Hfi. unfold _format_forecast_data in H.
    destruct (f_list data) as [items|]; simpl in H; [|discriminate].
    destruct (mapM_In _ _ _ _ H Hfi) as (item & Hin & Hitem).
    exists item. split; [assumption|].
    destruct (format_item_defaults _ _ _ Hitem) as (Hw & Hp & Hr & Hs).
    rewrite Hw, Hp, Hr, Hs.
    split; [now intros ->|]. split; [now intros ->|].
    split; [now intros ->|]. split.
    + intros ->. simpl. reflexivity.
    + intros p ->. simpl. reflexivity.
Qed.

(** C3 (as stated) fails.  A current observation and a forecast entry in
    which [main.temp], [weather[0].main] and [dt] are present and every
    other field is absent both raise [KeyError: 'feels_like']. *)
Lemma named_required_fields_do_not_suffice :
  named_required_current bare_current = true /\
  _format_current_weather 0 bare_current = Raise (KeyError "feels_like") /\
  named_required_entry bare_entry = true /\
  _format_forecast_data 0 {| f_list := Some [bare_entry] |}
    = Raise (KeyError "feels_like").
Proof. repeat split. Qed.

(** ** Advisory rule engine: how the categories grow *)

Lemma ext_refl texts l : ext texts l l.
Proof. exists []. rewrite app_nil_r. split; [reflexivity | intros x []]. Qed.

Lemma ext_snoc texts l l' t :
  ext texts l l' -> In t texts -> ext texts l (l' ++ [t]).
Proof.
  intros (a & -> & Ha) Ht. exists (a ++ [t])%list.
  rewrite app_assoc. split; [reflexivity|].
  intros x Hx. apply in_app_iff in Hx as [Hx|[<-|[]]]; auto.
Qed.

Lemma ext_trans texts l1 l2 l3 :
  ext texts l1 l2 -> ext texts l2 l3 -> ext texts l1 l3.
Proof.
  intros (a & -> & Ha) (b & -> & Hb). exists (a ++ b)%list.
  rewrite app_assoc. split; [reflexivity|]. now apply incl_app.
Qed.

Lemma ext_keeps texts l l' x : ext texts l l' -> In x l -> In x l'.
Proof. intros (a & -> & _) Hx. apply in_app_iff. now left. Qed.

Lemma ext_from_nil texts l x : ext texts [] l -> In x l -> In x texts.
Proof. intros (a & -> & Ha) Hx. simpl in Hx. now apply Ha. Qed.

Lemma grows_refl texts s : grows texts s s.
Proof. repeat split; apply ext_refl. Qed.

Lemma grows_trans texts s1 s2 s3 :
  grows texts s1 s2 -> grows texts s2 s3 -> grows texts s1 s3.
Proof.
  intros (A1 & A2 & A3 & A4 & A5) (B1 & B2 & B3 & B4 & B5).
  repeat split; eapply ext_trans; eassumption.
Qed.

Lemma grows_add_immediate texts s s' t :
  grows texts s s' -> In t texts -> grows texts s (add_immediate t s').
Proof.
  intros (A1 & A2 & A3 & A4 & A5) Ht.
  repeat split; simpl; try assumption. now apply ext_snoc.
Qed.

Lemma grows_add_weekly texts s s' t :
  grows texts s s' -> In t texts -> grows texts s (add_weekly t s').
Proof.
  intros (A1 & A2 & A3 & A4 & A5) Ht.
  repeat split; simpl; try assumption. now apply ext_snoc.
Qed.

Lemma grows_add_crop_care texts s s' t :
  grows texts s s' -> In t texts -> grows texts s (add_crop_care t s').
Proof.
  intros (A1 & A2 & A3 & A4 & A5) Ht.
  repeat split; simpl; try assumption. now apply ext_snoc.
Qed.

Lemma grows_add_irrigation texts s s' t :
  grows texts s s' -> In t texts -> grows texts s (add_irrigation t s').
Proof.
  intros (A1 & A2 & A3 & A4 & A5) Ht.
  repeat split; simpl; try assumption. now apply ext_snoc.
Qed.

Lemma grows_add_pest texts s s' t :
  grows texts s s' -> In t texts -> grows texts s (add_pest t s').
Proof.
  intros (A1 & A2 & A3 & A4 & A5) Ht.
  repeat split; simpl; try assumption. now apply ext_snoc.
Qed.

Lemma grows_keeps texts s s' x : grows texts s s' -> mentions s x -> mentions s' x.
Proof.
  intros (A1 & A2 & A3 & A4 & A5). unfold mentions.
  intros [H|[H|[H|[H|H]]]];
    [ left; apply (ext_keeps _ _ _ _ A1 H)
    | right; left; apply (ext_keeps _ _ _ _ A2 H)
    | do 2 right; left; apply (ext_keeps _ _ _ _ A3 H)
    | do 3 right; left; apply (ext_keeps _ _ _ _ A4 H)
    | do 4 right; apply (ext_keeps _ _ _ _ A5 H) ].
Qed.

Lemma grows_from_nothing texts s x :
  grows texts no_suggestions s -> mentions s x -> In x texts.
Proof.
  intros (A1 & A2 & A3 & A4 & A5). unfold mentions. simpl in *.
  intros [H|[H|[H|[H|H]]]];
    [ apply (ext_from_nil _ _ _ A1 H) | apply (ext_from_nil _ _ _ A2 H)
    | apply (ext_from_nil _ _ _ A3 H) | apply (ext_from_nil _ _ _ A4 H)
    | apply (ext_from_nil _ _ _ A5 H) ].
Qed.

Lemma text_in_In text texts : text_in text texts = true <-> In text texts.
Proof.
  unfold text_in. rewrite existsb_exists. split.
  - intros (t & Ht & Heq). apply String.eqb_eq in Heq. now subst.
  - intros H. exists text. split; [assumption | apply String.eqb_refl].
Qed.

Lemma texts_incl (l texts : list string) :
  forallb (fun t => text_in t texts) l = true -> incl l texts.
Proof.
  rewrite forallb_forall. intros H x Hx. apply text_in_In. now apply H.
Qed.

(** Closes [grows texts s (add_... t (add_... t' s))] when the added texts
    are in [texts]. *)
Ltac grows_step :=
  repeat first
    [ apply grows_refl
    | apply grows_add_immediate | apply grows_add_weekly
    | apply grows_add_crop_care | apply grows_add_irrigation
    | apply grows_add_pest ];
  try (match goal with H : incl _ ?T |- In _ ?T => apply H; simpl; tauto end).

Lemma temperature_rules_grows texts temp s :
  incl temperature_texts texts -> grows texts s (temperature_rules temp s).
Proof.
  intros H. unfold temperature_rules.
  destruct (Qltb temp 5); [|destruct (Qgtb temp 35)]; grows_step.
Qed.

Lemma humidity_rules_grows texts humidity s :
  incl humidity_texts texts -> grows texts s (humidity_rules humidity s).
Proof.
  intros H. unfold humidity_rules.
  destruct (Qgtb humidity 80); [|destruct (Qltb humidity 30)]; grows_step.
Qed.

Lemma condition_rules_grows texts description s :
  incl condition_texts texts -> grows texts s (condition_rules description s).
Proof.
  intros H. unfold condition_rules.
  destruct (str_in "rain" description);
    [|destruct (str_in "clear" description || str_in "sunny" description)];
    grows_step.
Qed.

Lemma wind_rules_grows texts wind_speed s :
  incl wind_texts texts -> grows texts s (wind_rules wind_speed s).
Proof.
  intros H. unfold wind_rules. destruct (Qgtb wind_speed 10); grows_step.
Qed.

Lemma rain_rules_grows texts upcoming_rain s :
  incl rain_texts texts -> grows texts s (rain_rules upcoming_rain s).
Proof.
  intros H. unfold rain_rules.
  destruct (Qgtb upcoming_rain 10); [|destruct (Qltb upcoming_rain 1)];
    grows_step.
Qed.

Lemma trend_rules_grows texts avg_temp temp s :
  incl trend_texts texts -> grows texts s (trend_rules avg_temp temp s).
Proof.
  intros H. unfold trend_rules.
  destruct (Qgtb avg_temp (temp + 5)); [|destruct (Qltb avg_temp (temp - 5))];
    grows_step.
Qed.

Lemma seasonal_rules_grows texts current_month s :
  incl seasonal_texts texts -> grows texts s (seasonal_rules current_month s).
Proof.
  intros H. unfold seasonal_rules.
  repeat match goal with
         | |- context [if ?b then _ else _] => destruct b
         end; grows_step.
Qed.

(** ** Advisory rule engine: which branch is taken *)

Lemma temperature_rules_frost temp s :
  temp < 5 ->
  temperature_rules temp s
  = add_crop_care frost_care (add_immediate frost_action s).
Proof.
  intros H. unfold temperature_rules.
  apply Qltb_lt in H. now rewrite H.
Qed.

Lemma temperature_rules_idle temp s :
  5 <= temp -> temp <= 35 -> temperature_rules temp s = s.
Proof.
  intros H1 H2. unfold temperature_rules.
  apply Qltb_ge in H1. apply Qgtb_le in H2. now rewrite H1, H2.
Qed.

Lemma humidity_rules_idle humidity s :
  30 <= humidity -> humidity <= 80 -> humidity_rules humidity s = s.
Proof.
  intros H1 H2. unfold humidity_rules.
  apply Qltb_ge in H1. apply Qgtb_le in H2. now rewrite H1, H2.
Qed.

(** ** Advisory rule engine: the run *)

Lemma forecast_rules_empty temp s : forecast_rules temp [] s = Ok s.
Proof. reflexivity. Qed.

Lemma forecast_rules_nonempty temp forecast s :
  forecast <> [] ->
  exists days avg_temp,
    _get_forecast_summary forecast = Ok (SummaryList days) /\
    days <> [] /\
    forecast_rules temp forecast s
    = Ok (trend_rules avg_temp temp
            (rain_rules (py_sum (map total_rain (firstn 3 days))) s)).
Proof.
  intros Hne.
  destruct (forecast_summary_spec forecast Hne) as (days & Hrun & Hdays & _).
  exists days. unfold forecast_rules. rewrite Hrun. simpl.
  destruct days as [|d days]; [congruence|].
  cbn [truthy first_three rbind].
  rewrite py_div_Ok.
  - eexists. split; [reflexivity|]. split; [assumption | reflexivity].
  - apply inject_length_nonzero. discriminate.
Qed.

(** The engine always returns: the seasonal tip is added to what the
    forecast rules return on the outcome of the rules on the current
    sample, and the trace is left as it was. *)
Lemma engine_run current forecast :
  exists planned,
    forecast_rules (cw_temperature current) forecast (current_rules current)
      = Ok planned /\
    forall w tr,
      _generate_agricultural_suggestions current forecast w tr
      = (Ok (seasonal_rules (month (local_datetime (utcoffset w) (clock w)))
               planned), tr).
Proof.
  assert (H : exists planned,
             forecast_rules (cw_temperature current) forecast
               (current_rules current) = Ok planned).
  { destruct forecast as [|x forecast].
    - eexists. apply forecast_rules_empty.
    - destruct (forecast_rules_nonempty (cw_temperature current)
                  (x :: forecast) (current_rules current))
        as (days & avg & _ & _ & Heq); [discriminate|].
      eexists. exact Heq. }
  destruct H as [planned Hp]. exists planned. split; [assumption|].
  intros w tr. unfold _generate_agricultural_suggestions, io_bind, io_lift,
    io_ret, datetime_now, ask.
  fold (current_rules current). rewrite Hp. reflexivity.
Qed.

Ltac incl_texts := apply texts_incl; vm_compute; reflexivity.
Ltac in_texts := apply text_in_In; vm_compute; reflexivity.

Lemma excluded text texts : text_in text texts = true -> ~ In text (excluding texts).
Proof.
  intros H. unfold excluding. rewrite filter_In. intros [_ Hx].
  now rewrite H in Hx.
Qed.

Lemma forecast_rules_grows texts temp forecast s planned :
  incl rain_texts texts -> incl trend_texts texts ->
  forecast_rules temp forecast s = Ok planned -> grows texts s planned.
Proof.
  intros Hr Ht Hp. destruct forecast as [|x forecast].
  - rewrite forecast_rules_empty in Hp. inversion Hp. apply grows_refl.
  - destruct (forecast_rules_nonempty temp (x :: forecast) s)
      as (days & avg & _ & _ & Heq); [discriminate|].
    rewrite Heq in Hp. inversion Hp.
    eapply grows_trans; [now apply rain_rules_grows | now apply trend_rules_grows].
Qed.

(** From the outcome of the temperature and humidity rules to the final
    advisory set. *)
Lemma after_humidity_grows texts current forecast planned current_month :
  incl condition_texts texts -> incl wind_texts texts ->
  incl rain_texts texts -> incl trend_texts texts ->
  incl seasonal_texts texts ->
  forecast_rules (cw_temperature current) forecast (current_rules current)
    = Ok planned ->
  grows texts
    (humidity_rules (cw_humidity current)
       (temperature_rules (cw_temperature current) no_suggestions))
    (seasonal_rules current_month planned).
Proof.
  intros Hc Hw Hr Ht Hs Hp.
  eapply grows_trans; [|now apply seasonal_rules_grows].
  eapply grows_trans; [|eapply forecast_rules_grows; eassumption].
  unfold current_rules.
  eapply grows_trans; [now apply condition_rules_grows | now apply wind_rules_grows].
Qed.

Lemma current_rules_grows texts current :
  incl temperature_texts texts -> incl humidity_texts texts ->
  incl condition_texts texts -> incl wind_texts texts ->
  grows texts no_suggestions (current_rules current).
Proof.
  intros H1 H2 H3 H4. unfold current_rules.
  eapply grows_trans; [|now apply wind_rules_grows].
  eapply grows_trans; [|now apply condition_rules_grows].
  eapply grows_trans; [now apply temperature_rules_grows
                      | now apply humidity_rules_grows].
Qed.

(** C5.  The engine returns for every input.  With a temperature of 5 or
    of 35 none of the frost and heat texts is in the result; with a
    humidity of 80 or of 30 none of the humidity texts is; with a
    temperature of 3 the frost action and the frost crop-care tip are in
    the result and the heat texts are not, whatever the humidity, the
    wind, the forecast and the month. *)
Theorem temperature_and_humidity_thresholds_strict
  (current : current_weather) (forecast : list forecast_item)
  (w : world) (tr : list event) :
  exists s,
    _generate_agricultural_suggestions current forecast w tr = (Ok s, tr) /\
    (cw_temperature current == 5 \/ cw_temperature current == 35 ->
     forall text, In text temperature_texts -> ~ mentions s text) /\
    (cw_humidity current == 80 \/ cw_humidity current == 30 ->
     forall text, In text humidity_texts -> ~ mentions s text) /\
    (cw_temperature current == 3 ->
     In frost_action (immediate_actions s) /\ In frost_care (crop_care s) /\
     ~ mentions s heat_action /\ ~ mentions s heat_irrigation).
Proof.
  destruct (engine_run current forecast) as (planned & Hp & Hrun).
  eexists. split; [apply Hrun|].
  set (m := month (local_datetime (utcoffset w) (clock w))).
  split; [|split].
  - intros Htemp text Htext Hm.
    assert (Hg : grows (excluding temperature_texts) no_suggestions
                   (seasonal_rules m planned)).
    { eapply grows_trans;
        [|eapply after_humidity_grows; try eassumption; incl_texts].
      rewrite temperature_rules_idle by (destruct Htemp; lra).
      apply humidity_rules_grows. incl_texts. }
    apply (grows_from_nothing _ _ _ Hg) in Hm.
    revert Hm. apply excluded. now apply text_in_In.
  - intros Hhum text Htext Hm.
    assert (Hg : grows (excluding humidity_texts) no_suggestions
                   (seasonal_rules m planned)).
    { eapply grows_trans;
        [|eapply after_humidity_grows; try eassumption; incl_texts].
      rewrite humidity_rules_idle by (destruct Hhum; lra).
      apply temperature_rules_grows. incl_texts. }
    apply (grows_from_nothing _ _ _ Hg) in Hm.
    revert Hm. apply excluded. now apply text_in_In.
  - intros Htemp.
    assert (Hfrost : temperature_rules (cw_temperature current) no_suggestions
                     = add_crop_care frost_care
                         (add_immediate frost_action no_suggestions))
      by (apply temperature_rules_frost; lra).
    assert (Hkeep : grows all_texts
                      (add_crop_care frost_care
                         (add_immediate frost_action no_suggestions))
                      (seasonal_rules m planned)).
    { rewrite <- Hfrost.
      eapply grows_trans;
        [|eapply after_humidity_grows; try eassumption; incl_texts].
      apply humidity_rules_grows. incl_texts. }
    assert (Hg : grows (excluding [heat_action; heat_irrigation]) no_suggestions
                   (seasonal_rules m planned)).
    { eapply grows_trans;
        [|eapply after_humidity_grows; try eassumption; incl_texts].
      rewrite Hfrost.
      eapply grows_trans; [|apply humidity_rules_grows; incl_texts].
      apply grows_add_crop_care; [|in_texts].
      apply grows_add_immediate; [apply grows_refl | in_texts]. }
    destruct Hkeep as (K1 & _ & K3 & _).
    split; [apply (ext_keeps _ _ _ _ K1); simpl; auto|].
    split; [apply (ext_keeps _ _ _ _ K3); simpl; auto|].
    split; intros Hm; apply (grows_from_nothing _ _ _ Hg) in Hm;
      revert Hm; apply excluded; reflexivity.
Qed.

(** ** Generic model: runs in double precision *)

Example three_tenths_summary :
  Generic._get_forecast_summary binary64 Doubles.three_tenths
  = Ok (Generic.SummaryList [Doubles.three_tenths_day]).
Proof. vm_compute. reflexivity. Qed.

Example drizzle_sum :
  map Generic.total_rain (generic_planning_days Doubles.drizzle)
  = Doubles.drizzle_totals /\
  sum binary64 Doubles.drizzle_totals = Doubles.sum_of_drizzle /\
  lt binary64 Doubles.sum_of_drizzle (of_int binary64 1) = true.
Proof. vm_compute. repeat split. Qed.

Example drizzle_advice :
  exists s,
    run (Generic._generate_agricultural_suggestions binary64 Doubles.chilly
           Doubles.drizzle) online = (Ok s, []) /\
    irrigation s = [no_rain_irrigation; summer_irrigation].
Proof. eexists. vm_compute. split; reflexivity. Qed.

Example mild_days_advice :
  exists s,
    run (Generic._generate_agricultural_suggestions binary64 Doubles.chilly
           Doubles.mild_days) online = (Ok s, []) /\
    div_int binary64
      (sum binary64
         (map Generic.max_temp (generic_planning_days Doubles.mild_days))) 3
    = Doubles.mean_of_mild_days /\
    add binary64 (Generic.cw_temperature Doubles.chilly) (of_int binary64 5)
    = Doubles.chilly_plus_5 /\
    In rising_planning (weekly_planning s).
Proof. eexists. vm_compute. repeat split. auto. Qed.

(** ** Generic model: the aggregator returns *)

Section GenericFacts.
Variable A : arithmetic.

Lemma set_set {V} k (v1 v2 : V) d :
  PyDict.set k v2 (PyDict.set k v1 d) = PyDict.set k v2 d.
Proof.
  induction d as [|[k' v'] d IH]; simpl.
  - now rewrite String.eqb_refl.
  - destruct (String.eqb k k') eqn:E; simpl.
    + now rewrite String.eqb_refl.
    + now rewrite E, IH.
Qed.

Lemma In_values_set {V} k (v v' : V) d :
  In v' (PyDict.values (PyDict.set k v d)) -> v' = v \/ In v' (PyDict.values d).
Proof.
  unfold PyDict.values. induction d as [|[k0 v0] d IH]; simpl.
  - intros [<-|[]]. now left.
  - destruct (String.eqb k k0); simpl.
    + intros [<-|H]; auto.
    + intros [<-|H]; auto. destruct (IH H); auto.
Qed.

Lemma set_nonempty {V} k (v : V) d : PyDict.set k v d <> [].
Proof.
  destruct d as [|[k' v'] d]; simpl; [discriminate|].
  destruct (String.eqb k k'); discriminate.
Qed.

Lemma counted_update (a : Generic.day_acc A) x :
  (0 <= Generic.acc_count a)%Z -> counted (Generic.update_acc A a x).
Proof.
  intros H. split; simpl; [lia|].
  intros E. apply app_eq_nil in E as [_ E]. discriminate.
Qed.

Lemma accumulate_counted ds x :
  Forall counted (PyDict.values ds) ->
  exists ds',
    Generic.accumulate A ds x = Ok ds' /\
    Forall counted (PyDict.values ds') /\ ds' <> [].
Proof.
  intros Hall. unfold Generic.accumulate.
  set (d := Generic.item_date x).
  unfold PyDict.mem, PyDict.subscript.
  destruct (PyDict.get d ds) as [a|] eqn:G.
  - rewrite G. simpl. eexists. split; [reflexivity|].
    split; [|apply set_nonempty].
    apply Forall_forall. intros a' Ha'.
    apply In_values_set in Ha' as [->|Ha'].
    + apply counted_update.
      apply PyDictFacts.get_In in G.
      assert (Ha : In a (PyDict.values ds))
        by (apply in_map_iff; exists (d, a); auto).
      destruct (proj1 (Forall_forall _ _) Hall a Ha). lia.
    + now apply (proj1 (Forall_forall _ _) Hall).
  - rewrite PyDictFacts.get_set_same. simpl. rewrite set_set.
    eexists. split; [reflexivity|]. split; [|apply set_nonempty].
    apply Forall_forall. intros a' Ha'.
    apply In_values_set in Ha' as [->|Ha'].
    + apply counted_update. simpl. lia.
    + now apply (proj1 (Forall_forall _ _) Hall).
Qed.

Lemma accumulate_all_counted forecast : forall ds,
  Forall counted (PyDict.values ds) ->
  exists ds',
    Generic.accumulate_all A ds forecast = Ok ds' /\
    Forall counted (PyDict.values ds') /\
    (ds <> [] \/ forecast <> [] -> ds' <> []).
Proof.
  induction forecast as [|x forecast IH]; intros ds Hall; simpl.
  - exists ds. split; [reflexivity|]. split; [assumption|].
    intros [H|H]; congruence.
  - destruct (accumulate_counted ds x Hall) as (ds1 & -> & Hall1 & Hne1).
    simpl. destruct (IH ds1 Hall1) as (ds' & Hrun & Hall' & Hne').
    exists ds'. split; [assumption|]. split; [assumption|].
    intros _. apply Hne'. now left.
Qed.

Lemma finalize_counted (a : Generic.day_acc A) :
  counted a ->
  exists avg mc,
    Generic.finalize A a
    = Ok (Generic.Build_day_summary A (Generic.acc_date a)
            (Generic.acc_min_temp a) (Generic.acc_max_temp a)
            (Generic.acc_total_rain a) avg mc).
Proof.
  intros [Hc Hconds]. unfold Generic.finalize, Generic.py_div.
  destruct (Z.eqb_spec (Generic.acc_count a) 0) as [E|_]; [lia|].
  destruct (max_by_count_mode _ Hconds) as (c & -> & _).
  simpl. do 2 eexists. reflexivity.
Qed.

(** On a non-empty forecast the aggregator returns a non-empty list. *)
Lemma generic_summary_returns forecast :
  forecast <> [] ->
  exists days,
    Generic._get_forecast_summary A forecast = Ok (Generic.SummaryList days) /\
    days <> [].
Proof.
  intros Hne. unfold Generic._get_forecast_summary.
  destruct forecast as [|x forecast]; [congruence|].
  destruct (accumulate_all_counted (x :: forecast) [])
    as (ds & -> & Hall & Hds); [constructor|].
  cbn [rbind].
  destruct (mapM_total (Generic.finalize A) (PyDict.values ds))
    as (days & -> & Hdays).
  { intros a Ha.
    destruct (finalize_counted a (proj1 (Forall_forall _ _) Hall a Ha))
      as (avg & mc & H).
    eexists. exact H. }
  exists days. split; [reflexivity|].
  assert (Hds' : ds <> []) by (apply Hds; right; discriminate).
  intros ->. apply Forall2_length in Hdays.
  unfold PyDict.values in Hdays. rewrite length_map in Hdays.
  destruct ds; [congruence | discriminate].
Qed.

(** ** Generic model: the rule engine returns *)

Lemma generic_planning_days_of forecast days :
  Generic._get_forecast_summary A forecast = Ok (Generic.SummaryList days) ->
  generic_planning_days forecast = firstn 3 days.
Proof. unfold generic_planning_days. now intros ->. Qed.

Lemma generic_planning_days_empty :
  generic_planning_days (A := A) [] = [].
Proof. reflexivity. Qed.

Lemma generic_forecast_rules_empty temp s :
  Generic.forecast_rules A temp [] s = Ok s.
Proof. reflexivity. Qed.

Lemma generic_forecast_rules_nonempty temp forecast s :
  forecast <> [] ->
  exists days,
    Generic._get_forecast_summary A forecast = Ok (Generic.SummaryList days) /\
    days <> [] /\
    Generic.forecast_rules A temp forecast s
    = Ok (Generic.trend_rules A
            (div_int A (sum A (map Generic.max_temp (firstn 3 days)))
               (Z.of_nat (List.length (firstn 3 days))))
            temp
            (Generic.rain_rules A
               (sum A (map Generic.total_rain (firstn 3 days))) s)).
Proof.
  intros Hne.
  destruct (generic_summary_returns forecast Hne) as (days & Hrun & Hdays).
  exists days. split; [assumption|]. split; [assumption|].
  unfold Generic.forecast_rules. rewrite Hrun.
  destruct days as [|d days]; [congruence|].
  cbn [Generic.truthy Generic.first_three rbind].
  unfold Generic.py_div.
  destruct (Z.eqb_spec (Z.of_nat (List.length (firstn 3 (d :: days)))) 0)
    as [E|_]; [simpl in E; lia | reflexivity].
Qed.

Lemma generic_engine_empty (current : Generic.current_weather A) w tr :
  Generic._generate_agricultural_suggestions A current [] w tr
  = (Ok (seasonal_rules (month (local_datetime (utcoffset w) (clock w)))
           (generic_current_rules current)), tr).
Proof. reflexivity. Qed.

(** On a non-empty forecast the engine returns the seasonal tip added to
    the outcome of the trend rules, of the rain rules and of the rules on
    the current sample; the trace is left as it was. *)
Lemma generic_engine_nonempty (current : Generic.current_weather A)
  forecast w tr :
  forecast <> [] ->
  let days := generic_planning_days forecast in
  Generic._generate_agricultural_suggestions A current forecast w tr
  = (Ok (seasonal_rules (month (local_datetime (utcoffset w) (clock w)))
           (Generic.trend_rules A
              (div_int A (sum A (map Generic.max_temp days))
                 (Z.of_nat (List.length days)))
              (Generic.cw_temperature current)
              (Generic.rain_rules A (sum A (map Generic.total_rain days))
                 (generic_current_rules current)))), tr).
Proof.
  intros Hne days.
  destruct (generic_forecast_rules_nonempty (Generic.cw_temperature current)
              forecast (generic_current_rules current) Hne)
    as (ds & Hds & _ & Heq).
  unfold days. rewrite (generic_planning_days_of _ _ Hds).
  unfold Generic._generate_agricultural_suggestions, io_bind, io_lift,
    io_ret, datetime_now, ask.
  fold (generic_current_rules current). rewrite Heq. reflexivity.
Qed.

Lemma generic_engine_returns (current : Generic.current_weather A)
  forecast w tr :
  exists s,
    Generic._generate_agricultural_suggestions A current forecast w tr
    = (Ok s, tr).
Proof.
  destruct forecast as [|x forecast].
  - eexists. apply generic_engine_empty.
  - eexists. apply generic_engine_nonempty. discriminate.
Qed.

(** ** Generic model: how the categories grow *)

Lemma generic_temperature_rules_grows texts temp s :
  incl temperature_texts texts ->
  grows texts s (Generic.temperature_rules A temp s).
Proof.
  intros H. unfold Generic.temperature_rules.
  destruct (lt A temp (of_int A 5));
    [|destruct (Generic.gt A temp (of_int A 35))]; grows_step.
Qed.

Lemma generic_humidity_rules_grows texts humidity s :
  incl humidity_texts texts ->
  grows texts s (Generic.humidity_rules A humidity s).
Proof.
  intros H. unfold Generic.humidity_rules.
  destruct (Generic.gt A humidity (of_int A 80));
    [|destruct (lt A humidity (of_int A 30))]; grows_step.
Qed.

Lemma generic_wind_rules_grows texts wind_speed s :
  incl wind_texts texts -> grows texts s (Generic.wind_rules A wind_speed s).
Proof.
  intros H. unfold Generic.wind_rules.
  destruct (Generic.gt A wind_speed (of_int A 10)); grows_step.
Qed.

Lemma generic_rain_rules_grows texts upcoming_rain s :
  incl rain_texts texts -> grows texts s (Generic.rain_rules A upcoming_rain s).
Proof.
  intros H. unfold Generic.rain_rules.
  destruct (Generic.gt A upcoming_rain (of_int A 10));
    [|destruct (lt A upcoming_rain (of_int A 1))]; grows_step.
Qed.

Lemma generic_trend_rules_grows texts avg_temp temp s :
  incl trend_texts texts ->
  grows texts s (Generic.trend_rules A avg_temp temp s).
Proof.
  intros H. unfold Generic.trend_rules.
  destruct (Generic.gt A avg_temp (add A temp (of_int A 5)));
    [|destruct (lt A avg_temp (sub A temp (of_int A 5)))]; grows_step.
Qed.

Lemma generic_current_rules_grows texts (current : Generic.current_weather A) :
  incl temperature_texts texts -> incl humidity_texts texts ->
  incl condition_texts texts -> incl wind_texts texts ->
  grows texts no_suggestions (generic_current_rules current).
Proof.
  intros H1 H2 H3 H4. unfold generic_current_rules.
  eapply grows_trans; [|now apply generic_wind_rules_grows].
  eapply grows_trans; [|now apply condition_rules_grows].
  eapply grows_trans; [now apply generic_temperature_rules_grows
                      | now apply generic_humidity_rules_grows].
Qed.

(** ** Generic model: which branch is taken *)

Lemma generic_rain_rules_heavy upcoming_rain s :
  Generic.gt A upcoming_rain (of_int A 10) = true ->
  Generic.rain_rules A upcoming_rain s
  = add_irrigation reduce_irrigation (add_weekly heavy_rain_planning s).
Proof. intros H. unfold Generic.rain_rules. now rewrite H. Qed.

Lemma generic_rain_rules_none upcoming_rain s :
  lt A upcoming_rain (of_int A 1) = true ->
  Generic.rain_rules A upcoming_rain s = add_irrigation no_rain_irrigation s.
Proof.
  intros H. unfold Generic.rain_rules, Generic.gt.
  now rewrite (below_1_not_above_10 A _ H), H.
Qed.

Lemma generic_rain_rules_idle upcoming_rain s :
  Generic.gt A upcoming_rain (of_int A 10) = false ->
  lt A upcoming_rain (of_int A 1) = false ->
  Generic.rain_rules A upcoming_rain s = s.
Proof. intros H1 H2. unfold Generic.rain_rules. now rewrite H1, H2. Qed.

Lemma generic_trend_rules_rising avg_temp temp s :
  Generic.gt A avg_temp (add A temp (of_int A 5)) = true ->
  Generic.trend_rules A avg_temp temp s = add_weekly rising_planning s.
Proof. intros H. unfold Generic.trend_rules. now rewrite H. Qed.

Lemma generic_trend_rules_dropping avg_temp temp s :
  Generic.gt A avg_temp (add A temp (of_int A 5)) = false ->
  lt A avg_temp (sub A temp (of_int A 5)) = true ->
  Generic.trend_rules A avg_temp temp s = add_weekly dropping_planning s.
Proof. intros H1 H2. unfold Generic.trend_rules. now rewrite H1, H2. Qed.

Lemma generic_trend_rules_idle avg_temp temp s :
  Generic.gt A avg_temp (add A temp (of_int A 5)) = false ->
  lt A avg_temp (sub A temp (of_int A 5)) = false ->
  Generic.trend_rules A avg_temp temp s = s.
Proof. intros H1 H2. unfold Generic.trend_rules. now rewrite H1, H2. Qed.

(** The advisory set before the trend rules grows from nothing by texts
    other than the trend texts. *)
Lemma generic_before_trend_grows texts
  (current : Generic.current_weather A) upcoming_rain :
  incl temperature_texts texts -> incl humidity_texts texts ->
  incl condition_texts texts -> incl wind_texts texts ->
  incl rain_texts texts ->
  grows texts no_suggestions
    (Generic.rain_rules A upcoming_rain (generic_current_rules current)).
Proof.
  intros H1 H2 H3 H4 H5.
  eapply grows_trans; [now apply generic_current_rules_grows|].
  now apply generic_rain_rules_grows.
Qed.

(** From the outcome of the rain rules to the final advisory set. *)
Lemma generic_after_rain_grows texts avg_temp temp current_month s0 s :
  incl trend_texts texts -> incl seasonal_texts texts ->
  grows texts s0 s ->
  grows texts s0
    (seasonal_rules current_month (Generic.trend_rules A avg_temp temp s)).
Proof.
  intros Ht Hs Hg.
  eapply grows_trans; [|now apply seasonal_rules_grows].
  eapply grows_trans; [eassumption | now apply generic_trend_rules_grows].
Qed.

End GenericFacts.

(** ** Generic model: the rational model is its instance [rational] *)

Lemma Qeq_bool_inject_Z_0 n : Qeq_bool (inject_Z n) 0 = (n =? 0)%Z.
Proof.
  unfold Qeq_bool. simpl. rewrite Z.mul_1_r. now destruct n.
Qed.

Lemma rational_py_div x n : Generic.py_div rational x n = py_div x (inject_Z n).
Proof.
  unfold Generic.py_div, py_div. now rewrite Qeq_bool_inject_Z_0.
Qed.

Lemma get_map_values {V W} (f : V -> W) k d :
  PyDict.get k (map (fun p => (fst p, f (snd p))) d)
  = option_map f (PyDict.get k d).
Proof.
  induction d as [|[k' v] d IH]; simpl; [reflexivity|].
  now destruct (String.eqb k k').
Qed.

Lemma set_map_values {V W} (f : V -> W) k v d :
  PyDict.set k (f v) (map (fun p => (fst p, f (snd p))) d)
  = map (fun p => (fst p, f (snd p))) (PyDict.set k v d).
Proof.
  induction d as [|[k' v'] d IH]; simpl; [reflexivity|].
  destruct (String.eqb k k'); simpl; [reflexivity|]. now rewrite IH.
Qed.

Lemma rational_accumulate ds x :
  Generic.accumulate rational (map (fun p => (fst p, generic_acc (snd p))) ds)
    (generic_item x)
  = (ds' <- accumulate ds x ;;
     Ok (map (fun p => (fst p, generic_acc (snd p))) ds')).
Proof.
  unfold Generic.accumulate, accumulate, PyDict.mem, PyDict.subscript.
  change (Generic.item_date (generic_item x)) with (item_date x).
  set (d := item_date x).
  rewrite get_map_values.
  destruct (PyDict.get d ds) as [a|] eqn:G; simpl.
  - rewrite get_map_values, G. simpl.
    change (Generic.update_acc rational (generic_acc a) (generic_item x))
      with (generic_acc (update_acc a x)).
    now rewrite (set_map_values generic_acc).
  - change (Generic.new_acc rational d (generic_item x))
      with (generic_acc (new_acc d x)).
    rewrite (set_map_values generic_acc), get_map_values.
    rewrite !PyDictFacts.get_set_same. simpl.
    change (Generic.update_acc rational (generic_acc (new_acc d x))
              (generic_item x))
      with (generic_acc (update_acc (new_acc d x) x)).
    now rewrite (set_map_values generic_acc).
Qed.

Lemma rational_accumulate_all forecast : forall ds,
  Generic.accumulate_all rational
    (map (fun p => (fst p, generic_acc (snd p))) ds) (map generic_item forecast)
  = (ds' <- accumulate_all ds forecast ;;
     Ok (map (fun p => (fst p, generic_acc (snd p))) ds')).
Proof.
  induction forecast as [|x forecast IH]; intros ds; simpl; [reflexivity|].
  rewrite rational_accumulate.
  destruct (accumulate ds x) as [ds1|e]; simpl; [apply IH | reflexivity].
Qed.

Lemma rational_finalize a :
  Generic.finalize rational (generic_acc a)
  = (s <- finalize a ;; Ok (generic_summary s)).
Proof.
  unfold Generic.finalize, finalize. rewrite rational_py_div. simpl.
  destruct (py_div (acc_avg_humidity a) (inject_Z (acc_count a))); simpl;
    [|reflexivity].
  destruct (max_by_count (condition_counts_of (acc_conditions a)));
    reflexivity.
Qed.

Lemma rational_finalize_all l :
  mapM (Generic.finalize rational) (map generic_acc l)
  = (days <- mapM finalize l ;; Ok (map generic_summary days)).
Proof.
  induction l as [|a l IH]; simpl; [reflexivity|].
  rewrite rational_finalize, IH.
  destruct (finalize a); simpl; [|reflexivity].
  destruct (mapM finalize l); reflexivity.
Qed.

(** The aggregator over the rationals is the generic aggregator at the
    exact arithmetic. *)
Lemma rational_get_forecast_summary forecast :
  Generic._get_forecast_summary rational (map generic_item forecast)
  = (v <- _get_forecast_summary forecast ;; Ok (generic_value v)).
Proof.
  destruct forecast as [|x forecast]; [reflexivity|].
  unfold Generic._get_forecast_summary, _get_forecast_summary.
  change (map generic_item (x :: forecast))
    with (generic_item x :: map generic_item forecast).
  cbv iota beta.
  change (generic_item x :: map generic_item forecast)
    with (map generic_item (x :: forecast)).
  pose proof (rational_accumulate_all (x :: forecast) []) as H.
  cbn [map] in H |- *. rewrite H.
  destruct (accumulate_all [] (x :: forecast)) as [ds|e]; [|reflexivity].
  cbn [rbind]. unfold PyDict.values. rewrite map_map. cbn [snd].
  rewrite <- (map_map snd generic_acc), rational_finalize_all.
  destruct (mapM finalize (map snd ds)); reflexivity.
Qed.

Lemma rational_forecast_rules temp forecast s :
  Generic.forecast_rules rational temp (map generic_item forecast) s
  = forecast_rules temp forecast s.
Proof.
  unfold Generic.forecast_rules, forecast_rules.
  rewrite rational_get_forecast_summary.
  destruct (_get_forecast_summary forecast) as [[|days]|e]; try reflexivity.
  cbn [rbind generic_value].
  destruct days as [|d days]; [reflexivity|].
  cbn [Generic.truthy truthy Generic.first_three first_three rbind map].
  change (generic_summary d :: map generic_summary days)
    with (map generic_summary (d :: days)).
  rewrite rational_py_div, !firstn_map, !length_map, !map_map.
  destruct (py_div _ _); reflexivity.
Qed.

(** The engine over the rationals is the generic engine at the exact
    arithmetic. *)
Lemma rational_generate_agricultural_suggestions current forecast w tr :
  Generic._generate_agricultural_suggestions rational (generic_current current)
    (map generic_item forecast) w tr
  = _generate_agricultural_suggestions current forecast w tr.
Proof.
  unfold Generic._generate_agricultural_suggestions,
    _generate_agricultural_suggestions, io_bind, io_lift, io_ret.
  cbn [Generic.cw_temperature generic_current].
  rewrite rational_forecast_rules. reflexivity.
Qed.

(** C6.  Whatever the arithmetic of the numbers, the engine returns for
    every input, so no division by zero occurs.  On an empty forecast the
    planning group is skipped: none of its texts is in the result.
    Otherwise, with the sum that the code computes of [total_rain] over
    the first three daily summaries (all of them when there are fewer):
    when it is above 10 the heavy-rain planning item and the
    reduced-irrigation tip are in the result and the no-rain tip is not;
    when it is below 1 the no-rain tip is and the other two are not; when
    it is neither above 10 nor below 1 none of the three is. *)
Theorem forecast_rain_planning
  (A : arithmetic) (current : Generic.current_weather A)
  (forecast : list (Generic.forecast_item A)) (w : world) (tr : list event) :
  exists s,
    Generic._generate_agricultural_suggestions A current forecast w tr
    = (Ok s, tr) /\
    (forecast = [] ->
     forall text, In text (rain_texts ++ trend_texts) -> ~ mentions s text) /\
    (forecast <> [] ->
     exists days,
       Generic._get_forecast_summary A forecast
       = Ok (Generic.SummaryList days) /\
       days <> [] /\
       let upcoming_rain := sum A (map Generic.total_rain (firstn 3 days)) in
       (Generic.gt A upcoming_rain (of_int A 10) = true ->
        In heavy_rain_planning (weekly_planning s) /\
        In reduce_irrigation (irrigation s) /\
        ~ mentions s no_rain_irrigation) /\
       (lt A upcoming_rain (of_int A 1) = true ->
        In no_rain_irrigation (irrigation s) /\
        ~ mentions s heavy_rain_planning /\ ~ mentions s reduce_irrigation) /\
       (Generic.gt A upcoming_rain (of_int A 10) = false ->
        lt A upcoming_rain (of_int A 1) = false ->
        forall text, In text rain_texts -> ~ mentions s text)).
Proof.
  set (m := month (local_datetime (utcoffset w) (clock w))).
  pose proof (fun texts H1 H2 H3 H4 =>
                generic_current_rules_grows A texts current H1 H2 H3 H4)
    as Hcur.
  assert (Hcase : forecast = [] \/ forecast <> [])
    by (destruct forecast; [left | right]; congruence).
  destruct Hcase as [->|Hne].
  - eexists. split; [apply generic_engine_empty|].
    split; [|congruence]. intros _ text Htext Hm. fold m in Hm.
    assert (Hg : grows (excluding (rain_texts ++ trend_texts)) no_suggestions
                   (seasonal_rules m (generic_current_rules current))).
    { eapply grows_trans; [|apply seasonal_rules_grows; incl_texts].
      apply Hcur; incl_texts. }
    apply (grows_from_nothing _ _ _ Hg) in Hm.
    revert Hm. apply excluded. now apply text_in_In.
  - eexists. split; [apply (generic_engine_nonempty A current forecast w tr Hne)|].
    split; [congruence|]. intros _.
    destruct (generic_summary_returns A forecast Hne) as (days & Hdays & Hnonempty).
    exists days. split; [assumption|]. split; [assumption|].
    cbv zeta. rewrite (generic_planning_days_of A _ _ Hdays). fold m.
    set (rain := sum A (map Generic.total_rain (firstn 3 days))).
    set (temp := Generic.cw_temperature current).
    set (avg := div_int A _ _).
    split; [|split].
    + intros Hrain. rewrite (generic_rain_rules_heavy A _ _ Hrain).
      assert (Hkeep : grows all_texts
                (add_irrigation reduce_irrigation
                   (add_weekly heavy_rain_planning
                      (generic_current_rules current)))
                (seasonal_rules m
                   (Generic.trend_rules A avg temp
                      (add_irrigation reduce_irrigation
                         (add_weekly heavy_rain_planning
                            (generic_current_rules current)))))).
      { apply generic_after_rain_grows; try incl_texts. apply grows_refl. }
      destruct Hkeep as (_ & K2 & _ & K4 & _).
      split; [apply (ext_keeps _ _ _ _ K2); simpl; apply in_app_iff; simpl; auto|].
      split; [apply (ext_keeps _ _ _ _ K4); simpl; apply in_app_iff; simpl; auto|].
      intros Hm.
      eapply (grows_from_nothing (excluding [no_rain_irrigation])) in Hm.
      * revert Hm. apply excluded. reflexivity.
      * apply generic_after_rain_grows; try incl_texts.
        apply grows_add_irrigation; [|in_texts].
        apply grows_add_weekly; [|in_texts].
        apply Hcur; incl_texts.
    + intros Hrain. rewrite (generic_rain_rules_none A _ _ Hrain).
      assert (Hkeep : grows all_texts
                (add_irrigation no_rain_irrigation
                   (generic_current_rules current))
                (seasonal_rules m
                   (Generic.trend_rules A avg temp
                      (add_irrigation no_rain_irrigation
                         (generic_current_rules current))))).
      { apply generic_after_rain_grows; try incl_texts. apply grows_refl. }
      destruct Hkeep as (_ & _ & _ & K4 & _).
      split; [apply (ext_keeps _ _ _ _ K4); simpl; apply in_app_iff; simpl; auto|].
      assert (Hg : grows (excluding [heavy_rain_planning; reduce_irrigation])
                     no_suggestions
                     (seasonal_rules m
                        (Generic.trend_rules A avg temp
                           (add_irrigation no_rain_irrigation
                              (generic_current_rules current))))).
      { apply generic_after_rain_grows; try incl_texts.
        apply grows_add_irrigation; [|in_texts].
        apply Hcur; incl_texts. }
      split; intros Hm; apply (grows_from_nothing _ _ _ Hg) in Hm;
        revert Hm; apply excluded; reflexivity.
    + intros Hhi Hlo text Htext Hm.
      rewrite (generic_rain_rules_idle A _ _ Hhi Hlo) in Hm.
      eapply (grows_from_nothing (excluding rain_texts)) in Hm.
      * revert Hm. apply excluded. now apply text_in_In.
      * apply generic_after_rain_grows; try incl_texts.
        apply Hcur; incl_texts.
Qed.

(** C8.  For every current sample, forecast, world and trace the engine
    returns an advisory set and leaves the trace as it was; its result is
    the same in any two worlds whose clocks show the same calendar date,
    whatever their providers and traces. *)
Theorem advisory_engine_total_and_deterministic
  (current : current_weather) (forecast : list forecast_item) :
  (forall w tr,
     exists s,
       _generate_agricultural_suggestions current forecast w tr = (Ok s, tr)) /\
  (forall w1 w2 tr1 tr2,
     today w1 = today w2 ->
     fst (_generate_agricultural_suggestions current forecast w1 tr1)
     = fst (_generate_agricultural_suggestions current forecast w2 tr2)).
Proof.
  destruct (engine_run current forecast) as (planned & _ & Hrun).
  split.
  - intros w tr. eexists. apply Hrun.
  - intros w1 w2 tr1 tr2 Hdate. rewrite !Hrun.
    assert (Hm : snd (fst (today w1)) = snd (fst (today w2)))
      by now rewrite Hdate.
    unfold today in Hm. cbn [fst snd] in Hm |- *. now rewrite Hm.
Qed.

(** ** Orchestrator *)

Arguments _format_current_weather : simpl never.
Arguments _format_forecast_data : simpl never.
Arguments _generate_agricultural_suggestions : simpl never.
Arguments _get_forecast_summary : simpl never.

(** C4 (as amended).  Both requests are always issued, the current
    weather first and the forecast second, whether or not the first
    fails.  When either fetch fails the service returns a failure whose
    text is the fixed ["Failed to fetch weather data for suggestions"];
    no advisory set and no aggregated data come with it. *)
Theorem failed_fetch_gives_generic_failure
  (self : WeatherService) (lat lon : Q) (w : world) :
  current_fetch_fails self lat lon w \/ forecast_fetch_fails self lat lon w ->
  exists tr,
    run (get_agricultural_suggestions self lat lon) w
      = (Failure generic_fetch_error, tr) /\
    requests_of tr
      = [ Request (weather_url self) (weather_query self lat lon);
          Request (forecast_url self) (forecast_query self lat lon 5) ].
Proof.
  unfold current_fetch_fails, forecast_fetch_fails, fetch_fails.
  unfold run, get_agricultural_suggestions, get_current_weather,
    get_weather_forecast, requests_get, logger_error, io_bind, io_ret, emit, ask.
  intros Hfail.
  destruct (weather_endpoint w (weather_query self lat lon)) as [c1|d1];
    [|destruct (_format_current_weather (utcoffset w) d1) as [cw|e1] eqn:E1];
    (destruct (forecast_endpoint w (forecast_query self lat lon 5)) as [c2|d2];
     [|destruct (_format_forecast_data (utcoffset w) d2) as [fc|e2] eqn:E2]);
    simpl; try (eexists; split; reflexivity).
  exfalso. destruct Hfail as [[e H]|[e H]]; discriminate.
Qed.

Lemma failed_fetch_gives_generic_failure_witness :
  exists tr,
    run (get_agricultural_suggestions service 19 72) offline
      = (Failure generic_fetch_error, tr) /\
    requests_of tr
      = [ Request (weather_url service) (weather_query service 19 72);
          Request (forecast_url service) (forecast_query service 19 72 5) ].
Proof.
  apply (failed_fetch_gives_generic_failure service 19 72 offline).
  left. exact I.
Defined.

(** C4 (as stated) fails.  When the current-weather request times out,
    the forecast request is issued all the same, and the failure returned
    carries the fixed text, in which the cause does not occur; the cause
    goes to the log only. *)
Lemma first_failure_cause_not_returned :
  run (get_agricultural_suggestions service 19 72) offline
    = (Failure "Failed to fetch weather data for suggestions",
       [ Request (weather_url service) (weather_query service 19 72);
         LogError "Weather API request error: Connection timed out";
         Request (forecast_url service) (forecast_query service 19 72 5);
         LogError "Forecast API request error: Connection timed out" ]) /\
  weather_endpoint offline (weather_query service 19 72)
    = RequestException timed_out /\
  str_in timed_out "Failed to fetch weather data for suggestions" = false.
Proof. repeat split. Qed.

(** * Further properties *)

(** ** Forecast aggregator *)

(** The run of the aggregator on a non-empty forecast, opened up. *)
Lemma summary_run forecast :
  forecast <> [] ->
  exists ds days,
    accumulate_all [] forecast = Ok ds /\
    dict_inv forecast ds /\
    Forall2 (fun p s => finalize (snd p) = Ok s) ds days /\
    _get_forecast_summary forecast = Ok (SummaryList days).
Proof.
  intros Hne.
  destruct (accumulate_all_spec forecast [] [] dict_inv_empty)
    as (ds & Hacc & Hinv).
  simpl in Hinv.
  destruct (forecast_summary_spec forecast Hne) as (days & Hrun & _).
  exists ds, days. repeat (split; [assumption|]). split; [|assumption].
  destruct forecast as [|x forecast]; [congruence|].
  unfold _get_forecast_summary in Hrun. rewrite Hacc in Hrun. simpl in Hrun.
  destruct (mapM finalize (PyDict.values ds)) as [days'|e] eqn:Hm;
    simpl in Hrun; [|discriminate].
  inversion Hrun; subst days'. apply mapM_Ok_inv in Hm.
  unfold PyDict.values in Hm. clear - Hm.
  revert days Hm. induction ds as [|p ds IH]; intros days Hm; simpl in Hm.
  - inversion Hm. constructor.
  - inversion Hm; subst. constructor; auto.
Qed.

Lemma Forall2_In_r {A B} (R : A -> B -> Prop) l l' y :
  Forall2 R l l' -> In y l' -> exists x, In x l /\ R x y.
Proof.
  induction 1 as [|x y' l l' Hxy _ IH]; intros Hy; [destruct Hy|].
  destruct Hy as [->|Hy].
  - exists x. split; [now left | assumption].
  - destruct (IH Hy) as (x' & Hin & Hx'). exists x'.
    split; [now right | assumption].
Qed.

Lemma finalize_fields a s :
  finalize a = Ok s ->
  date s = acc_date a /\ min_temp s = acc_min_temp a /\
  max_temp s = acc_max_temp a /\ total_rain s = acc_total_rain a.
Proof.
  unfold finalize.
  destruct (py_div _ _); simpl; [|discriminate].
  destruct (max_by_count _); simpl; [|discriminate].
  intros H. inversion H. simpl. auto.
Qed.

Lemma accumulate_lookup ds x ds' d :
  accumulate ds x = Ok ds' ->
  PyDict.get d ds' =
  if String.eqb (item_date x) d
  then group_fold d [x] (PyDict.get d ds)
  else PyDict.get d ds.
Proof.
  unfold accumulate, group_fold. simpl.
  set (k := item_date x).
  destruct (PyDict.mem k ds) eqn:E.
  - unfold PyDict.mem in E. unfold PyDict.subscript.
    destruct (PyDict.get k ds) as [a|] eqn:G; [|discriminate]. simpl.
    intros H. inversion H; subst ds'.
    destruct (String.eqb k d) eqn:Ekd.
    + apply String.eqb_eq in Ekd. subst d.
      now rewrite PyDictFacts.get_set_same, G.
    + apply String.eqb_neq in Ekd.
      now rewrite PyDictFacts.get_set_other.
  - unfold PyDict.subscript. rewrite PyDictFacts.get_set_same. simpl.
    intros H. inversion H; subst ds'.
    unfold PyDict.mem in E.
    destruct (PyDict.get k ds) as [a|] eqn:G; [discriminate|].
    destruct (String.eqb k d) eqn:Ekd.
    + apply String.eqb_eq in Ekd. subst d.
      now rewrite PyDictFacts.get_set_same, G.
    + apply String.eqb_neq in Ekd.
      now rewrite !PyDictFacts.get_set_other.
Qed.

Lemma accumulate_all_lookup l : forall ds ds' d,
  accumulate_all ds l = Ok ds' ->
  PyDict.get d ds' = group_fold d (samples_on d l) (PyDict.get d ds).
Proof.
  induction l as [|x l IH]; intros ds ds' d; simpl.
  - intros H. now inversion H.
  - destruct (accumulate ds x) as [ds1|e] eqn:Hx; simpl; [|discriminate].
    intros H. rewrite (IH _ _ d H).
    rewrite (accumulate_lookup _ _ _ d Hx).
    now destruct (String.eqb (item_date x) d).
Qed.

Lemma group_fold_snoc d g x o :
  group_fold d (g ++ [x]) o = group_fold d [x] (group_fold d g o).
Proof. unfold group_fold. now rewrite fold_left_app. Qed.

Lemma py_min_bounds a b :
  py_min a b <= a /\ py_min a b <= b /\ (py_min a b = a \/ py_min a b = b).
Proof.
  unfold py_min. destruct (Qltb b a) eqn:E.
  - apply Qltb_lt in E. repeat split; try lra. now right.
  - apply Qltb_ge in E. repeat split; try lra. now left.
Qed.

Lemma py_max_bounds a b :
  a <= py_max a b /\ b <= py_max a b /\ (py_max a b = a \/ py_max a b = b).
Proof.
  unfold py_max. destruct (Qgtb b a) eqn:E.
  - apply Qgtb_gt in E. repeat split; try lra. now right.
  - apply Qgtb_le in E. repeat split; try lra. now left.
Qed.

(** The temperatures kept by the accumulator of a non-empty group. *)
Lemma group_fold_temperatures d g :
  g <> [] ->
  exists a,
    group_fold d g None = Some a /\
    (forall x, In x g ->
       acc_min_temp a <= fi_temperature x /\ fi_temperature x <= acc_max_temp a) /\
    (exists x, In x g /\ fi_temperature x = acc_min_temp a) /\
    (exists x, In x g /\ fi_temperature x = acc_max_temp a).
Proof.
  induction g as [|x g IH] using rev_ind; [congruence|]. intros _.
  rewrite group_fold_snoc.
  destruct g as [|y g].
  - simpl. eexists. split; [reflexivity|]. simpl.
    destruct (py_min_bounds (fi_temperature x) (fi_temperature x))
      as (L1 & _ & E1).
    destruct (py_max_bounds (fi_temperature x) (fi_temperature x))
      as (L2 & _ & E2).
    split; [|split].
    + intros z [<-|[]]. split; assumption.
    + exists x. split; [now left|]. destruct E1 as [E1|E1]; now rewrite E1.
    + exists x. split; [now left|]. destruct E2 as [E2|E2]; now rewrite E2.
  - destruct IH as (a & Ha & Hb & (lo & Hlo & Elo) & (hi & Hhi & Ehi));
      [discriminate|].
    rewrite Ha. simpl. eexists. split; [reflexivity|]. simpl.
    destruct (py_min_bounds (acc_min_temp a) (fi_temperature x))
      as (L1 & L1' & E1).
    destruct (py_max_bounds (acc_max_temp a) (fi_temperature x))
      as (L2 & L2' & E2).
    split; [|split].
    + intros z Hz. change (In z ((y :: g) ++ [x])) in Hz.
      apply in_app_iff in Hz as [Hz|[<-|[]]].
      * destruct (Hb z Hz). split; lra.
      * split; assumption.
    + destruct E1 as [E1|E1]; rewrite E1.
      * exists lo. split; [|assumption].
        change (In lo ((y :: g) ++ [x])). apply in_app_iff. now left.
      * exists x. split; [|reflexivity].
        change (In x ((y :: g) ++ [x])). apply in_app_iff. right. now left.
    + destruct E2 as [E2|E2]; rewrite E2.
      * exists hi. split; [|assumption].
        change (In hi ((y :: g) ++ [x])). apply in_app_iff. now left.
      * exists x. split; [|reflexivity].
        change (In x ((y :: g) ++ [x])). apply in_app_iff. right. now left.
Qed.

(** Every summary of a non-empty forecast is the finalized accumulator of
    the samples of its date. *)
Lemma summary_days_from_groups forecast :
  forecast <> [] ->
  exists days,
    _get_forecast_summary forecast = Ok (SummaryList days) /\
    days <> [] /\
    forall s, In s days ->
      exists a,
        samples_on (date s) forecast <> [] /\
        group_fold (date s) (samples_on (date s) forecast) None = Some a /\
        finalize a = Ok s.
Proof.
  intros Hne.
  destruct (summary_run forecast Hne)
    as (ds & days & Hacc & (Hnd & Hkeys & Hinv & _) & Hfin & Hrun).
  destruct (forecast_summary_spec forecast Hne) as (days' & Hrun' & Hdays & _).
  rewrite Hrun in Hrun'. inversion Hrun'; subst days'.
  exists days. split; [assumption|]. split; [assumption|].
  intros s Hs.
  destruct (Forall2_In_r _ _ _ _ Hfin Hs) as ([k a] & Hin & Hfa).
  simpl in Hfa. exists a.
  apply PyDictFacts.In_get in Hin; [|assumption].
  destruct (Hinv _ _ Hin) as (Hg & Hd & _).
  destruct (finalize_fields _ _ Hfa) as (Hdate & _).
  rewrite Hdate, Hd.
  split; [assumption|]. split; [|assumption].
  rewrite <- Hin. symmetry.
  apply (accumulate_all_lookup forecast [] ds k Hacc).
Qed.

(** X1.  For a non-empty forecast, [min_temp] and [max_temp] of every
    summary are the least and the greatest temperature among the samples
    of its date, each attained by one of them. *)
Theorem min_max_temp_are_extremes (forecast : list forecast_item) :
  forecast <> [] ->
  exists days,
    _get_forecast_summary forecast = Ok (SummaryList days) /\
    days <> [] /\
    forall s, In s days ->
      (forall x, In x (samples_on (date s) forecast) ->
         min_temp s <= fi_temperature x /\ fi_temperature x <= max_temp s) /\
      (exists x, In x (samples_on (date s) forecast) /\
                 fi_temperature x = min_temp s) /\
      (exists x, In x (samples_on (date s) forecast) /\
                 fi_temperature x = max_temp s).
Proof.
  intros Hne.
  destruct (summary_days_from_groups forecast Hne) as (days & Hrun & Hdays & Hsrc).
  exists days. split; [assumption|]. split; [assumption|].
  intros s Hs. destruct (Hsrc s Hs) as (a & Hg & Ha & Hfa).
  destruct (group_fold_temperatures (date s) _ Hg) as (a' & Ha' & Hb & Hlo & Hhi).
  rewrite Ha in Ha'. inversion Ha'; subst a'.
  destruct (finalize_fields _ _ Hfa) as (_ & Hmin & Hmax & _).
  rewrite Hmin, Hmax. auto.
Qed.

Lemma min_max_temp_are_extremes_witness :
  exists days,
    _get_forecast_summary two_days = Ok (SummaryList days) /\
    days <> [] /\
    forall s, In s days ->
      (forall x, In x (samples_on (date s) two_days) ->
         min_temp s <= fi_temperature x /\ fi_temperature x <= max_temp s) /\
      (exists x, In x (samples_on (date s) two_days) /\
                 fi_temperature x = min_temp s) /\
      (exists x, In x (samples_on (date s) two_days) /\
                 fi_temperature x = max_temp s).
Proof. apply (min_max_temp_are_extremes two_days). discriminate. Defined.

(** X2.  For a non-empty forecast of any number of dates, every summary's
    [main_condition] is a mode of the conditions of its date, and among
    tied conditions the one seen first on that date. *)
Theorem main_condition_mode_per_date (forecast : list forecast_item) :
  forecast <> [] ->
  exists days,
    _get_forecast_summary forecast = Ok (SummaryList days) /\
    days <> [] /\
    forall s, In s days ->
      first_seen_mode (main_condition s)
        (map fi_main (samples_on (date s) forecast)).
Proof.
  intros Hne.
  destruct (forecast_summary_spec forecast Hne)
    as (days & Hrun & Hdays & _ & _ & _ & Hspec).
  exists days. split; [assumption|]. split; [assumption|].
  intros s Hs. destruct (Hspec s Hs) as (Hg & _ & _ & _ & Hmax).
  destruct (max_by_count_mode (map fi_main (samples_on (date s) forecast)))
    as (c & Hc & Hmode).
  { intros H. apply map_eq_nil in H. contradiction. }
  rewrite Hc in Hmax. inversion Hmax. now subst c.
Qed.

Lemma main_condition_mode_per_date_witness :
  exists days,
    _get_forecast_summary two_days = Ok (SummaryList days) /\
    days <> [] /\
    forall s, In s days ->
      first_seen_mode (main_condition s)
        (map fi_main (samples_on (date s) two_days)).
Proof. apply (main_condition_mode_per_date two_days). discriminate. Defined.

Lemma samples_on_idempotent d l : samples_on d (samples_on d l) = samples_on d l.
Proof.
  unfold samples_on. apply forallb_filter_id. apply forallb_forall.
  intros x Hx. now apply filter_In in Hx.
Qed.

(** X3.  The summary of a date depends on the samples of that date only:
    it is the one summary the aggregator returns on those samples
    alone. *)
Theorem summary_of_a_date_is_local (forecast : list forecast_item) :
  forecast <> [] ->
  exists days,
    _get_forecast_summary forecast = Ok (SummaryList days) /\
    days <> [] /\
    forall s, In s days ->
      _get_forecast_summary (samples_on (date s) forecast)
      = Ok (SummaryList [s]).
Proof.
  intros Hne.
  destruct (summary_days_from_groups forecast Hne) as (days & Hrun & Hdays & Hsrc).
  exists days. split; [assumption|]. split; [assumption|].
  intros s Hs. destruct (Hsrc s Hs) as (a & Hg & Ha & Hfa).
  set (g := samples_on (date s) forecast) in *.
  assert (Hsame : same_date g).
  { intros x y Hx Hy. apply samples_on_date in Hx, Hy. congruence. }
  destruct (forecast_summary_spec g Hg)
    as (days' & Hrun' & Hdays' & Hnd & Hdates & _).
  destruct (same_date_single_day g days' Hsame Hdays' Hnd) as [s' ->].
  { intros d. apply Hdates. }
  destruct (summary_days_from_groups g Hg) as (days'' & Hrun'' & _ & Hsrc').
  rewrite Hrun' in Hrun''. inversion Hrun''; subst days''.
  destruct (Hsrc' s' (or_introl eq_refl)) as (a' & _ & Ha' & Hfa').
  assert (Hd : date s' = date s).
  { assert (H : In (date s') (map item_date g)).
    { apply Hdates. simpl. auto. }
    apply in_map_iff in H as (x & <- & Hx). now apply samples_on_date in Hx. }
  rewrite Hd in Ha'. unfold g in Ha'. rewrite samples_on_idempotent in Ha'.
  fold g in Ha'. rewrite Ha in Ha'. inversion Ha'; subst a'.
  rewrite Hfa in Hfa'. inversion Hfa'. subst s'. assumption.
Qed.

Lemma summary_of_a_date_is_local_witness :
  exists days,
    _get_forecast_summary two_days = Ok (SummaryList days) /\
    days <> [] /\
    forall s, In s days ->
      _get_forecast_summary (samples_on (date s) two_days)
      = Ok (SummaryList [s]).
Proof. apply (summary_of_a_date_is_local two_days). discriminate. Defined.

Lemma text_in_mem {V} k (d : PyDict.t V) :
  text_in k (PyDict.keys d) = PyDict.mem k d.
Proof.
  destruct (PyDict.mem k d) eqn:E.
  - apply text_in_In. now apply PyDictFacts.mem_keys.
  - destruct (text_in k (PyDict.keys d)) eqn:T; [|reflexivity].
    apply text_in_In, PyDictFacts.mem_keys in T. congruence.
Qed.

Lemma first_occurrences_ext l : forall s1 s2,
  (forall y, text_in y s1 = text_in y s2) ->
  first_occurrences s1 l = first_occurrences s2 l.
Proof.
  induction l as [|x l IH]; intros s1 s2 H; simpl; [reflexivity|].
  rewrite <- (H x). destruct (text_in x s1).
  - now apply IH.
  - f_equal. apply IH. intros y. simpl. now rewrite H.
Qed.

Lemma first_occurrences_length l : forall seen,
  (List.length (first_occurrences seen l) <= List.length l)%nat.
Proof.
  induction l as [|x l IH]; intros seen; simpl; [lia|].
  destruct (text_in x seen); simpl.
  - specialize (IH seen). lia.
  - specialize (IH (x :: seen)). lia.
Qed.

Lemma accumulate_keys ds x ds' :
  accumulate ds x = Ok ds' ->
  PyDict.keys ds' =
  if PyDict.mem (item_date x) ds then PyDict.keys ds
  else (PyDict.keys ds ++ [item_date x])%list.
Proof.
  unfold accumulate. set (k := item_date x).
  destruct (PyDict.mem k ds) eqn:E; unfold PyDict.subscript.
  - destruct (PyDict.get k ds) eqn:G; simpl; [|discriminate].
    intros H. inversion H. now rewrite PyDictFacts.keys_set, E.
  - rewrite PyDictFacts.get_set_same. simpl. intros H. inversion H.
    rewrite PyDictFacts.keys_set.
    assert (Hm : PyDict.mem k (PyDict.set k (new_acc k x) ds) = true).
    { unfold PyDict.mem. now rewrite PyDictFacts.get_set_same. }
    now rewrite Hm, PyDictFacts.keys_set, E.
Qed.

Lemma accumulate_all_keys l : forall ds ds',
  accumulate_all ds l = Ok ds' ->
  PyDict.keys ds' =
  (PyDict.keys ds ++ first_occurrences (PyDict.keys ds) (map item_date l))%list.
Proof.
  induction l as [|x l IH]; intros ds ds'; simpl.
  - intros H. inversion H. now rewrite app_nil_r.
  - destruct (accumulate ds x) as [ds1|e] eqn:Hx; simpl; [|discriminate].
    intros H. rewrite (IH _ _ H), (accumulate_keys _ _ _ Hx), text_in_mem.
    destruct (PyDict.mem (item_date x) ds); [reflexivity|].
    rewrite <- app_assoc. simpl. do 2 f_equal.
    apply first_occurrences_ext. intros y. unfold text_in.
    rewrite existsb_app. simpl. rewrite orb_false_r. apply orb_comm.
Qed.

Lemma summary_dates_are_keys ds days :
  (forall k a, In (k, a) ds -> acc_date a = k) ->
  Forall2 (fun p s => finalize (snd p) = Ok s) ds days ->
  map date days = PyDict.keys ds.
Proof.
  intros Hk Hfin. induction Hfin as [|[k a] s ds days Hfa _ IH]; [reflexivity|].
  simpl in *. destruct (finalize_fields _ _ Hfa) as (Hd & _).
  rewrite Hd, (Hk k a) by now left. f_equal. apply IH.
  intros k' a' H. apply Hk. now right.
Qed.

(** X4.  For a non-empty forecast in any order, the summaries come in the
    order in which their dates first occur among the samples, and there
    are at most as many summaries as samples. *)
Theorem summaries_in_order_of_first_occurrence (forecast : list forecast_item) :
  forecast <> [] ->
  exists days,
    _get_forecast_summary forecast = Ok (SummaryList days) /\
    map date days = first_occurrences [] (map item_date forecast) /\
    (1 <= List.length days <= List.length forecast)%nat.
Proof.
  intros Hne.
  destruct (summary_run forecast Hne)
    as (ds & days & Hacc & (Hnd & _ & Hinv & _) & Hfin & Hrun).
  destruct (forecast_summary_spec forecast Hne) as (days' & Hrun' & Hdays & _).
  rewrite Hrun in Hrun'. inversion Hrun'; subst days'.
  exists days. split; [assumption|].
  assert (Hdates : map date days
                   = first_occurrences [] (map item_date forecast)).
  { rewrite (summary_dates_are_keys ds days); [|intros k a Hin|assumption].
    - apply (accumulate_all_keys forecast [] ds Hacc).
    - apply PyDictFacts.In_get in Hin; [|assumption].
      now destruct (Hinv _ _ Hin) as (_ & Hd & _). }
  split; [assumption|]. split.
  - destruct days; [congruence | simpl; lia].
  - rewrite <- (length_map date), Hdates, <- (length_map item_date forecast).
    apply first_occurrences_length.
Qed.

Lemma summaries_in_order_of_first_occurrence_witness :
  exists days,
    _get_forecast_summary two_days = Ok (SummaryList days) /\
    map date days = first_occurrences [] (map item_date two_days) /\
    (1 <= List.length days <= List.length two_days)%nat.
Proof.
  apply (summaries_in_order_of_first_occurrence two_days). discriminate.
Defined.

(** ** Advisory rule engine: the rule groups on their own *)

Lemma join_entries c a b :
  entries c (join a b) = (entries c a ++ entries c b)%list.
Proof. now destruct c. Qed.

Lemma mentions_entries s x : mentions s x <-> exists c, In x (entries c s).
Proof.
  unfold mentions. split.
  - intros [H|[H|[H|[H|H]]]];
      [ exists Immediate | exists Weekly | exists CropCare
      | exists Irrigation | exists PestDisease ]; exact H.
  - intros [[] H]; simpl in H; tauto.
Qed.

Lemma mentions_join a b x : mentions (join a b) x <-> mentions a x \/ mentions b x.
Proof.
  rewrite !mentions_entries. split.
  - intros [c H]. rewrite join_entries in H.
    apply in_app_iff in H as [H|H]; [left | right]; now exists c.
  - intros [[c H]|[c H]]; exists c; rewrite join_entries; apply in_app_iff; auto.
Qed.

Lemma join_nothing_l s : join no_suggestions s = s.
Proof. now destruct s. Qed.

Lemma join_nothing_r s : join s no_suggestions = s.
Proof. destruct s. unfold join. simpl. now rewrite !app_nil_r. Qed.

Lemma join_assoc a b c : join (join a b) c = join a (join b c).
Proof. unfold join. simpl. now rewrite !app_assoc. Qed.

(** Closes [rule x s = join s (rule x no_suggestions)] once the branch of
    the rule is fixed. *)
Ltac appends :=
  match goal with
  | |- _ = join ?s _ =>
      destruct s; unfold join, add_immediate, add_weekly, add_crop_care,
        add_irrigation, add_pest; simpl; rewrite ?app_nil_r; reflexivity
  end.

Lemma temperature_rules_appends temp s :
  temperature_rules temp s = join s (temperature_rules temp no_suggestions).
Proof.
  unfold temperature_rules.
  destruct (Qltb temp 5); [|destruct (Qgtb temp 35)]; appends.
Qed.

Lemma humidity_rules_appends humidity s :
  humidity_rules humidity s = join s (humidity_rules humidity no_suggestions).
Proof.
  unfold humidity_rules.
  destruct (Qgtb humidity 80); [|destruct (Qltb humidity 30)]; appends.
Qed.

Lemma condition_rules_appends description s :
  condition_rules description s
  = join s (condition_rules description no_suggestions).
Proof.
  unfold condition_rules.
  destruct (str_in "rain" description);
    [|destruct (str_in "clear" description || str_in "sunny" description)];
    appends.
Qed.

Lemma wind_rules_appends wind_speed s :
  wind_rules wind_speed s = join s (wind_rules wind_speed no_suggestions).
Proof. unfold wind_rules. destruct (Qgtb wind_speed 10); appends. Qed.

Lemma rain_rules_appends upcoming_rain s :
  rain_rules upcoming_rain s = join s (rain_rules upcoming_rain no_suggestions).
Proof.
  unfold rain_rules.
  destruct (Qgtb upcoming_rain 10); [|destruct (Qltb upcoming_rain 1)]; appends.
Qed.

Lemma trend_rules_appends avg_temp temp s :
  trend_rules avg_temp temp s = join s (trend_rules avg_temp temp no_suggestions).
Proof.
  unfold trend_rules.
  destruct (Qgtb avg_temp (temp + 5)); [|destruct (Qltb avg_temp (temp - 5))];
    appends.
Qed.

Lemma seasonal_rules_appends current_month s :
  seasonal_rules current_month s
  = join s (seasonal_rules current_month no_suggestions).
Proof.
  unfold seasonal_rules.
  repeat match goal with
         | |- context [if ?b then _ else _] => destruct b
         end; appends.
Qed.

Lemma forecast_rules_appends temp forecast s :
  forecast_rules temp forecast s
  = Ok (join (join s (rain_part forecast)) (trend_part temp forecast)).
Proof.
  unfold rain_part, trend_part, planning_days.
  destruct forecast as [|x forecast].
  - simpl. now rewrite !join_nothing_r.
  - destruct (forecast_summary_spec (x :: forecast)) as (days & Hrun & Hdays & _);
      [discriminate|].
    unfold forecast_rules. rewrite Hrun.
    destruct days as [|d days]; [congruence|].
    cbn [truthy first_three rbind].
    rewrite py_div_Ok by (apply inject_length_nonzero; discriminate).
    cbn [rbind firstn].
    now rewrite trend_rules_appends, rain_rules_appends.
Qed.

(** The engine's result, from the parts of the rule groups. *)
Lemma engine_from_parts
  (current : current_weather) (forecast : list forecast_item)
  (w : world) (tr : list event) :
  _generate_agricultural_suggestions current forecast w tr
  = (Ok (join_all (rule_parts current forecast (month_now w))), tr).
Proof.
  remember (join_all (rule_parts current forecast (month_now w))) as parts
    eqn:Hparts.
  unfold _generate_agricultural_suggestions, io_lift, datetime_now, ask.
  unfold io_bind, io_ret.
  rewrite forecast_rules_appends. cbv beta iota zeta.
  rewrite seasonal_rules_appends, wind_rules_appends, condition_rules_appends,
    humidity_rules_appends.
  subst parts. unfold join_all, rule_parts, month_now. cbn [fold_left].
  now rewrite join_nothing_l.
Qed.

(** X6.  The rule groups do not interfere: the advisory set is the
    category-wise concatenation, in the order temperature, humidity,
    condition, wind, rain, trend, season, of what each group yields on
    its own. *)
Theorem rule_groups_are_independent
  (current : current_weather) (forecast : list forecast_item)
  (w : world) (tr : list event) :
  _generate_agricultural_suggestions current forecast w tr
  = (Ok (join_all (rule_parts current forecast (month_now w))), tr).
Proof. apply engine_from_parts. Qed.

Lemma mentions_nothing x : ~ mentions no_suggestions x.
Proof. unfold mentions. simpl. tauto. Qed.

Lemma mentions_fold_join parts : forall s0 x,
  mentions (fold_left join parts s0) x <->
  mentions s0 x \/ exists p, In p parts /\ mentions p x.
Proof.
  induction parts as [|p parts IH]; intros s0 x; simpl.
  - split; [auto | intros [H|(p & [] & _)]; assumption].
  - rewrite IH, mentions_join. split.
    + intros [[H|H]|(q & Hq & H)]; eauto.
    + intros [H|(q & [<-|Hq] & H)]; eauto.
Qed.

Lemma mentions_join_all parts x :
  mentions (join_all parts) x <-> exists p, In p parts /\ mentions p x.
Proof.
  unfold join_all. rewrite mentions_fold_join. split.
  - intros [H|H]; [now apply mentions_nothing in H | assumption].
  - auto.
Qed.

Lemma entries_fold_join c x parts : forall s0,
  In x (entries c s0) \/ (exists p, In p parts /\ In x (entries c p)) ->
  In x (entries c (fold_left join parts s0)).
Proof.
  induction parts as [|p parts IH]; intros s0; simpl.
  - intros [H|(p & [] & _)]. assumption.
  - intros H. apply IH. rewrite join_entries, in_app_iff.
    destruct H as [H|(q & [<-|Hq] & H)]; eauto.
Qed.

Lemma entries_join_all c x parts p :
  In p parts -> In x (entries c p) -> In x (entries c (join_all parts)).
Proof. intros Hp Hx. apply entries_fold_join. right. eauto. Qed.

Lemma mentions_all_entries s x : mentions s x <-> In x (all_entries s).
Proof. unfold mentions, all_entries. rewrite !in_app_iff. tauto. Qed.

Lemma rain_part_grows texts forecast :
  incl rain_texts texts -> grows texts no_suggestions (rain_part forecast).
Proof.
  intros H. unfold rain_part.
  destruct (planning_days forecast); [apply grows_refl|].
  now apply rain_rules_grows.
Qed.

Lemma trend_part_grows texts temp forecast :
  incl trend_texts texts -> grows texts no_suggestions (trend_part temp forecast).
Proof.
  intros H. unfold trend_part.
  destruct (planning_days forecast); [apply grows_refl|].
  now apply trend_rules_grows.
Qed.

(** A text of the advisory set comes from a group that has it among its
    texts. *)
Lemma engine_mentions current forecast m x :
  mentions (join_all (rule_parts current forecast m)) x ->
  (In x temperature_texts /\
   mentions (temperature_rules (cw_temperature current) no_suggestions) x) \/
  (In x humidity_texts /\
   mentions (humidity_rules (cw_humidity current) no_suggestions) x) \/
  (In x condition_texts /\
   mentions (condition_rules (lower (cw_description current)) no_suggestions) x) \/
  (In x wind_texts /\
   mentions (wind_rules (cw_wind_speed current) no_suggestions) x) \/
  (In x rain_texts /\ mentions (rain_part forecast) x) \/
  (In x trend_texts /\ mentions (trend_part (cw_temperature current) forecast) x) \/
  (In x seasonal_texts /\ mentions (seasonal_rules m no_suggestions) x).
Proof.
  intros H. apply mentions_join_all in H as (p & Hp & H).
  unfold rule_parts in Hp. simpl in Hp.
  destruct Hp as [<-|[<-|[<-|[<-|[<-|[<-|[<-|[]]]]]]]].
  - left. split; [|assumption].
    eapply grows_from_nothing; [|eassumption].
    apply temperature_rules_grows, incl_refl.
  - right; left. split; [|assumption].
    eapply grows_from_nothing; [|eassumption].
    apply humidity_rules_grows, incl_refl.
  - do 2 right; left. split; [|assumption].
    eapply grows_from_nothing; [|eassumption].
    apply condition_rules_grows, incl_refl.
  - do 3 right; left. split; [|assumption].
    eapply grows_from_nothing; [|eassumption].
    apply wind_rules_grows, incl_refl.
  - do 4 right; left. split; [|assumption].
    eapply grows_from_nothing; [|eassumption].
    apply rain_part_grows, incl_refl.
  - do 5 right; left. split; [|assumption].
    eapply grows_from_nothing; [|eassumption].
    apply trend_part_grows, incl_refl.
  - do 6 right. split; [|assumption].
    eapply grows_from_nothing; [|eassumption].
    apply seasonal_rules_grows, incl_refl.
Qed.

(** [T : In x texts] for a text that is not in [texts]. *)
Ltac wrong_group T := apply text_in_In in T; vm_compute in T; discriminate T.

(** Splits on the group a mentioned text comes from, keeping the one
    group that has it. *)
Ltac own_group H :=
  apply engine_mentions in H;
  destruct H as [[T H]|[[T H]|[[T H]|[[T H]|[[T H]|[[T H]|[T H]]]]]]];
  try (wrong_group T); clear T.

(** [H : mentions s x] for a concrete [s] without [x]. *)
Ltac absent H :=
  apply mentions_all_entries, text_in_In in H; vm_compute in H; discriminate H.

(** [In x (entries c (join_all (rule_parts ...)))] from the part [p]. *)
Ltac from_part p :=
  apply (entries_join_all _ _ _ p); [unfold rule_parts; simpl; auto 10|].

(** X7.  The frost action and the frost crop-care tip are in the advisory
    set exactly when the temperature is below 5, the heat action and the
    heat irrigation tip exactly when it is above 35, for every current
    sample, forecast and month. *)
Theorem temperature_texts_exactly_when
  (current : current_weather) (forecast : list forecast_item)
  (w : world) (tr : list event) :
  exists s,
    _generate_agricultural_suggestions current forecast w tr = (Ok s, tr) /\
    appears_exactly_when s (cw_temperature current < 5) Immediate frost_action /\
    appears_exactly_when s (cw_temperature current < 5) CropCare frost_care /\
    appears_exactly_when s (35 < cw_temperature current) Immediate heat_action /\
    appears_exactly_when s (35 < cw_temperature current) Irrigation
      heat_irrigation.
Proof.
  eexists. split; [apply engine_from_parts|].
  unfold appears_exactly_when.
  assert (Hfrost : cw_temperature current < 5 ->
            temperature_rules (cw_temperature current) no_suggestions
            = add_crop_care frost_care (add_immediate frost_action no_suggestions))
    by apply temperature_rules_frost.
  assert (Hheat : 35 < cw_temperature current ->
            temperature_rules (cw_temperature current) no_suggestions
            = add_irrigation heat_irrigation
                (add_immediate heat_action no_suggestions)).
  { intros H. unfold temperature_rules.
    assert (H5 : Qltb (cw_temperature current) 5 = false)
      by (apply Qltb_ge; lra).
    apply Qgtb_gt in H. now rewrite H5, H. }
  assert (Hback : forall x,
            mentions (temperature_rules (cw_temperature current) no_suggestions) x ->
            (cw_temperature current < 5 /\ In x [frost_action; frost_care]) \/
            (35 < cw_temperature current /\ In x [heat_action; heat_irrigation])).
  { intros x H. unfold temperature_rules in H.
    destruct (Qltb (cw_temperature current) 5) eqn:E1;
      [|destruct (Qgtb (cw_temperature current) 35) eqn:E2].
    - left. split; [now apply Qltb_lt|].
      unfold mentions in H. simpl in H. simpl. tauto.
    - right. split; [now apply Qgtb_gt|].
      unfold mentions in H. simpl in H. simpl. tauto.
    - now apply mentions_nothing in H. }
  repeat split.
  - intros H. from_part (temperature_rules (cw_temperature current) no_suggestions). rewrite (Hfrost H). simpl. auto.
  - intros H. own_group H. destruct (Hback _ H) as [[P _]|[_ T]];
      [assumption | wrong_group T].
  - intros H. from_part (temperature_rules (cw_temperature current) no_suggestions). rewrite (Hfrost H). simpl. auto.
  - intros H. own_group H. destruct (Hback _ H) as [[P _]|[_ T]];
      [assumption | wrong_group T].
  - intros H. from_part (temperature_rules (cw_temperature current) no_suggestions). rewrite (Hheat H). simpl. auto.
  - intros H. own_group H. destruct (Hback _ H) as [[_ T]|[P _]];
      [wrong_group T | assumption].
  - intros H. from_part (temperature_rules (cw_temperature current) no_suggestions). rewrite (Hheat H). simpl. auto.
  - intros H. own_group H. destruct (Hback _ H) as [[_ T]|[P _]];
      [wrong_group T | assumption].
Qed.

(** X8.  The fungal-risk alert and the airflow tip are in the advisory
    set exactly when the humidity is above 80, the low-humidity
    irrigation tip exactly when it is below 30. *)
Theorem humidity_texts_exactly_when
  (current : current_weather) (forecast : list forecast_item)
  (w : world) (tr : list event) :
  exists s,
    _generate_agricultural_suggestions current forecast w tr = (Ok s, tr) /\
    appears_exactly_when s (80 < cw_humidity current) PestDisease fungal_alert /\
    appears_exactly_when s (80 < cw_humidity current) CropCare airflow_care /\
    appears_exactly_when s (cw_humidity current < 30) Irrigation
      dry_air_irrigation.
Proof.
  eexists. split; [apply engine_from_parts|].
  unfold appears_exactly_when.
  set (part := humidity_rules (cw_humidity current) no_suggestions).
  assert (Hhigh : 80 < cw_humidity current ->
            part = add_crop_care airflow_care (add_pest fungal_alert no_suggestions)).
  { intros H. unfold part, humidity_rules. apply Qgtb_gt in H. now rewrite H. }
  assert (Hlow : cw_humidity current < 30 ->
            part = add_irrigation dry_air_irrigation no_suggestions).
  { intros H. unfold part, humidity_rules.
    assert (H80 : Qgtb (cw_humidity current) 80 = false)
      by (apply Qgtb_le; lra).
    apply Qltb_lt in H. now rewrite H80, H. }
  assert (Hback : forall x, mentions part x ->
            (80 < cw_humidity current /\ In x [fungal_alert; airflow_care]) \/
            (cw_humidity current < 30 /\ x = dry_air_irrigation)).
  { intros x H. unfold part, humidity_rules in H.
    destruct (Qgtb (cw_humidity current) 80) eqn:E1;
      [|destruct (Qltb (cw_humidity current) 30) eqn:E2].
    - left. split; [now apply Qgtb_gt|].
      unfold mentions in H. simpl in H. simpl. tauto.
    - right. split; [now apply Qltb_lt|].
      unfold mentions in H. simpl in H. intuition auto.
    - now apply mentions_nothing in H. }
  repeat split.
  - intros H. from_part part. rewrite (Hhigh H). simpl. auto.
  - intros H. own_group H. destruct (Hback _ H) as [[P _]|[_ T]];
      [assumption | discriminate T].
  - intros H. from_part part. rewrite (Hhigh H). simpl. auto.
  - intros H. own_group H. destruct (Hback _ H) as [[P _]|[_ T]];
      [assumption | discriminate T].
  - intros H. from_part part. rewrite (Hlow H). simpl. auto.
  - intros H. own_group H. destruct (Hback _ H) as [[_ T]|[P _]];
      [wrong_group T | assumption].
Qed.

(** X9.  With [d] the lower-cased description of the current sample: the
    postpone-irrigation action and the waterlogging tip are in the
    advisory set exactly when [d] contains "rain"; the good-watering tip
    and the field-work item exactly when [d] does not contain "rain" and
    contains "clear" or "sunny". *)
Theorem condition_texts_exactly_when
  (current : current_weather) (forecast : list forecast_item)
  (w : world) (tr : list event) :
  let d := lower (cw_description current) in
  let rainy := str_in "rain" d = true in
  let fair := str_in "rain" d = false /\
              (str_in "clear" d = true \/ str_in "sunny" d = true) in
  exists s,
    _generate_agricultural_suggestions current forecast w tr = (Ok s, tr) /\
    appears_exactly_when s rainy Immediate rain_action /\
    appears_exactly_when s rainy CropCare waterlogging_care /\
    appears_exactly_when s fair Irrigation clear_irrigation /\
    appears_exactly_when s fair Weekly clear_planning.
Proof.
  cbv zeta. set (d := lower (cw_description current)).
  eexists. split; [apply engine_from_parts|].
  unfold appears_exactly_when. fold d.
  set (part := condition_rules d no_suggestions).
  assert (Hrain : str_in "rain" d = true ->
            part = add_crop_care waterlogging_care
                     (add_immediate rain_action no_suggestions)).
  { intros H. unfold part, condition_rules. now rewrite H. }
  assert (Hfair : str_in "rain" d = false /\
                  (str_in "clear" d = true \/ str_in "sunny" d = true) ->
            part = add_weekly clear_planning
                     (add_irrigation clear_irrigation no_suggestions)).
  { intros [H1 H2]. unfold part, condition_rules. rewrite H1.
    assert (H : str_in "clear" d || str_in "sunny" d = true)
      by (apply orb_true_iff; exact H2).
    now rewrite H. }
  assert (Hback : forall x, mentions part x ->
            (str_in "rain" d = true /\ In x [rain_action; waterlogging_care]) \/
            ((str_in "rain" d = false /\
              (str_in "clear" d = true \/ str_in "sunny" d = true)) /\
             In x [clear_irrigation; clear_planning])).
  { intros x H. unfold part, condition_rules in H.
    destruct (str_in "rain" d) eqn:E1;
      [|destruct (str_in "clear" d || str_in "sunny" d) eqn:E2].
    - left. split; [reflexivity|].
      unfold mentions in H. simpl in H. simpl. tauto.
    - right. split; [split; [reflexivity | now apply orb_true_iff]|].
      unfold mentions in H. simpl in H. simpl. tauto.
    - now apply mentions_nothing in H. }
  split; [|split; [|split]]; split.
  - intros H. from_part part. rewrite (Hrain H). simpl. auto.
  - intros H. own_group H. destruct (Hback _ H) as [[P _]|[_ T]];
      [exact P | wrong_group T].
  - intros H. from_part part. rewrite (Hrain H). simpl. auto.
  - intros H. own_group H. destruct (Hback _ H) as [[P _]|[_ T]];
      [exact P | wrong_group T].
  - intros H. from_part part. rewrite (Hfair H). simpl. auto.
  - intros H. own_group H. destruct (Hback _ H) as [[_ T]|[P _]];
      [wrong_group T | exact P].
  - intros H. from_part part. rewrite (Hfair H). simpl. auto.
  - intros H. own_group H. destruct (Hback _ H) as [[_ T]|[P _]];
      [wrong_group T | exact P].
Qed.

(** X10.  The secure-plants action and the avoid-spraying tip are in the
    advisory set exactly when the wind speed is above 10. *)
Theorem wind_texts_exactly_when
  (current : current_weather) (forecast : list forecast_item)
  (w : world) (tr : list event) :
  exists s,
    _generate_agricultural_suggestions current forecast w tr = (Ok s, tr) /\
    appears_exactly_when s (10 < cw_wind_speed current) Immediate wind_action /\
    appears_exactly_when s (10 < cw_wind_speed current) CropCare wind_care.
Proof.
  eexists. split; [apply engine_from_parts|].
  unfold appears_exactly_when.
  set (part := wind_rules (cw_wind_speed current) no_suggestions).
  assert (Hwind : 10 < cw_wind_speed current ->
            part = add_crop_care wind_care
                     (add_immediate wind_action no_suggestions)).
  { intros H. unfold part, wind_rules. apply Qgtb_gt in H. now rewrite H. }
  assert (Hback : forall x, mentions part x -> 10 < cw_wind_speed current).
  { intros x H. unfold part, wind_rules in H.
    destruct (Qgtb (cw_wind_speed current) 10) eqn:E.
    - now apply Qgtb_gt.
    - now apply mentions_nothing in H. }
  repeat split.
  - intros H. from_part part. rewrite (Hwind H). simpl. auto.
  - intros H. own_group H. exact (Hback _ H).
  - intros H. from_part part. rewrite (Hwind H). simpl. auto.
  - intros H. own_group H. exact (Hback _ H).
Qed.

(** X11.  Whatever the arithmetic of the numbers, with the quotient that
    the code computes of the sum of [max_temp] over the first three daily
    summaries by their number: the rising-temperature item is in the
    advisory set exactly when the forecast is not empty and that quotient
    compares above the sum that the code computes of the current
    temperature and 5; the dropping-temperature item exactly when the
    forecast is not empty, the quotient does not compare above that sum
    and compares below the current temperature minus 5. *)
Theorem trend_texts_exactly_when
  (A : arithmetic) (current : Generic.current_weather A)
  (forecast : list (Generic.forecast_item A)) (w : world) (tr : list event) :
  let days := generic_planning_days forecast in
  let avg_temp :=
    div_int A (sum A (map Generic.max_temp days))
      (Z.of_nat (List.length days)) in
  let temp := Generic.cw_temperature current in
  exists s,
    Generic._generate_agricultural_suggestions A current forecast w tr
    = (Ok s, tr) /\
    appears_exactly_when s
      (forecast <> [] /\
       Generic.gt A avg_temp (add A temp (of_int A 5)) = true)
      Weekly rising_planning /\
    appears_exactly_when s
      (forecast <> [] /\
       Generic.gt A avg_temp (add A temp (of_int A 5)) = false /\
       lt A avg_temp (sub A temp (of_int A 5)) = true)
      Weekly dropping_planning.
Proof.
  intros days avg_temp temp.
  set (m := month (local_datetime (utcoffset w) (clock w))).
  unfold appears_exactly_when. cbn [entries].
  assert (Hcase : forecast = [] \/ forecast <> [])
    by (destruct forecast; [left | right]; congruence).
  destruct Hcase as [Hnil|Hne].
  - eexists. split; [rewrite Hnil; apply generic_engine_empty|]. fold m.
    assert (Hg : grows (excluding trend_texts) no_suggestions
                   (seasonal_rules m (generic_current_rules current))).
    { eapply grows_trans; [|apply seasonal_rules_grows; incl_texts].
      apply generic_current_rules_grows; incl_texts. }
    split; split; try (intros [H _]; congruence);
      intros Hm; apply (grows_from_nothing _ _ _ Hg) in Hm;
      exfalso; revert Hm; apply excluded; reflexivity.
  - eexists.
    split; [apply (generic_engine_nonempty A current forecast w tr Hne)|].
    fold m days temp avg_temp.
    set (rain := sum A (map Generic.total_rain days)).
    set (before := Generic.rain_rules A rain (generic_current_rules current)).
    pose proof (fun texts H1 H2 H3 H4 H5 =>
                  generic_before_trend_grows A texts current rain
                    H1 H2 H3 H4 H5) as Hbefore.
    fold before in Hbefore.
    destruct (Generic.gt A avg_temp (add A temp (of_int A 5))) eqn:Hup;
      [|destruct (lt A avg_temp (sub A temp (of_int A 5))) eqn:Hdown].
    + rewrite (generic_trend_rules_rising A _ _ _ Hup).
      split; split.
      * intros _.
        assert (Hkeep : grows all_texts (add_weekly rising_planning before)
                  (seasonal_rules m (add_weekly rising_planning before))).
        { apply seasonal_rules_grows. incl_texts. }
        destruct Hkeep as (_ & K2 & _).
        apply (ext_keeps _ _ _ _ K2). simpl. apply in_app_iff. simpl. auto.
      * intros _. split; [assumption | reflexivity].
      * intros (_ & H & _). discriminate.
      * intros Hm. exfalso.
        eapply (grows_from_nothing (excluding [dropping_planning])) in Hm.
        -- revert Hm. apply excluded. reflexivity.
        -- eapply grows_trans; [|apply seasonal_rules_grows; incl_texts].
           apply grows_add_weekly; [|in_texts].
           apply Hbefore; incl_texts.
    + rewrite (generic_trend_rules_dropping A _ _ _ Hup Hdown).
      split; split.
      * intros [_ H]. discriminate.
      * intros Hm. exfalso.
        eapply (grows_from_nothing (excluding [rising_planning])) in Hm.
        -- revert Hm. apply excluded. reflexivity.
        -- eapply grows_trans; [|apply seasonal_rules_grows; incl_texts].
           apply grows_add_weekly; [|in_texts].
           apply Hbefore; incl_texts.
      * intros _.
        assert (Hkeep : grows all_texts (add_weekly dropping_planning before)
                  (seasonal_rules m (add_weekly dropping_planning before))).
        { apply seasonal_rules_grows. incl_texts. }
        destruct Hkeep as (_ & K2 & _).
        apply (ext_keeps _ _ _ _ K2). simpl. apply in_app_iff. simpl. auto.
      * intros _. split; [assumption|]. split; reflexivity.
    + rewrite (generic_trend_rules_idle A _ _ _ Hup Hdown).
      assert (Hg : grows (excluding trend_texts) no_suggestions
                     (seasonal_rules m before)).
      { eapply grows_trans; [|apply seasonal_rules_grows; incl_texts].
        apply Hbefore; incl_texts. }
      split; split; try (intros [_ H]; discriminate);
        try (intros (_ & _ & H); discriminate);
        intros Hm; apply (grows_from_nothing _ _ _ Hg) in Hm;
        exfalso; revert Hm; apply excluded; reflexivity.
Qed.

(** ** The month of the clock *)

Lemma day_of_year_bounds doe :
  (0 <= doe < 146097)%Z ->
  let yoe := ((doe - doe / 1460 + doe / 36524 - doe / 146096) / 365)%Z in
  (0 <= doe - (365 * yoe + yoe / 4 - yoe / 100) <= 366)%Z.
Proof.
  intros H. cbv zeta. Z.to_euclidean_division_equations. lia.
Qed.

Lemma month_of_doe_in_range doe :
  (0 <= doe < 146097)%Z -> (1 <= fst (month_day_of_doe doe) <= 12)%Z.
Proof.
  intros H. pose proof (day_of_year_bounds doe H) as Hdoy.
  unfold month_day_of_doe. cbv zeta in *. cbn [fst].
  set (doy := (doe - _)%Z) in *.
  assert (Hmp : (0 <= (5 * doy + 2) / 153 <= 11)%Z)
    by (Z.to_euclidean_division_equations; lia).
  destruct ((5 * doy + 2) / 153 <? 10)%Z eqn:E;
    [apply Z.ltb_lt in E | apply Z.ltb_ge in E]; lia.
Qed.

Lemma month_of_local_datetime utcoffset t :
  month (local_datetime utcoffset t)
  = fst (month_day_of_doe (((t + utcoffset) / 86400 + 719468) mod 146097)).
Proof.
  set (z := ((t + utcoffset) / 86400 + 719468)%Z).
  replace (z mod 146097)%Z with (z - z / 146097 * 146097)%Z
    by (rewrite Z.mod_eq by lia; ring).
  unfold local_datetime, civil_from_days, month_day_of_doe.
  fold z. reflexivity.
Qed.

(** [datetime.now().month] is a month of the year. *)
Lemma month_in_range utcoffset t :
  (1 <= month (local_datetime utcoffset t) <= 12)%Z.
Proof.
  rewrite month_of_local_datetime. apply month_of_doe_in_range.
  apply Z.mod_pos_bound. lia.
Qed.

Lemma seasonal_cases m :
  (1 <= m <= 12)%Z ->
  ((m = 12 \/ m = 1 \/ m = 2)%Z /\
   seasonal_rules m no_suggestions = add_crop_care winter_care no_suggestions) \/
  ((3 <= m <= 5)%Z /\
   seasonal_rules m no_suggestions = add_weekly spring_planning no_suggestions) \/
  ((6 <= m <= 8)%Z /\
   seasonal_rules m no_suggestions
   = add_irrigation summer_irrigation no_suggestions) \/
  ((9 <= m <= 11)%Z /\
   seasonal_rules m no_suggestions = add_weekly fall_planning no_suggestions).
Proof.
  intros Hm.
  assert (H : (m = 1 \/ m = 2 \/ m = 3 \/ m = 4 \/ m = 5 \/ m = 6 \/ m = 7 \/
               m = 8 \/ m = 9 \/ m = 10 \/ m = 11 \/ m = 12)%Z) by lia.
  destruct H as [->|[->|[->|[->|[->|[->|[->|[->|[->|[->|[->| ->]]]]]]]]]]];
    [ left | left | right; left | right; left | right; left
    | do 2 right; left | do 2 right; left | do 2 right; left
    | do 3 right | do 3 right | do 3 right | left ];
    (split; [lia | reflexivity]).
Qed.

(** X12.  The month read from the host's clock is one of 1 to 12, so
    every advisory set holds exactly one seasonal tip: the winter
    crop-care tip in December to February, the spring planning item in
    March to May, the summer irrigation tip in June to August, the fall
    planning item in September to November. *)
Theorem one_seasonal_tip_by_month
  (current : current_weather) (forecast : list forecast_item)
  (w : world) (tr : list event) :
  let m := month_now w in
  exists s,
    _generate_agricultural_suggestions current forecast w tr = (Ok s, tr) /\
    (1 <= m <= 12)%Z /\
    appears_exactly_when s (m = 12 \/ m = 1 \/ m = 2)%Z CropCare winter_care /\
    appears_exactly_when s (3 <= m <= 5)%Z Weekly spring_planning /\
    appears_exactly_when s (6 <= m <= 8)%Z Irrigation summer_irrigation /\
    appears_exactly_when s (9 <= m <= 11)%Z Weekly fall_planning.
Proof.
  cbv zeta. eexists. split; [apply engine_from_parts|].
  set (m := month_now w).
  assert (Hm : (1 <= m <= 12)%Z) by apply month_in_range.
  split; [assumption|].
  unfold appears_exactly_when.
  set (part := seasonal_rules m no_suggestions).
  destruct (seasonal_cases m Hm) as [[P E]|[[P E]|[[P E]|[P E]]]];
    fold part in E;
    (split; [|split; [|split]]); split;
    try (intros H; exfalso; lia);
    try (intros _; from_part part; rewrite E; simpl; auto);
    try (intros _; exact P);
    intros H; own_group H; fold part in H; rewrite E in H; absent H.
Qed.

(** ** Advisory rule engine: order of the entries *)

Lemma is_selection_sound l m : is_selection l m = true -> selection l m.
Proof.
  revert l. induction m as [|y m IH]; intros l; destruct l as [|x l]; simpl.
  - constructor.
  - discriminate.
  - intros _. apply selection_skip. apply IH. now destruct m.
  - destruct (String.eqb x y) eqn:E; intros H.
    + apply String.eqb_eq in E. subst y. apply selection_take. now apply IH.
    + apply selection_skip. now apply IH.
Qed.

Lemma selection_app l1 m1 l2 m2 :
  selection l1 m1 -> selection l2 m2 -> selection (l1 ++ l2) (m1 ++ m2).
Proof.
  induction 1 as [|x l m _ IH|x l m _ IH]; intros H2; simpl.
  - assumption.
  - apply selection_skip. now apply IH.
  - apply selection_take. now apply IH.
Qed.

Lemma selection_incl l m : selection l m -> incl l m.
Proof.
  induction 1 as [|x l m _ IH|x l m _ IH]; intros y Hy.
  - destruct Hy.
  - right. now apply IH.
  - destruct Hy as [->|Hy]; [now left | right; now apply IH].
Qed.

Lemma selection_NoDup l m : selection l m -> NoDup m -> NoDup l.
Proof.
  induction 1 as [|x l m Hs IH|x l m Hs IH]; intros Hm.
  - constructor.
  - inversion Hm. auto.
  - inversion Hm as [|? ? Hx Hm']; subst. constructor; [|auto].
    intros Hin. apply Hx. now apply (selection_incl _ _ Hs).
Qed.

Lemma selection_length l m :
  selection l m -> (List.length l <= List.length m)%nat.
Proof. induction 1; simpl; lia. Qed.

Lemma within_join ma a mb b :
  within ma a -> within mb b -> within (join ma mb) (join a b).
Proof.
  intros Ha Hb c. rewrite !join_entries. now apply selection_app.
Qed.

Lemma within_fold_join orders parts :
  Forall2 within orders parts ->
  forall m0 s0, within m0 s0 ->
  within (fold_left join orders m0) (fold_left join parts s0).
Proof.
  induction 1 as [|m p orders parts Hmp _ IH]; intros m0 s0 H0; simpl.
  - assumption.
  - apply IH. now apply within_join.
Qed.

(** Closes [within order part] once the branch of the rule is fixed. *)
Ltac within_order :=
  intros c; apply is_selection_sound; destruct c; vm_compute; reflexivity.

Lemma rule_parts_within current forecast m :
  Forall2 within group_orders (rule_parts current forecast m).
Proof.
  unfold group_orders, rule_parts.
  repeat apply Forall2_cons; [..|apply Forall2_nil].
  - unfold temperature_rules.
    destruct (Qltb _ 5); [|destruct (Qgtb _ 35)]; within_order.
  - unfold humidity_rules.
    destruct (Qgtb _ 80); [|destruct (Qltb _ 30)]; within_order.
  - unfold condition_rules.
    destruct (str_in "rain" _); [|destruct (_ || _)]; within_order.
  - unfold wind_rules. destruct (Qgtb _ 10); within_order.
  - unfold rain_part. destruct (planning_days forecast); [within_order|].
    unfold rain_rules.
    destruct (Qgtb _ 10); [|destruct (Qltb _ 1)]; within_order.
  - unfold trend_part. destruct (planning_days forecast); [within_order|].
    unfold trend_rules.
    destruct (Qgtb _ _); [|destruct (Qltb _ _)]; within_order.
  - unfold seasonal_rules.
    repeat match goal with
           | |- context [if ?b then _ else _] => destruct b
           end; within_order.
Qed.

Lemma category_order_NoDup c : NoDup (category_order c).
Proof.
  destruct c; simpl;
    repeat (constructor; [intros T; wrong_group T|]); constructor.
Qed.

(** X13.  In every advisory set each category is a selection, in this
    order, from the texts the rules can put there (immediate: frost,
    heat, rain, wind; and so on for the other four): the entries follow
    the order of the rule groups, none is repeated, and a category holds
    at most 4, 6, 5, 6 and 1 entries. *)
Theorem categories_follow_rule_order
  (current : current_weather) (forecast : list forecast_item)
  (w : world) (tr : list event) :
  exists s,
    _generate_agricultural_suggestions current forecast w tr = (Ok s, tr) /\
    forall c,
      selection (entries c s) (category_order c) /\
      NoDup (entries c s) /\
      (List.length (entries c s) <= List.length (category_order c))%nat.
Proof.
  eexists. split; [apply engine_from_parts|].
  assert (Hw : within (join_all group_orders)
                 (join_all (rule_parts current forecast (month_now w)))).
  { apply within_fold_join; [apply rule_parts_within|].
    intros c. destruct c; constructor. }
  intros c.
  assert (Hsel : selection
                   (entries c (join_all (rule_parts current forecast (month_now w))))
                   (category_order c)).
  { specialize (Hw c). now destruct c. }
  split; [assumption|]. split.
  - eapply selection_NoDup; [eassumption | apply category_order_NoDup].
  - now apply selection_length.
Qed.

(** ** Normalizer *)

Lemma to_lower_to_upper c : to_lower (to_upper c) = to_lower c.
Proof. destruct c as [[] [] [] [] [] [] [] []]; reflexivity. Qed.

Lemma to_lower_to_lower c : to_lower (to_lower c) = to_lower c.
Proof. destruct c as [[] [] [] [] [] [] [] []]; reflexivity. Qed.

Lemma lower_title_from s : forall prev, lower (title_from prev s) = lower s.
Proof.
  induction s as [|c s IH]; intros prev; simpl; [reflexivity|].
  rewrite IH. destruct prev;
    [now rewrite to_lower_to_lower | now rewrite to_lower_to_upper].
Qed.

Lemma format_current_description utcoffset data cw :
  _format_current_weather utcoffset data = Ok cw ->
  exists d, raw_description (c_weather data) = Some d /\
            cw_description cw = title d.
Proof.
  unfold _format_current_weather, iso_of_timestamp,
    raw_description.
  rewrite py_div_1000. simpl.
  repeat (next_access; try discriminate).
  intros H. inversion H. simpl. eexists. split; reflexivity.
Qed.

(** X14.  Title-casing by the normalizer does not change what the engine
    matches: for a current observation with an ASCII description [d] that
    normalizes, the description the engine searches for "rain", "clear"
    and "sunny" is [d] in lower case. *)
Theorem engine_matches_raw_description
  (utcoffset : Z) (data : current_payload) (cw : current_weather) (d : string) :
  _format_current_weather utcoffset data = Ok cw ->
  raw_description (c_weather data) = Some d ->
  is_ascii d = true ->
  lower (cw_description cw) = lower d.
Proof.
  intros Hf Hd _.
  destruct (format_current_description _ _ _ Hf) as (d' & Hd' & ->).
  rewrite Hd in Hd'. inversion Hd'. apply lower_title_from.
Qed.

Lemma engine_matches_raw_description_witness :
  exists cw,
    _format_current_weather 0 current_body = Ok cw /\
    lower (cw_description cw) = lower "light rain".
Proof.
  eexists. split; [reflexivity|].
  apply (engine_matches_raw_description 0 current_body _ "light rain");
    reflexivity.
Defined.

Lemma format_item_fields utcoffset item fi :
  format_forecast_item utcoffset item = Ok fi ->
  sample_of_entry utcoffset item fi.
Proof.
  unfold format_forecast_item, iso_of_timestamp, sample_of_entry.
  simpl.
  repeat (next_access; try discriminate).
  intros H. inversion H. simpl.
  split; [eexists; split; reflexivity|].
  split; [eexists; split; [reflexivity|]; repeat split; eassumption|].
  split.
  - do 3 eexists. split; [reflexivity|].
    split; [eassumption|]. split; [reflexivity|]. split; eassumption.
  - eexists. split; [reflexivity | eassumption].
Qed.

Lemma forecast_normalization_is_entrywise_aux utcoffset data samples :
  _format_forecast_data utcoffset data = Ok samples ->
  exists items,
    f_list data = Some items /\
    Forall2 (sample_of_entry utcoffset) items samples.
Proof.
  unfold _format_forecast_data.
  destruct (f_list data) as [items|]; simpl; [|discriminate].
  intros H. exists items. split; [reflexivity|].
  apply mapM_Ok_inv in H.
  induction H as [|item fi items samples Hfi _ IH]; constructor; auto.
  now apply format_item_fields.
Qed.

(** X15.  Forecast normalization keeps the number and the order of the
    provider's entries: the i-th sample carries the i-th entry's
    timestamp as local ISO time, its temperature, feels-like, humidity,
    pressure, condition, icon and wind speed unchanged, and its
    description title-cased. *)
Theorem forecast_normalization_is_entrywise
  (utcoffset : Z) (data : forecast_payload) (samples : list forecast_item) :
  _format_forecast_data utcoffset data = Ok samples ->
  exists items,
    f_list data = Some items /\
    Forall2 (sample_of_entry utcoffset) items samples /\
    List.length samples = List.length items.
Proof.
  intros H.
  destruct (forecast_normalization_is_entrywise_aux _ _ _ H)
    as (items & Hitems & Hall).
  exists items. split; [assumption|]. split; [assumption|].
  symmetry. eapply Forall2_length. eassumption.
Qed.

Lemma forecast_normalization_is_entrywise_witness :
  let samples := match _format_forecast_data ist same_utc_day with
                 | Ok samples => samples
                 | Raise _ => []
                 end in
  exists items,
    f_list same_utc_day = Some items /\
    Forall2 (sample_of_entry ist) items samples /\
    List.length samples = List.length items.
Proof.
  cbv zeta.
  apply (forecast_normalization_is_entrywise ist same_utc_day).
  vm_compute. reflexivity.
Defined.

Lemma normalized_dates utcoffset items samples :
  Forall2 (sample_of_entry utcoffset) items samples ->
  map item_date samples
  = map (local_date utcoffset)
      (flat_map (fun item => match e_dt item with
                             | Some t => [t]
                             | None => []
                             end) items).
Proof.
  induction 1 as [|item fi items samples Hfi _ IH]; [reflexivity|].
  destruct Hfi as ((t & Ht & Hdt) & _).
  simpl. rewrite Ht, IH. simpl. f_equal.
  unfold item_date, local_date. now rewrite Hdt.
Qed.

(** X16.  Normalizing a forecast payload and aggregating it gives one
    summary per distinct calendar date of the entries' timestamps, the
    date being taken in the host's local time; on a host whose local time
    is UTC this is the UTC date. *)
Theorem one_summary_per_local_date_of_entries
  (utcoffset : Z) (data : forecast_payload) (samples : list forecast_item) :
  _format_forecast_data utcoffset data = Ok samples ->
  samples <> [] ->
  exists days,
    _get_forecast_summary samples = Ok (SummaryList days) /\
    NoDup (map date days) /\
    (forall d, In d (map date days) <->
               exists t, In t (entry_times data) /\ local_date utcoffset t = d) /\
    (forall t, local_date 0 t = utc_date t).
Proof.
  intros Hf Hne.
  destruct (forecast_normalization_is_entrywise_aux utcoffset data samples Hf)
    as (items & Hitems & Hall).
  destruct (forecast_summary_spec samples Hne)
    as (days & Hrun & _ & Hnd & Hdates & _).
  exists days. split; [assumption|]. split; [assumption|].
  split; [|reflexivity].
  intros d. rewrite Hdates, (normalized_dates _ _ _ Hall), in_map_iff.
  unfold entry_times. rewrite Hitems. simpl.
  split; intros (t & H1 & H2); exists t; auto.
Qed.

Lemma one_summary_per_local_date_of_entries_witness :
  let samples := match _format_forecast_data ist same_utc_day with
                 | Ok samples => samples
                 | Raise _ => []
                 end in
  exists days,
    _get_forecast_summary samples = Ok (SummaryList days) /\
    NoDup (map date days) /\
    (forall d, In d (map date days) <->
               exists t, In t (entry_times same_utc_day) /\
                         local_date ist t = d) /\
    (forall t, local_date 0 t = utc_date t).
Proof.
  cbv zeta.
  apply (one_summary_per_local_date_of_entries ist same_utc_day).
  - vm_compute. reflexivity.
  - vm_compute. discriminate.
Defined.

(** ** Fetching *)

(** X17.  [get_current_weather] issues exactly one request, to the
    weather URL with the coordinates, the key and metric units.  It
    succeeds exactly when the provider answers with a body that has all
    the fields the normalizer reads by subscript and whose [dt],
    [sunrise] and [sunset] are timestamps that [datetime.fromtimestamp]
    converts, their local time being from 0001-01-02T00:00:00 through
    9999-12-31T23:59:59; a failure is logged once and a success is not;
    when the request itself fails the error returned is "Failed to fetch
    weather data: " followed by the cause. *)
Theorem current_weather_fetch_outcome
  (self : WeatherService) (lat lon : Q) (w : world) (tr : list event) :
  exists r logs,
    get_current_weather self lat lon w tr
    = (r, (tr ++ Request (weather_url self) (weather_query self lat lon)
              :: logs)%list) /\
    (success r = true <->
     exists data, weather_endpoint w (weather_query self lat lon) = Body data /\
                  current_complete (utcoffset w) data = true) /\
    (success r = true -> logs = []) /\
    (success r = false -> exists msg, logs = [LogError msg]) /\
    (forall cause,
       weather_endpoint w (weather_query self lat lon) = RequestException cause ->
       r = Failure ("Failed to fetch weather data: " ++ cause)).
Proof.
  unfold get_current_weather, requests_get, logger_error, io_bind, io_ret,
    emit, ask.
  destruct (weather_endpoint w (weather_query self lat lon)) as [c|data].
  - do 2 eexists. split; [rewrite <- app_assoc; reflexivity|]. simpl.
    split; [split; [discriminate | intros (d & H & _); discriminate]|].
    split; [discriminate|]. split; [eauto|].
    intros cause H. now inversion H.
  - pose proof (format_current_raises (utcoffset w) data) as Hiff.
    destruct (_format_current_weather (utcoffset w) data) as [cw|e] eqn:E.
    + do 2 eexists. split; [reflexivity|]. simpl.
      assert (Hc : current_complete (utcoffset w) data = true).
      { destruct (current_complete (utcoffset w) data); [reflexivity|].
        destruct (proj2 Hiff eq_refl). discriminate. }
      split; [split; [eauto | reflexivity]|].
      split; [reflexivity|]. split; discriminate.
    + do 2 eexists. split; [rewrite <- app_assoc; reflexivity|]. simpl.
      assert (Hc : current_complete (utcoffset w) data = false)
        by (apply Hiff; eauto).
      split; [split; [discriminate|]|].
      { intros (d & H & Hd). inversion H; subst d. congruence. }
      split; [discriminate|]. split; [eauto | discriminate].
Qed.

(** X18.  [get_weather_forecast] issues exactly one request, to the
    forecast URL, asking for eight entries per day.  It succeeds exactly
    when the provider answers with a list all of whose entries have the
    fields the normalizer reads by subscript and a [dt] that
    [datetime.fromtimestamp] converts, its local time being from
    0001-01-02T00:00:00 through 9999-12-31T23:59:59; a failure is logged
    once and a success is not; when the request itself fails the error
    returned is "Failed to fetch forecast data: " followed by the
    cause. *)
Theorem forecast_fetch_outcome
  (self : WeatherService) (lat lon : Q) (days : Z) (w : world)
  (tr : list event) :
  exists r logs,
    get_weather_forecast self lat lon days w tr
    = (r, (tr ++ Request (forecast_url self)
                   (forecast_query self lat lon days) :: logs)%list) /\
    p_cnt (forecast_query self lat lon days) = Some (days * 8)%Z /\
    (success r = true <->
     exists data,
       forecast_endpoint w (forecast_query self lat lon days) = Body data /\
       forecast_complete (utcoffset w) data = true) /\
    (success r = true -> logs = []) /\
    (success r = false -> exists msg, logs = [LogError msg]) /\
    (forall cause,
       forecast_endpoint w (forecast_query self lat lon days)
         = RequestException cause ->
       r = Failure ("Failed to fetch forecast data: " ++ cause)).
Proof.
  unfold get_weather_forecast, requests_get, logger_error, io_bind, io_ret,
    emit, ask.
  assert (Hcnt : p_cnt (forecast_query self lat lon days) = Some (days * 8)%Z)
    by reflexivity.
  destruct (forecast_endpoint w (forecast_query self lat lon days)) as [c|data].
  - do 2 eexists. split; [rewrite <- app_assoc; reflexivity|].
    split; [assumption|]. simpl.
    split; [split; [discriminate | intros (d & H & _); discriminate]|].
    split; [discriminate|]. split; [eauto|].
    intros cause H. now inversion H.
  - pose proof (format_forecast_raises (utcoffset w) data) as Hiff.
    destruct (_format_forecast_data (utcoffset w) data) as [fc|e] eqn:E.
    + do 2 eexists. split; [reflexivity|]. split; [assumption|]. simpl.
      assert (Hc : forecast_complete (utcoffset w) data = true).
      { destruct (forecast_complete (utcoffset w) data); [reflexivity|].
        destruct (proj2 Hiff eq_refl). discriminate. }
      split; [split; [eauto | reflexivity]|].
      split; [reflexivity|]. split; discriminate.
    + do 2 eexists. split; [rewrite <- app_assoc; reflexivity|].
      split; [assumption|]. simpl.
      assert (Hc : forecast_complete (utcoffset w) data = false)
        by (apply Hiff; eauto).
      split; [split; [discriminate|]|].
      { intros (d & H & Hd). inversion H; subst d. congruence. }
      split; [discriminate|]. split; [eauto | discriminate].
Qed.

(** ** Orchestrator and route *)

Lemma forecast_summary_total forecast :
  exists v, _get_forecast_summary forecast = Ok v.
Proof.
  destruct forecast as [|x forecast].
  - now exists EmptyDict.
  - destruct (forecast_summary_spec (x :: forecast)) as (days & H & _);
      [discriminate|].
    now exists (SummaryList days).
Qed.

Lemma format_current_name utcoffset data cw :
  _format_current_weather utcoffset data = Ok cw ->
  c_name data = Some (cw_city_name cw).
Proof.
  unfold _format_current_weather, iso_of_timestamp.
  rewrite py_div_1000. simpl.
  repeat (next_access; try discriminate).
  intros H. now inversion H.
Qed.

Lemma complete_current_normalizes utcoffset data :
  current_complete utcoffset data = true ->
  exists cw, _format_current_weather utcoffset data = Ok cw.
Proof.
  intros H. apply result_Ok_or_Raise. intros Hr.
  apply format_current_raises in Hr. congruence.
Qed.

Lemma complete_forecast_normalizes utcoffset data :
  forecast_complete utcoffset data = true ->
  exists fc, _format_forecast_data utcoffset data = Ok fc.
Proof.
  intros H. apply result_Ok_or_Raise. intros Hr.
  apply format_forecast_raises in Hr. congruence.
Qed.

(** The run of the service when a fetch fails. *)
Lemma failed_fetch_run self lat lon w :
  current_fetch_fails self lat lon w \/ forecast_fetch_fails self lat lon w ->
  exists tr,
    run (get_agricultural_suggestions self lat lon) w
      = (Failure generic_fetch_error, tr) /\
    requests_of tr
      = [ Request (weather_url self) (weather_query self lat lon);
          Request (forecast_url self) (forecast_query self lat lon 5) ].
Proof.
  unfold current_fetch_fails, forecast_fetch_fails, fetch_fails.
  unfold run, get_agricultural_suggestions, get_current_weather,
    get_weather_forecast, requests_get, logger_error, io_bind, io_ret, emit, ask.
  intros Hfail.
  destruct (weather_endpoint w (weather_query self lat lon)) as [c1|d1];
    [|destruct (_format_current_weather (utcoffset w) d1) as [cw|e1] eqn:E1];
    (destruct (forecast_endpoint w (forecast_query self lat lon 5)) as [c2|d2];
     [|destruct (_format_forecast_data (utcoffset w) d2) as [fc|e2] eqn:E2]);
    simpl; try (eexists; split; reflexivity).
  exfalso. destruct Hfail as [[e H]|[e H]]; discriminate.
Qed.

(** The run of the service when both bodies normalize. *)
Lemma suggestions_run_success self lat lon w tr d1 d2 cw fc :
  weather_endpoint w (weather_query self lat lon) = Body d1 ->
  forecast_endpoint w (forecast_query self lat lon 5) = Body d2 ->
  _format_current_weather (utcoffset w) d1 = Ok cw ->
  _format_forecast_data (utcoffset w) d2 = Ok fc ->
  exists v s,
    _get_forecast_summary fc = Ok v /\
    (forall tr', _generate_agricultural_suggestions cw fc w tr' = (Ok s, tr')) /\
    get_agricultural_suggestions self lat lon w tr
    = (Success {| ap_current_weather := cw;
                  ap_forecast_summary := v;
                  ap_agricultural_suggestions := s;
                  ap_location := {| latitude := lat; longitude := lon;
                                    city := cw_city_name cw |} |},
       ((tr ++ [Request (weather_url self) (weather_query self lat lon)])
        ++ [Request (forecast_url self) (forecast_query self lat lon 5)])%list).
Proof.
  intros H1 H2 Hcw Hfc.
  destruct (forecast_summary_total fc) as [v Hv].
  destruct (engine_run cw fc) as (planned & _ & Hrun).
  exists v. eexists.
  split; [assumption|]. split; [intros tr'; apply Hrun|].
  unfold get_agricultural_suggestions, get_current_weather,
    get_weather_forecast, requests_get, logger_error, io_bind, io_ret, emit, ask.
  rewrite H1, Hcw, H2, Hfc, Hrun, Hv. reflexivity.
Qed.

(** X19.  When the provider answers both requests with bodies that have
    all the fields the normalizer reads, the service succeeds: its
    payload holds the normalized current weather, the aggregator's
    summary of the normalized forecast, the engine's advisory set for the
    two, and the coordinates asked for with the provider's place name as
    city; the two requests are the whole trace (nothing is logged). *)
Theorem suggestions_payload
  (self : WeatherService) (lat lon : Q) (w : world)
  (d1 : current_payload) (d2 : forecast_payload) :
  weather_endpoint w (weather_query self lat lon) = Body d1 ->
  forecast_endpoint w (forecast_query self lat lon 5) = Body d2 ->
  current_complete (utcoffset w) d1 = true ->
  forecast_complete (utcoffset w) d2 = true ->
  exists cw fc v s,
    _format_current_weather (utcoffset w) d1 = Ok cw /\
    _format_forecast_data (utcoffset w) d2 = Ok fc /\
    _get_forecast_summary fc = Ok v /\
    (forall tr, _generate_agricultural_suggestions cw fc w tr = (Ok s, tr)) /\
    c_name d1 = Some (cw_city_name cw) /\
    run (get_agricultural_suggestions self lat lon) w
    = (Success {| ap_current_weather := cw;
                  ap_forecast_summary := v;
                  ap_agricultural_suggestions := s;
                  ap_location := {| latitude := lat; longitude := lon;
                                    city := cw_city_name cw |} |},
       [ Request (weather_url self) (weather_query self lat lon);
         Request (forecast_url self) (forecast_query self lat lon 5) ]).
Proof.
  intros H1 H2 Hc1 Hc2.
  destruct (complete_current_normalizes _ _ Hc1) as [cw Hcw].
  destruct (complete_forecast_normalizes _ _ Hc2) as [fc Hfc].
  destruct (suggestions_run_success self lat lon w [] d1 d2 cw fc H1 H2 Hcw Hfc)
    as (v & s & Hv & Hs & Hrun).
  exists cw, fc, v, s. repeat (split; [assumption|]).
  split; [now apply format_current_name with (utcoffset := utcoffset w)|].
  exact Hrun.
Qed.

Lemma suggestions_payload_witness :
  exists cw fc v s,
    _format_current_weather (utcoffset online) current_body = Ok cw /\
    _format_forecast_data (utcoffset online) same_utc_day = Ok fc /\
    _get_forecast_summary fc = Ok v /\
    (forall tr, _generate_agricultural_suggestions cw fc online tr = (Ok s, tr)) /\
    c_name current_body = Some (cw_city_name cw) /\
    run (get_agricultural_suggestions service 19 72) online
    = (Success {| ap_current_weather := cw;
                  ap_forecast_summary := v;
                  ap_agricultural_suggestions := s;
                  ap_location := {| latitude := 19; longitude := 72;
                                    city := cw_city_name cw |} |},
       [ Request (weather_url service) (weather_query service 19 72);
         Request (forecast_url service) (forecast_query service 19 72 5) ]).
Proof.
  apply (suggestions_payload service 19 72 online current_body same_utc_day);
    reflexivity.
Defined.

(** The run of the service, whatever the provider answers. *)
Lemma suggestions_run_outcome (self : WeatherService) (lat lon : Q) (w : world) :
  exists r tr,
    run (get_agricultural_suggestions self lat lon) w = (r, tr) /\
    requests_of tr
    = [ Request (weather_url self) (weather_query self lat lon);
        Request (forecast_url self) (forecast_query self lat lon 5) ] /\
    (r = Failure generic_fetch_error \/ exists payload, r = Success payload) /\
    (success r = true <->
     (exists d1, weather_endpoint w (weather_query self lat lon) = Body d1 /\
                 current_complete (utcoffset w) d1 = true) /\
     (exists d2, forecast_endpoint w (forecast_query self lat lon 5) = Body d2 /\
                 forecast_complete (utcoffset w) d2 = true)) /\
    (success r = true -> tr = requests_of tr).
Proof.
  destruct (weather_endpoint w (weather_query self lat lon)) as [c1|d1] eqn:E1.
  { destruct (failed_fetch_run self lat lon w) as (tr & Hrun & Hreq).
    - left. unfold current_fetch_fails, fetch_fails. now rewrite E1.
    - exists (Failure generic_fetch_error), tr.
      split; [assumption|]. split; [assumption|]. split; [now left|].
      split; [|discriminate].
      split; [discriminate | intros [(d & H & _) _]; discriminate]. }
  destruct (_format_current_weather (utcoffset w) d1) as [cw|e1] eqn:F1.
  2:{ destruct (failed_fetch_run self lat lon w) as (tr & Hrun & Hreq).
      - left. unfold current_fetch_fails, fetch_fails. rewrite E1. eauto.
      - exists (Failure generic_fetch_error), tr.
        split; [assumption|]. split; [assumption|]. split; [now left|].
        split; [|discriminate].
        split; [discriminate|]. intros [(d & H & Hd) _]. inversion H; subst d.
        destruct (complete_current_normalizes _ _ Hd). congruence. }
  destruct (forecast_endpoint w (forecast_query self lat lon 5)) as [c2|d2] eqn:E2.
  { destruct (failed_fetch_run self lat lon w) as (tr & Hrun & Hreq).
    - right. unfold forecast_fetch_fails, fetch_fails. now rewrite E2.
    - exists (Failure generic_fetch_error), tr.
      split; [assumption|]. split; [assumption|]. split; [now left|].
      split; [|discriminate].
      split; [discriminate | intros [_ (d & H & _)]; discriminate]. }
  destruct (_format_forecast_data (utcoffset w) d2) as [fc|e2] eqn:F2.
  2:{ destruct (failed_fetch_run self lat lon w) as (tr & Hrun & Hreq).
      - right. unfold forecast_fetch_fails, fetch_fails. rewrite E2. eauto.
      - exists (Failure generic_fetch_error), tr.
        split; [assumption|]. split; [assumption|]. split; [now left|].
        split; [|discriminate].
        split; [discriminate|]. intros [_ (d & H & Hd)]. inversion H; subst d.
        destruct (complete_forecast_normalizes _ _ Hd). congruence. }
  destruct (suggestions_run_success self lat lon w [] d1 d2 cw fc E1 E2 F1 F2)
    as (v & s & _ & _ & Hrun).
  do 2 eexists. split; [exact Hrun|]. split; [reflexivity|].
  split; [right; eauto|]. split; [|reflexivity].
  split; [|reflexivity]. intros _. split.
  - exists d1. split; [reflexivity|].
    destruct (current_complete (utcoffset w) d1) eqn:C; [reflexivity|].
    apply format_current_raises in C as [e He]. congruence.
  - exists d2. split; [reflexivity|].
    destruct (forecast_complete (utcoffset w) d2) eqn:C; [reflexivity|].
    apply format_forecast_raises in C as [e He]. congruence.
Qed.

(** X20.  For every world the service issues its two requests and
    answers either a success or the fixed fetch failure: the handler for
    errors while generating suggestions is never taken.  It succeeds
    exactly when both answers are bodies with all the fields the
    normalizer reads by subscript and with timestamps ([dt], and
    [sunrise] and [sunset] of the current observation) that
    [datetime.fromtimestamp] converts, their local time being from
    0001-01-02T00:00:00 through 9999-12-31T23:59:59; and then nothing is
    logged. *)
Theorem suggestions_outcome (self : WeatherService) (lat lon : Q) (w : world) :
  exists r tr,
    run (get_agricultural_suggestions self lat lon) w = (r, tr) /\
    requests_of tr
    = [ Request (weather_url self) (weather_query self lat lon);
        Request (forecast_url self) (forecast_query self lat lon 5) ] /\
    (r = Failure generic_fetch_error \/ exists payload, r = Success payload) /\
    (success r = true <->
     (exists d1, weather_endpoint w (weather_query self lat lon) = Body d1 /\
                 current_complete (utcoffset w) d1 = true) /\
     (exists d2, forecast_endpoint w (forecast_query self lat lon 5) = Body d2 /\
                 forecast_complete (utcoffset w) d2 = true)) /\
    (success r = true -> tr = requests_of tr).
Proof. apply suggestions_run_outcome. Qed.

(** X21.  A user whose latitude or longitude is unset or is 0 (a place on
    the equator or on the prime meridian) is answered 400 "Location not
    set" by the weather route, and no request is made for them. *)
Theorem unset_or_zero_location_is_refused
  (ws : WeatherService) (u : user) (w : world) (tr : list event) :
  u_latitude u = None \/ u_longitude u = None \/
  (exists q, u_latitude u = Some q /\ q == 0) \/
  (exists q, u_longitude u = Some q /\ q == 0) ->
  get_weather_suggestions ws u w tr
  = ((ErrorBody location_not_set, 400%Z), tr).
Proof.
  unfold get_weather_suggestions.
  intros [H|[H|[(q & H & Hq)|(q & H & Hq)]]]; rewrite H.
  - reflexivity.
  - now destruct (u_latitude u).
  - destruct (u_longitude u); [|reflexivity].
    apply Qeq_bool_iff in Hq. now rewrite Hq.
  - destruct (u_latitude u); [|reflexivity].
    apply Qeq_bool_iff in Hq. now rewrite Hq, orb_true_r.
Qed.

Lemma unset_or_zero_location_is_refused_witness :
  get_weather_suggestions service equator_user online []
  = ((ErrorBody location_not_set, 400%Z), []).
Proof.
  apply (unset_or_zero_location_is_refused service equator_user online []).
  right; right; left. exists 0. split; reflexivity.
Defined.

(** X22.  For a user with both coordinates set and not 0 the weather
    route calls the service with them and answers 200 with the service's
    payload when the service succeeds, 500 with the fixed fetch-failure
    text otherwise; the provider's cause text is never in the answer. *)
Theorem weather_route_outcome
  (ws : WeatherService) (u : user) (lat lon : Q) (w : world) :
  u_latitude u = Some lat -> u_longitude u = Some lon ->
  ~ lat == 0 -> ~ lon == 0 ->
  exists r tr,
    run (get_agricultural_suggestions ws lat lon) w = (r, tr) /\
    run (get_weather_suggestions ws u) w
    = (match r with
       | Success payload => (DataBody payload, 200%Z)
       | Failure _ => (ErrorBody generic_fetch_error, 500%Z)
       end, tr) /\
    requests_of tr
    = [ Request (weather_url ws) (weather_query ws lat lon);
        Request (forecast_url ws) (forecast_query ws lat lon 5) ].
Proof.
  intros Hlat Hlon Hn1 Hn2.
  destruct (suggestions_run_outcome ws lat lon w)
    as (r & tr & Hrun & Hreq & Hr & _).
  exists r, tr. split; [assumption|]. split; [|assumption].
  unfold run, get_weather_suggestions in *. rewrite Hlat, Hlon.
  assert (E1 : Qeq_bool lat 0 = false).
  { destruct (Qeq_bool lat 0) eqn:E; [|reflexivity].
    apply Qeq_bool_iff in E. contradiction. }
  assert (E2 : Qeq_bool lon 0 = false).
  { destruct (Qeq_bool lon 0) eqn:E; [|reflexivity].
    apply Qeq_bool_iff in E. contradiction. }
  rewrite E1, E2. simpl. unfold io_bind. rewrite Hrun.
  destruct Hr as [->|[payload ->]]; reflexivity.
Qed.

Lemma weather_route_outcome_witness :
  exists r tr,
    run (get_agricultural_suggestions service 19 72) online = (r, tr) /\
    run (get_weather_suggestions service mumbai_user) online
    = (match r with
       | Success payload => (DataBody payload, 200%Z)
       | Failure _ => (ErrorBody generic_fetch_error, 500%Z)
       end, tr) /\
    requests_of tr
    = [ Request (weather_url service) (weather_query service 19 72);
        Request (forecast_url service) (forecast_query service 19 72 5) ].
Proof.
  apply (weather_route_outcome service mumbai_user 19 72 online);
    try reflexivity; intros H; discriminate H.
Defined.

Lemma texts_disjoint (l1 l2 : list string) x :
  forallb (fun t => negb (text_in t l2)) l1 = true ->
  In x l1 -> In x l2 -> False.
Proof.
  rewrite forallb_forall. intros H H1 H2.
  specialize (H x H1). apply text_in_In in H2. rewrite H2 in H. discriminate.
Qed.

(** X23.  When the provider's forecast answer holds an empty list and its
    current observation is complete, the service still succeeds: the
    [forecast_summary] of its payload is the empty dictionary, not a
    list, and the advisory set holds none of the rain and trend
    texts. *)
Theorem empty_forecast_list_still_succeeds
  (self : WeatherService) (lat lon : Q) (w : world)
  (d1 : current_payload) (d2 : forecast_payload) :
  weather_endpoint w (weather_query self lat lon) = Body d1 ->
  forecast_endpoint w (forecast_query self lat lon 5) = Body d2 ->
  current_complete (utcoffset w) d1 = true ->
  f_list d2 = Some [] ->
  exists payload tr,
    run (get_agricultural_suggestions self lat lon) w = (Success payload, tr) /\
    ap_forecast_summary payload = EmptyDict /\
    forall text, In text (rain_texts ++ trend_texts) ->
                 ~ mentions (ap_agricultural_suggestions payload) text.
Proof.
  intros H1 H2 Hc Hlist.
  destruct (complete_current_normalizes _ _ Hc) as [cw Hcw].
  assert (Hfc : _format_forecast_data (utcoffset w) d2 = Ok []).
  { unfold _format_forecast_data. now rewrite Hlist. }
  destruct (suggestions_run_success self lat lon w [] d1 d2 cw [] H1 H2 Hcw Hfc)
    as (v & s & Hv & Hs & Hrun).
  do 2 eexists. split; [exact Hrun|].
  cbn [ap_forecast_summary ap_agricultural_suggestions].
  split; [now inversion Hv|].
  intros text Htext Hm.
  specialize (Hs []). rewrite engine_from_parts in Hs. inversion Hs as [Heq].
  rewrite <- Heq in Hm.
  apply engine_mentions in Hm.
  destruct Hm as [[T H]|[[T H]|[[T H]|[[T H]|[[T H]|[[T H]|[T H]]]]]]];
    try (now apply mentions_nothing in H);
    (exfalso;
     eapply (texts_disjoint _ (rain_texts ++ trend_texts)%list text);
     [ | exact T | exact Htext ]; vm_compute; reflexivity).
Qed.

Lemma empty_forecast_list_still_succeeds_witness :
  exists payload tr,
    run (get_agricultural_suggestions service 19 72) no_forecast
      = (Success payload, tr) /\
    ap_forecast_summary payload = EmptyDict /\
    forall text, In text (rain_texts ++ trend_texts) ->
                 ~ mentions (ap_agricultural_suggestions payload) text.
Proof.
  apply (empty_forecast_list_still_succeeds service 19 72 no_forecast
           current_body {| f_list := Some [] |}); reflexivity.
Defined.
